(** * product-scrapper: the extraction pipeline of [services/scraper.js]

    A shallow embedding of the orchestration code of the scraper service
    (platform detection, index/AI escalation and merge, delivery inquiry,
    normalisation, validation and the file cache) together with the
    properties of that code.

    The renderer (puppeteer), the AI service (Gemini), the file system and
    the clock are external: every interaction with them is a field of an
    environment record that gives the outcome of the interaction, and the
    code is a function of that environment in a state-and-exception monad
    whose state holds the trace of external calls and the cache store. *)

From Stdlib Require Import ZArith Lia Ascii String.
From stdpp Require Import gmap strings list pretty.

Local Open Scope string_scope.
Local Open Scope Z_scope.

(** ** JavaScript values *)

(** Numbers are the integers: the code only computes lengths, indices and
    time stamps.  Arrays and objects are values; an object keeps its
    properties in the order in which they are enumerated. *)
#[warnings="-register-all"]
Inductive JsVal : Type :=
| JUndefined
| JNull
| JBool (b : bool)
| JNum (n : Z)
| JStr (s : string)
| JArr (l : list JsVal)
| JObj (o : list (string * JsVal)).

Abbreviation Obj := (list (string * JsVal)).

(** ToBoolean *)
Definition truthy (v : JsVal) : bool :=
  match v with
  | JUndefined | JNull => false
  | JBool b => b
  | JNum n => negb (Z.eqb n 0)
  | JStr s => negb (String.eqb s EmptyString)
  | JArr _ | JObj _ => true
  end.

(** [a || b] *)
Definition js_or (a b : JsVal) : JsVal := if truthy a then a else b.

(** [a ?? b] *)
Definition js_nullish (a b : JsVal) : JsVal :=
  match a with
  | JUndefined | JNull => b
  | _ => a
  end.

Definition isArray (v : JsVal) : bool :=
  match v with JArr _ => true | _ => false end.

Definition is_undefined (v : JsVal) : bool :=
  match v with JUndefined => true | _ => false end.

(** Own property lookup on an object; a missing key reads as [undefined]. *)
Fixpoint get (k : string) (o : Obj) : JsVal :=
  match o with
  | [] => JUndefined
  | (k', v) :: o' => if String.eqb k k' then v else get k o'
  end.

Fixpoint has_key (k : string) (o : Obj) : bool :=
  match o with
  | [] => false
  | (k', _) :: o' => String.eqb k k' || has_key k o'
  end.

(** The number that a key is the canonical text of, when it is an array
    index: such keys come first among the properties of an object, in
    ascending order, and the other keys follow in insertion order. *)
Fixpoint digits_value (s : string) (acc : N) : option N :=
  match s with
  | EmptyString => Some acc
  | String c s' =>
      let b := Ascii.N_of_ascii c in
      if ((48 <=? b) && (b <=? 57))%N then digits_value s' (acc * 10 + (b - 48))%N
      else None
  end.

Definition array_index (k : string) : option N :=
  match digits_value k 0 with
  | Some n => if String.eqb (pretty n) k && (n <? 4294967295)%N then Some n else None
  | None => None
  end.

(** A new key [k] goes before the key [k'] of the object. *)
Definition key_before (k k' : string) : bool :=
  match array_index k, array_index k' with
  | Some n, Some n' => (n <? n')%N
  | Some _, None => true
  | None, _ => false
  end.

(** Assignment [o[k] = v]: an existing key keeps its position. *)
Fixpoint set (k : string) (v : JsVal) (o : Obj) : Obj :=
  match o with
  | [] => [(k, v)]
  | (k', v') :: o' =>
      if String.eqb k k' then (k', v) :: o'
      else if key_before k k' && negb (has_key k o') then (k, v) :: o
      else (k', v') :: set k v o'
  end.

(** [{...acc, ...src}]: the properties of [src] are assigned in order. *)
Definition assign (acc src : Obj) : Obj :=
  fold_left (fun a kv => set (fst kv) (snd kv) a) src acc.

(** A string is kept in its UTF-8 encoding, one byte per character of
    [string].  [utf8 n] is the encoding of the code point [n], for the
    code points of the basic plane. *)
Definition utf8 (n : N) : string :=
  let byte (b : N) := Ascii.ascii_of_N b in
  if (n <? 0x80)%N then String (byte n) EmptyString
  else if (n <? 0x800)%N then
    String (byte (0xC0 + n / 64)%N) (String (byte (0x80 + n mod 64)%N) EmptyString)
  else
    String (byte (0xE0 + n / 4096)%N)
      (String (byte (0x80 + (n / 64) mod 64)%N)
         (String (byte (0x80 + n mod 64)%N) EmptyString)).

(** [s.length]: the number of UTF-16 code units of the string.  A byte
    that starts a character of the basic plane counts for one unit, a
    byte that starts any other character for two, and a continuation
    byte for none. *)
Fixpoint js_length (s : string) : nat :=
  match s with
  | EmptyString => O
  | String c s' =>
      let b := Ascii.N_of_ascii c in
      ((if (b <? 0x80)%N then 1
        else if (b <? 0xC0)%N then 0
        else if (b <? 0xF0)%N then 1
        else 2) + js_length s')%nat
  end.

(** A continuation byte of an encoded character. *)
Definition continuation (c : ascii) : bool :=
  let b := Ascii.N_of_ascii c in ((0x80 <=? b) && (b <? 0xC0))%N.

(** The characters of a string, as string iteration yields them: one
    string for every encoded character. *)
Fixpoint chars (s : string) : list JsVal :=
  match s with
  | EmptyString => []
  | String c s' =>
      let rest := chars s' in
      match s', rest with
      | String d _, JStr next :: rest' =>
          if continuation d then JStr (String c next) :: rest'
          else JStr (String c EmptyString) :: rest
      | _, _ => JStr (String c EmptyString) :: rest
      end
  end.

(** The code units of a string, each as a string: a character of the
    basic plane is one unit, and a character of four bytes gives the two
    halves of its surrogate pair (kept in the three-byte form of their
    code points). *)
Definition units_of (char : JsVal) : list JsVal :=
  match char with
  | JStr (String a (String b (String c (String d EmptyString)))) =>
      let byte (x : ascii) := Ascii.N_of_ascii x in
      let n := ((byte a - 0xF0) * 262144 + (byte b - 0x80) * 4096
                + (byte c - 0x80) * 64 + (byte d - 0x80) - 0x10000)%N in
      [JStr (utf8 (0xD800 + n / 1024)%N); JStr (utf8 (0xDC00 + n mod 1024)%N)]
  | _ => [char]
  end.

Definition units (s : string) : list JsVal := concat (units_of <$> chars s).

(** Keys ["0"], ["1"], ... for the elements of an array or string. *)
Definition indexed (l : list JsVal) : Obj :=
  imap (fun i v => (pretty (N.of_nat i), v)) l.

(** The own enumerable properties copied by an object spread [{...v}]:
    those of an object, the elements of an array, the code units of a
    string; spreading [null], [undefined], a boolean or a number copies
    nothing. *)
Definition own_props (v : JsVal) : Obj :=
  match v with
  | JObj o => o
  | JArr l => indexed l
  | JStr s => indexed (units s)
  | _ => []
  end.

(** Array spread [[...v]]: arrays and strings are iterable, anything else
    raises a TypeError ([None]). *)
Definition iterate (v : JsVal) : option (list JsVal) :=
  match v with
  | JArr l => Some l
  | JStr s => Some (chars s)
  | _ => None
  end.

(** Property read [v.k].  Reading from [null] or [undefined] raises a
    TypeError ([None]); arrays and strings have a [length]. *)
Definition prop (v : JsVal) (k : string) : option JsVal :=
  match v with
  | JUndefined | JNull => None
  | JObj o => Some (get k o)
  | JArr l => Some (if String.eqb k "length" then JNum (Z.of_nat (length l)) else JUndefined)
  | JStr s => Some (if String.eqb k "length" then JNum (Z.of_nat (js_length s)) else JUndefined)
  | _ => Some JUndefined
  end.

(** Optional chaining [v?.k] *)
Definition opt_prop (v : JsVal) (k : string) : JsVal :=
  match prop v k with
  | Some x => x
  | None => JUndefined
  end.

(** Strict equality [a === b] between the elements of one array.  Arrays
    and objects are compared by reference; the elements of the arrays
    built here are distinct references, so two composite elements at
    different positions are never equal. *)
Definition strict_eq (a b : JsVal) : bool :=
  match a, b with
  | JUndefined, JUndefined => true
  | JNull, JNull => true
  | JBool x, JBool y => Bool.eqb x y
  | JNum x, JNum y => Z.eqb x y
  | JStr x, JStr y => String.eqb x y
  | _, _ => false
  end.

(** [a.filter((v, i, a) => a.indexOf(v) === i)]: an element is kept when no
    earlier element is strictly equal to it. *)
Fixpoint dedup_from (seen l : list JsVal) : list JsVal :=
  match l with
  | [] => []
  | v :: l' =>
      if existsb (strict_eq v) seen then dedup_from seen l'
      else v :: dedup_from (seen ++ [v])%list l'
  end.

Definition dedup (l : list JsVal) : list JsVal := dedup_from [] l.

(** ** Strings *)

Fixpoint startsWith (p s : string) : bool :=
  match p, s with
  | EmptyString, _ => true
  | String a p', String b s' => Ascii.eqb a b && startsWith p' s'
  | String _ _, EmptyString => false
  end.

Fixpoint includes (sub s : string) : bool :=
  startsWith sub s ||
  match s with
  | EmptyString => false
  | String _ s' => includes sub s'
  end.

(** [s.split('?')[0]] *)
Fixpoint before_query (s : string) : string :=
  match s with
  | EmptyString => EmptyString
  | String c s' =>
      if Ascii.eqb c "?"%char then EmptyString else String c (before_query s')
  end.

(** [s.toLowerCase()], on the letters A to Z.  (The code applies it to
    the host name of a parsed URL, which is ASCII, and to a title in which
    it looks for words made of ASCII letters that no other letter is
    lowered to.) *)
Definition lower_ascii (c : ascii) : ascii :=
  let n := Ascii.nat_of_ascii c in
  if (Nat.leb 65 n && Nat.leb n 90)%bool then Ascii.ascii_of_nat (n + 32) else c.

Fixpoint toLowerCase (s : string) : string :=
  match s with
  | EmptyString => EmptyString
  | String c s' => String (lower_ascii c) (toLowerCase s')
  end.

Global Arguments startsWith : simpl never.
Global Arguments includes : simpl never.
Global Arguments before_query : simpl never.
Global Arguments toLowerCase : simpl never.

(** ToNumber, as far as the comparisons below need it ([None] is NaN;
    numeric strings and arrays are not parsed and read as NaN). *)
Definition to_number (v : JsVal) : option Z :=
  match v with
  | JNum n => Some n
  | JNull => Some 0
  | JBool b => Some (if b then 1 else 0)
  | JStr s => if String.eqb s EmptyString then Some 0 else None
  | _ => None
  end.

(** [v > 0] *)
Definition gt_zero (v : JsVal) : bool :=
  match to_number v with
  | Some n => 0 <? n
  | None => false
  end.

Definition of_strings (l : list string) : JsVal := JArr (JStr <$> l).

(** ** Platforms *)

Inductive Platform := amazon | flipkart | myntra | snapdeal.

Definition platform_name (p : Platform) : string :=
  match p with
  | amazon => "amazon"
  | flipkart => "flipkart"
  | myntra => "myntra"
  | snapdeal => "snapdeal"
  end.

(** ** Errors *)

(** [ScraperError] carries a status code; an [Error] is any other exception
    (a renderer failure, a TypeError, ...). *)
Inductive Exn :=
| ScraperError (message : string) (statusCode : Z)
| Error (message : string).

Definition detectPlatform (url : string) : Exn + Platform :=
  if includes "amazon.in" url || includes "amzn.in" url then inr amazon
  else if includes "flipkart.com" url then inr flipkart
  else if includes "myntra.com" url then inr myntra
  else if includes "snapdeal.com" url then inr snapdeal
  else inl (ScraperError "Unsupported platform" 400).

(** ** Index-based extraction: the in-page function of
       [extractBasicDataWithIndex] *)

(** A scored candidate for a text field, and one for an image. *)
Record Candidate := { score : Z; text : string }.
Record ImageCandidate := { img_score : Z; url : string }.

(** What the document yields to the in-page function: the candidate lists
    of [findPotentialElements], the page origin, the price-like texts next
    to the best price, the list items and the breadcrumb anchors. *)
Record PageScan := {
  titleCandidates : list Candidate;
  priceCandidates : list Candidate;
  priceTexts : list string;
  descCandidates : list Candidate;
  imageCandidates : list ImageCandidate;
  origin : string;
  weightCandidates : list Candidate;
  listItems : list string;
  breadcrumbs : list string
}.

(** [l.sort((a, b) => b.score - a.score)]: descending and stable. *)
Fixpoint insert_desc {A} (key : A -> Z) (c : A) (l : list A) : list A :=
  match l with
  | [] => [c]
  | d :: l' => if key d <=? key c then c :: d :: l' else d :: insert_desc key c l'
  end.

Definition sort_desc {A} (key : A -> Z) (l : list A) : list A :=
  foldr (insert_desc key) [] l.

Definition findBestCandidate (candidates : list Candidate) : option Candidate :=
  head (sort_desc score candidates).

(** The relative-URL step of the image loop. *)
Definition absolute (origin fullUrl : string) : string :=
  if negb (String.eqb fullUrl EmptyString) && negb (startsWith "http" fullUrl)
     && negb (startsWith "data:" fullUrl)
  then
    if startsWith "//" fullUrl then "https:" +:+ fullUrl
    else if startsWith "/" fullUrl then origin +:+ fullUrl
    else origin +:+ "/" +:+ fullUrl
  else fullUrl.

(** The loop over the sorted image candidates: [uniqueImageUrls] is the
    Set, [topImages] the array; the loop stops at five images. *)
Fixpoint topImages_loop (origin : string) (candidates : list ImageCandidate)
    (uniqueImageUrls : gset string) (topImages : list string) : list string :=
  match candidates with
  | [] => topImages
  | img :: rest =>
      let fullUrl := absolute origin (url img) in
      if negb (String.eqb fullUrl EmptyString)
         && negb (includes "thumb" fullUrl)
         && negb (includes "icon" fullUrl)
         && negb (includes "logo" fullUrl)
         && negb (startsWith "data:" fullUrl)
      then
        let fullUrl := before_query fullUrl in
        if bool_decide (fullUrl ∈ uniqueImageUrls)
        then topImages_loop origin rest uniqueImageUrls topImages
        else
          let topImages := (topImages ++ [fullUrl])%list in
          if (5 <=? length topImages)%nat then topImages
          else topImages_loop origin rest ({[fullUrl]} ∪ uniqueImageUrls) topImages
      else topImages_loop origin rest uniqueImageUrls topImages
  end.

Definition topImages (origin : string) (candidates : list ImageCandidate) : list string :=
  topImages_loop origin (sort_desc img_score candidates) ∅ [].

(** The object every extraction strategy starts from. *)
Definition empty_data : Obj :=
  [ ("title", JNull); ("price", JNull); ("originalPrice", JNull);
    ("description", JNull); ("features", JArr []); ("images", JArr []);
    ("variants", JObj [("sizes", JArr []); ("colors", JArr []); ("other", JArr [])]);
    ("delivery", JObj [("available", JNull); ("estimatedDate", JNull); ("charges", JNull)]);
    ("weight", JNull); ("category", JNull) ].

Definition set_text (k : string) (best : option Candidate) (data : Obj) : Obj :=
  match best with
  | Some c => set k (JStr (text c)) data
  | None => data
  end.

(** The body of the in-page function, applied to [data]. *)
Definition index_page_function (scan : PageScan) (data : Obj) : Obj :=
  let bestTitle := findBestCandidate (titleCandidates scan) in
  let data := set_text "title" bestTitle data in
  let bestPrice := findBestCandidate (priceCandidates scan) in
  let data :=
    match bestPrice with
    | Some p =>
        let data := set "price" (JStr (text p)) data in
        match filter (λ t, t ≠ text p) (priceTexts scan) with
        | t :: _ => set "originalPrice" (JStr t) data
        | [] => data
        end
    | None => data
    end in
  let bestDesc := findBestCandidate (descCandidates scan) in
  let data := set_text "description" bestDesc data in
  let data := set "images" (of_strings (topImages (origin scan) (imageCandidates scan))) data in
  let data := set_text "weight" (findBestCandidate (weightCandidates scan)) data in
  let data :=
    match bestDesc with
    | Some _ =>
        set "features"
          (of_strings (take 10
             (filter (λ t, (5 < js_length t)%nat ∧ (js_length t < 200)%nat)
                (listItems scan)))) data
    | None => data
    end in
  let crumbs :=
    filter (λ t, (0 < js_length t)%nat ∧ (js_length t < 50)%nat) (breadcrumbs scan) in
  match crumbs with
  | _ :: c :: _ => set "category" (JStr c) data
  | _ => data
  end.

(** The outcome of [page.evaluate(fn, data, pageIndex)]: the call throws,
    or the in-page function runs on the scan of the document. *)
Inductive IndexEval :=
| IndexThrows
| IndexDone (scan : PageScan).

(** The value of [await page.evaluate(fn, data, pageIndex)], [None] when
    the call throws.  The renderer hands [data] to the page by value: the
    in-page function works on a copy, and what it returns is the value of
    the call. *)
Definition page_evaluate (ev : IndexEval) (data : Obj) : option Obj :=
  match ev with
  | IndexThrows => None
  | IndexDone scan => Some (index_page_function scan data)
  end.

(** [extractBasicDataWithIndex] does not bind the value of the call: in
    the [try] as in the [catch] it returns its own [data], which the page
    has not touched. *)
Definition extractBasicDataWithIndex (ev : IndexEval) : Obj :=
  let data := empty_data in
  match page_evaluate ev data with
  | Some _ => data
  | None => data
  end.

(** ** The world: trace of external calls and cache store *)

Inductive Event :=
| EvLaunch                      (* puppeteer.launch *)
| EvNewPage                     (* browser.newPage and setUserAgent *)
| EvGoto (url : string)         (* page.goto *)
| EvClose                       (* browser.close *)
| EvExtractDataWithAI           (* extractDataWithAI is entered *)
| EvFillMissingDataWithAI       (* fillMissingDataWithAI is entered *)
| EvCheckDeliveryWithAI         (* checkDeliveryWithAI is entered *)
| EvGenerateContent.            (* a request is sent to the AI service *)

Global Instance Event_eq_dec : EqDecision Event.
Proof. solve_decision. Defined.

(** The events of the delivery inquiry, and of the extraction steps. *)
Definition delivery_event (e : Event) : Prop :=
  e = EvCheckDeliveryWithAI ∨ e = EvGenerateContent.

Definition gather_event (e : Event) : Prop :=
  e = EvExtractDataWithAI ∨ e = EvFillMissingDataWithAI
  ∨ e = EvCheckDeliveryWithAI ∨ e = EvGenerateContent.

(** The events of a delivery inquiry that is switched on. *)
Definition delivery_event_if (on : bool) (e : Event) : Prop :=
  delivery_event e ∧ on = true.

(** One cache file, as [cacheProduct] writes it. *)
Record CacheEntry := { timestamp : Z; entry_url : string; data : JsVal }.

Record World := {
  trace : list Event;
  files : gmap string CacheEntry
}.

(** Computations: state passing over [World], with exceptions. *)
Definition M (A : Type) : Type := World → (Exn + A) * World.

Definition ret {A} (a : A) : M A := λ w, (inr a, w).

Definition bind {A B} (c : M A) (k : A → M B) : M B :=
  λ w, match c w with
       | (inl e, w') => (inl e, w')
       | (inr a, w') => k a w'
       end.

Definition throw {A} (e : Exn) : M A := λ w, (inl e, w).

(** [try { body } catch (e) { handler e }] *)
Definition try_catch {A} (body : M A) (handler : Exn → M A) : M A :=
  λ w, match body w with
       | (inl e, w') => handler e w'
       | (inr a, w') => (inr a, w')
       end.

(** [try { body } finally { cleanup }]: an exception of [cleanup] replaces
    the outcome of [body]. *)
Definition finally {A} (body : M A) (cleanup : M unit) : M A :=
  λ w, match body w with
       | (r, w') =>
           match cleanup w' with
           | (inl e, w'') => (inl e, w'')
           | (inr _, w'') => (r, w'')
           end
       end.

Definition emit (ev : Event) : M unit :=
  λ w, (inr (), {| trace := (trace w ++ [ev])%list; files := files w |}).

Definition lift {A} (r : Exn + A) : M A := λ w, (r, w).

(** A step that either succeeds or throws. *)
Definition step (ev : Event) (ok : bool) (message : string) : M unit :=
  bind (emit ev) (λ _, if ok then ret () else throw (Error message)).

Declare Scope scraper_scope.
Delimit Scope scraper_scope with scraper.
Notation "'let!' x ':=' c 'in' k" := (bind c (λ x, k))
  (at level 10, x name, c at level 100, k at level 200) : scraper_scope.
Notation "'run!' c 'in' k" := (bind c (λ _, k))
  (at level 10, c at level 100, k at level 200) : scraper_scope.
Local Open Scope scraper_scope.

(** ** Last-resort extraction *)

(** The results of the five [page.evaluate] calls of [fallbackExtraction];
    [None] is a call that throws. *)
Record FallbackScan := {
  fb_title : option JsVal;
  fb_price : option JsVal;
  fb_images : option JsVal;
  fb_description : option JsVal;
  fb_weight : option JsVal
}.

Definition fallbackExtraction (scan : FallbackScan) (platform : Platform) : Obj :=
  let data := set "source" (JStr (platform_name platform)) empty_data in
  match fb_title scan with
  | None => data
  | Some t =>
      let data := set "title" t data in
      match fb_price scan with
      | None => data
      | Some p =>
          let data := set "price" p data in
          match fb_images scan with
          | None => data
          | Some mainImages =>
              let data :=
                if truthy mainImages && gt_zero (opt_prop mainImages "length")
                then set "images" mainImages data else data in
              match fb_description scan with
              | None => data
              | Some d =>
                  let data := set "description" d data in
                  match fb_weight scan with
                  | None => data
                  | Some wt => set "weight" wt data
                  end
              end
          end
      end
  end.

(** ** AI vision extraction *)

(** The reply of the AI service to one request: the request throws, or it
    returns a text; [parsed] is what [JSON.parse] makes of the cleaned text
    and [reparsed] what it makes of the more aggressively cleaned text
    ([None] is a SyntaxError). *)
Inductive AiReply :=
| ReplyThrows
| ReplyText (parsed reparsed : option JsVal).

(** One run of [extractDataWithAI]: whether the page content and the
    screenshot can be captured, the replies to the vision request and to
    the text-only request, and the scan of the fallback. *)
Record AiRun := {
  capture_ok : bool;
  vision : AiReply;
  text_only : AiReply;
  fallback_scan : FallbackScan
}.

(** [{ ...parsedData, source: platform }] *)
Definition with_source (parsedData : JsVal) (platform : Platform) : Obj :=
  set "source" (JStr (platform_name platform)) (assign [] (own_props parsedData)).

Definition extractDataWithAI (run : AiRun) (platform : Platform) : M Obj :=
  run! emit EvExtractDataWithAI in
  try_catch
    (if capture_ok run then
       try_catch
         (run! emit EvGenerateContent in
          match vision run with
          | ReplyThrows => throw (Error "generateContent failed")
          | ReplyText (Some parsedData) _ => ret (with_source parsedData platform)
          | ReplyText None (Some parsedData) => ret (with_source parsedData platform)
          | ReplyText None None => throw (Error "Unable to parse JSON response from AI")
          end)
         (λ aiError,
            try_catch
              (run! emit EvGenerateContent in
               match text_only run with
               | ReplyThrows => throw (Error "generateContent failed")
               | ReplyText (Some parsedData) _ => ret (with_source parsedData platform)
               | ReplyText None _ => throw (Error "Unable to parse JSON from text-only response")
               end)
              (λ textAiError, throw (Error "All AI parsing methods failed")))
     else throw (Error "page capture failed"))
    (λ error, ret (fallbackExtraction (fallback_scan run) platform)).

(** ** Index extraction with AI escalation and merge *)

(** [[...(a || []), ...(b || [])].filter((v, i, a) => a.indexOf(v) === i)];
    [None] is the TypeError of spreading a value that is not iterable. *)
Definition merge_arrays (a b : JsVal) : option JsVal :=
  match iterate (js_or a (JArr [])), iterate (js_or b (JArr [])) with
  | Some la, Some lb => Some (JArr (dedup (la ++ lb)%list))
  | _, _ => None
  end.

(** [{ ...(a || {}), ...(b || {}) }] *)
Definition merge_objects (a b : JsVal) : JsVal :=
  JObj (assign (assign [] (own_props (js_or a (JObj [])))) (own_props (js_or b (JObj [])))).

Definition mergedData (basicData aiData : Obj) (platform : Platform) : option Obj :=
  match merge_arrays (get "images" basicData) (get "images" aiData),
        merge_arrays (get "features" basicData) (get "features" aiData) with
  | Some images, Some features =>
      Some (set "variants" (merge_objects (get "variants" basicData) (get "variants" aiData))
           (set "features" features
           (set "images" images
           (set "source" (JStr (platform_name platform))
           (assign (assign [] basicData) aiData)))))
  | _, _ => None
  end.

(** The test that ends the extraction with the index result alone. *)
Definition index_complete (basicData : Obj) : bool :=
  truthy (get "title" basicData) && truthy (get "price" basicData)
  && truthy (get "description" basicData)
  && gt_zero (opt_prop (get "images" basicData) "length").

Definition extractDataWithIndexAndAI (ev : IndexEval) (first second : AiRun)
    (last_resort : FallbackScan) (platform : Platform) : M Obj :=
  try_catch
    (let basicData := extractBasicDataWithIndex ev in
     if index_complete basicData
     then ret (set "source" (JStr (platform_name platform)) (assign [] basicData))
     else
       let! aiData := extractDataWithAI first platform in
       match mergedData basicData aiData platform with
       | Some merged => ret merged
       | None => throw (Error "TypeError: not iterable")
       end)
    (λ error,
       try_catch
         (extractDataWithAI second platform)
         (λ aiError, ret (fallbackExtraction last_resort platform))).

(** ** Filling missing fields with the AI service *)

(** The reply to a fill request: the request throws, the text holds no
    JSON, or it does, with the two parses as in [AiReply]. *)
Inductive FillReply :=
| FillThrows
| FillNoJson
| FillJson (parsed reparsed : option JsVal).

(** One run of [fillMissingDataWithAI]: the images of
    [getFlipkartFullSizeImages] (empty when it fails), whether the page can
    be captured, and the replies to the vision and text-only requests. *)
Record FillRun := {
  flipkartImages : list string;
  fill_capture_ok : bool;
  fill_vision : FillReply;
  fill_text_only : FillReply
}.

Definition missing (name : string) (is_missing : bool) : list string :=
  if is_missing then [name] else [].

Definition missingFields (productData : Obj) : list string :=
  (missing "title" (negb (truthy (get "title" productData)))
   ++ missing "price" (negb (truthy (get "price" productData)))
   ++ missing "description" (negb (truthy (get "description" productData)))
   ++ missing "weight" (negb (truthy (get "weight" productData)))
   ++ missing "category" (negb (truthy (get "category" productData)))
   ++ missing "images" (strict_eq (opt_prop (get "images" productData) "length") (JNum 0)))%list.

(** [{ ...productData, ...missingData, images: [...], variants: {...} }];
    the variants are merged for the first parse only.  [None] is a
    TypeError (reading a property of [null], spreading a non-iterable). *)
Definition merge_missing (productData : Obj) (missingData : JsVal)
    (with_variants : bool) : option Obj :=
  match prop missingData "images" with
  | None => None
  | Some newImages =>
      match merge_arrays (get "images" productData) newImages with
      | None => None
      | Some images =>
          let merged :=
            set "images" images (assign (assign [] productData) (own_props missingData)) in
          if with_variants then
            match prop missingData "variants" with
            | None => None
            | Some newVariants =>
                Some (set "variants"
                        (merge_objects (get "variants" productData) newVariants) merged)
            end
          else Some merged
      end
  end.

(** The weight guessed from the title; [None] is the TypeError of calling
    [toLowerCase] on a title that is not a string. *)
Definition generic_weight (productData : Obj) : option Obj :=
  match js_or (get "title" productData) (JStr EmptyString) with
  | JStr title =>
      let titleLower := toLowerCase title in
      Some
        (if includes "watch" titleLower || includes "smartwatch" titleLower then
           set "weight" (JStr "Approx. 30-80g (typical smartwatch weight)") productData
         else if includes "phone" titleLower || includes "smartphone" titleLower then
           set "weight" (JStr "Approx. 150-200g (typical smartphone weight)") productData
         else if includes "laptop" titleLower then
           set "weight" (JStr "Approx. 1.5-2kg (typical laptop weight)") productData
         else if includes "tablet" titleLower then
           set "weight" (JStr "Approx. 300-500g (typical tablet weight)") productData
         else if includes "headphone" titleLower || includes "earphone" titleLower
                 || includes "earbud" titleLower then
           set "weight" (JStr "Approx. 5-20g per earbud (typical earphone weight)") productData
         else productData)
  | _ => None
  end.

Definition is_in (x : string) (l : list string) : bool :=
  existsb (String.eqb x) l.

(** The part of [fillMissingDataWithAI] after the Flipkart image step. *)
Definition fill_requests (run : FillRun) (productData : Obj)
    (missingFields : list string) : M Obj :=
  run! (if fill_capture_ok run then ret () else throw (Error "page capture failed")) in
  let! answer :=
    try_catch
      (run! emit EvGenerateContent in
       match fill_vision run with
       | FillThrows => throw (Error "generateContent failed")
       | FillNoJson => ret None
       | FillJson parsed reparsed =>
           match from_option (λ v, merge_missing productData v true) None parsed with
           | Some merged => ret (Some merged)
           | None =>
               ret (from_option (λ v, merge_missing productData v false) None reparsed)
           end
       end)
      (λ aiError,
         try_catch
           (run! emit EvGenerateContent in
            match fill_text_only run with
            | FillThrows => throw (Error "generateContent failed")
            | FillNoJson => ret None
            | FillJson parsed _ =>
                ret ((λ v, assign (assign [] productData) (own_props v)) <$> parsed)
            end)
           (λ textError, ret None)) in
  match answer with
  | Some merged => ret merged
  | None =>
      if is_in "weight" missingFields
         && strict_eq (get "source" productData) (JStr "flipkart")
      then
        match generic_weight productData with
        | Some productData => ret productData
        | None => throw (Error "TypeError: toLowerCase is not a function")
        end
      else ret productData
  end.

Definition fillMissingDataWithAI (run : FillRun) (productData : Obj) : M Obj :=
  run! emit EvFillMissingDataWithAI in
  let missingFields := missingFields productData in
  if (length missingFields =? 0)%nat then ret productData
  else
    let use_flipkart :=
      strict_eq (get "source" productData) (JStr "flipkart")
      && is_in "images" missingFields
      && (0 <? length (flipkartImages run))%nat in
    let productData :=
      if use_flipkart then set "images" (of_strings (flipkartImages run)) productData
      else productData in
    let missingFields :=
      if use_flipkart then filter (λ f, f ≠ "images") missingFields else missingFields in
    try_catch
      (if (length missingFields =? 0)%nat then ret productData
       else fill_requests run productData missingFields)
      (λ error, ret productData).

(** ** Delivery inquiry *)

Record DeliveryInfo := {
  available : JsVal;
  estimatedDate : JsVal;
  charges : JsVal;
  pincode : JsVal
}.

Definition delivery_object (d : DeliveryInfo) : Obj :=
  [ ("available", available d); ("estimatedDate", estimatedDate d);
    ("charges", charges d); ("pincode", pincode d) ].

(** What [extractDeliveryTextWithoutPincode] finds. *)
Record DeliveryText := {
  text_available : JsVal;
  text_estimatedDate : JsVal;
  text_charges : JsVal
}.

(** The reply of the AI service to the delivery request: the request
    throws, the text holds no JSON, or [JSON.parse] is applied to it. *)
Inductive DeliveryReply :=
| DeliveryThrows
| DeliveryNoJson
| DeliveryJson (parsed : option JsVal).

(** One run of [checkDeliveryWithAI]: the platform checkers ([None] when a
    checker throws), [findPincodeInput] ([None] when it throws, otherwise
    its [found] flag), [extractDeliveryTextWithoutPincode] ([None] when it
    throws, [Some None] for [{ found: false }]), the screenshot and the
    reply of the AI service. *)
Record DeliveryRun := {
  checkers : Platform → option DeliveryInfo;
  pincode_input : option bool;
  delivery_text : option (option DeliveryText);
  screenshot_ok : bool;
  delivery_reply : DeliveryReply
}.

Definition checkDeliveryDate (run : DeliveryRun) (platform : Platform)
    (pincode : string) : DeliveryInfo :=
  match checkers run platform with
  | Some info => info
  | None =>
      {| available := JNull; estimatedDate := JNull; charges := JNull;
         pincode := JStr pincode |}
  end.

(** [{ available: deliveryInfo.available, ... }]; [None] is the TypeError of
    reading a property of [null]. *)
Definition delivery_of_json (deliveryInfo : JsVal) (pincode : string) : option DeliveryInfo :=
  match prop deliveryInfo "available", prop deliveryInfo "estimatedDate",
        prop deliveryInfo "charges" with
  | Some a, Some e, Some c =>
      Some {| available := a; estimatedDate := e; charges := c; pincode := JStr pincode |}
  | _, _, _ => None
  end.

Definition generic_delivery (estimate pincode : string) : DeliveryInfo :=
  {| available := JBool true; estimatedDate := JStr estimate;
     charges := JStr "Check at checkout"; pincode := JStr pincode |}.

Definition checkDeliveryWithAI (run : DeliveryRun) (platform : Platform)
    (pincode : string) : M DeliveryInfo :=
  run! emit EvCheckDeliveryWithAI in
  try_catch
    (let directDeliveryInfo := checkDeliveryDate run platform pincode in
     if truthy (estimatedDate directDeliveryInfo)
        && negb (strict_eq (estimatedDate directDeliveryInfo) (JStr "Error checking delivery"))
     then ret directDeliveryInfo
     else
       let! pincodeInputFound :=
         match pincode_input run with
         | Some found => ret found
         | None => throw (Error "findPincodeInput failed")
         end in
       (* the interaction with a discovered input catches its own errors *)
       let! deliveryTextInfo :=
         match delivery_text run with
         | Some info => ret info
         | None => throw (Error "extractDeliveryTextWithoutPincode failed")
         end in
       match deliveryTextInfo with
       | Some info =>
           ret {| available := text_available info;
                  estimatedDate := text_estimatedDate info;
                  charges := text_charges info;
                  pincode := JStr pincode |}
       | None =>
           let! fromAI :=
             try_catch
               (run! (if screenshot_ok run then ret () else throw (Error "screenshot failed")) in
                run! emit EvGenerateContent in
                match delivery_reply run with
                | DeliveryThrows => throw (Error "generateContent failed")
                | DeliveryNoJson => ret None
                | DeliveryJson parsed =>
                    ret (from_option (λ v, delivery_of_json v pincode) None parsed)
                end)
               (λ aiError, ret None) in
           match fromAI with
           | Some info => ret info
           | None =>
               ret (generic_delivery
                      "Standard delivery available, check at checkout for exact timeframe"
                      pincode)
           end
       end)
    (λ error,
       ret (generic_delivery "Standard delivery, check at checkout for details" pincode)).

(** ** Normalisation and validation *)

Definition array_or_empty (v : JsVal) : JsVal :=
  if isArray v then v else JArr [].

(** [now] is the clock read by [new Date()]. *)
Definition handleMissingData (productData : Obj) (now : string) : Obj :=
  let variants := get "variants" productData in
  let delivery := get "delivery" productData in
  [ ("title", js_or (get "title" productData) (JStr "Unknown Product"));
    ("price", js_or (get "price" productData) JNull);
    ("originalPrice", js_or (get "originalPrice" productData) JNull);
    ("description", js_or (get "description" productData) (JStr "No description available"));
    ("features", array_or_empty (get "features" productData));
    ("variants",
      JObj [ ("sizes", array_or_empty (opt_prop variants "sizes"));
             ("colors", array_or_empty (opt_prop variants "colors"));
             ("other", array_or_empty (opt_prop variants "other")) ]);
    ("images", array_or_empty (get "images" productData));
    ("delivery",
      JObj [ ("available", js_nullish (opt_prop delivery "available") JNull);
             ("estimatedDate", js_or (opt_prop delivery "estimatedDate") JNull);
             ("charges", js_or (opt_prop delivery "charges") JNull);
             ("pincode", js_or (opt_prop delivery "pincode") (JStr "201001")) ]);
    ("weight", js_or (get "weight" productData) JNull);
    ("category", js_or (get "category" productData) (JStr "Uncategorized"));
    ("source", js_or (get "source" productData) JNull);
    ("scrapedAt", js_or (get "scrapedAt" productData) (JStr now));
    ("originalUrl", js_or (get "originalUrl" productData) JNull) ].

Definition validateScrapedData (data : Obj) : Exn + unit :=
  if negb (truthy (get "title" data))
  then inl (ScraperError "Product data incomplete. Missing title." 422)
  else inr ().

(** ** The cache *)

(** [JSON.parse(JSON.stringify(v))] for a value inside an array or object:
    an [undefined] array element becomes [null], a property whose value is
    [undefined] is dropped. *)
Fixpoint json_value (v : JsVal) : JsVal :=
  match v with
  | JUndefined => JNull
  | JArr l => JArr (map json_value l)
  | JObj o =>
      JObj ((fix props (o : Obj) : Obj :=
               match o with
               | [] => []
               | (k, JUndefined) :: o' => props o'
               | (k, x) :: o' => (k, json_value x) :: props o'
               end) o)
  | _ => v
  end.

(** The value holds no [undefined], at any depth: it is JSON data. *)
Fixpoint json_clean (v : JsVal) : bool :=
  match v with
  | JUndefined => false
  | JArr l => forallb json_clean l
  | JObj o =>
      (fix props (o : Obj) : bool :=
         match o with
         | [] => true
         | (_, x) :: o' => json_clean x && props o'
         end) o
  | _ => true
  end.

(** The value of a property after the round trip. *)
Definition json_roundtrip (v : JsVal) : JsVal :=
  match v with
  | JUndefined => JUndefined
  | _ => json_value v
  end.

(** 24 hours, in milliseconds. *)
Definition TTL : Z := 24 * 60 * 60 * 1000.

(** Options of [scrapeProduct], after the defaults are applied. *)
Record Options := {
  bypassCache : bool;
  variants : list (string * string);
  checkDelivery : bool;
  opt_pincode : string;
  timeout : Z
}.

Definition default_options : Options :=
  {| bypassCache := false; variants := []; checkDelivery := true;
     opt_pincode := "201001"; timeout := 60000 |}.

(** The outcomes of the external interactions of one call of
    [scrapeProduct], in the order of the code. *)
Record Env := {
  now_lookup : Z;                 (* Date.now() in getCachedProduct *)
  launch_ok : bool;               (* puppeteer.launch *)
  newPage_ok : bool;              (* browser.newPage, page.setUserAgent *)
  goto_ok : bool;                 (* page.goto *)
  index_eval : IndexEval;
  ai_first : AiRun;
  ai_second : AiRun;
  last_resort : FallbackScan;
  weightInfo : JsVal;             (* extractWeightSpecifically; null when it fails *)
  delivery_run : DeliveryRun;
  fill_run : FillRun;
  now_defaults : Z;               (* new Date() in handleMissingData *)
  now_scraped : Z;                (* new Date() for scrapedAt *)
  now_cached : Z;                 (* Date.now() in cacheProduct *)
  write_ok : bool;                (* mkdir and writeFile in cacheProduct *)
  close_ok : bool                 (* browser.close *)
}.

(** ** JSON data in the environment

    The values that the renderer and the AI service hand over are JSON
    data: [JSON.parse] and the serialisation of [page.evaluate] produce
    nothing else.  A property of an object may be missing, that is
    [undefined]. *)

Definition json_or_undefined (v : JsVal) : bool := is_undefined v || json_clean v.

Definition clean_option (v : option JsVal) : bool := from_option json_clean true v.

Definition clean_reply (r : AiReply) : bool :=
  match r with
  | ReplyThrows => true
  | ReplyText parsed reparsed => clean_option parsed && clean_option reparsed
  end.

Definition clean_fallback (scan : FallbackScan) : bool :=
  clean_option (fb_title scan) && clean_option (fb_price scan)
  && clean_option (fb_images scan) && clean_option (fb_description scan)
  && clean_option (fb_weight scan).

Definition clean_ai_run (run : AiRun) : bool :=
  clean_reply (vision run) && clean_reply (text_only run)
  && clean_fallback (fallback_scan run).

Definition clean_fill_reply (r : FillReply) : bool :=
  match r with
  | FillJson parsed reparsed => clean_option parsed && clean_option reparsed
  | _ => true
  end.

Definition clean_fill_run (run : FillRun) : bool :=
  clean_fill_reply (fill_vision run) && clean_fill_reply (fill_text_only run).

Definition clean_delivery_info (info : DeliveryInfo) : bool :=
  json_or_undefined (available info) && json_or_undefined (estimatedDate info)
  && json_or_undefined (charges info) && json_or_undefined (pincode info).

Definition clean_delivery_run (run : DeliveryRun) : bool :=
  forallb (λ p, from_option clean_delivery_info true (checkers run p))
    [amazon; flipkart; myntra; snapdeal]
  && match delivery_text run with
     | Some (Some info) =>
         json_or_undefined (text_available info)
         && json_or_undefined (text_estimatedDate info)
         && json_or_undefined (text_charges info)
     | _ => true
     end
  && match delivery_reply run with
     | DeliveryJson parsed => clean_option parsed
     | _ => true
     end.

Definition clean_env (env : Env) : bool :=
  clean_ai_run (ai_first env) && clean_ai_run (ai_second env)
  && clean_fallback (last_resort env) && json_clean (weightInfo env)
  && clean_delivery_run (delivery_run env) && clean_fill_run (fill_run env).

(** The product data between the steps: every field is JSON data, except
    that the properties of [delivery] may be undefined. *)
Definition delivery_ok (v : JsVal) : bool :=
  json_clean v
  || match v with
     | JObj d => forallb (λ kv, json_or_undefined kv.2) d
     | _ => false
     end.

Definition field_ok (kv : string * JsVal) : bool :=
  if String.eqb kv.1 "delivery" then delivery_ok kv.2 else json_clean kv.2.

Definition data_ok (o : Obj) : Prop := Forall (λ kv, field_ok kv = true) o.

Section Pipeline.

(** The hex digest of the MD5 hash, and [Date.prototype.toISOString]. *)
Variable md5 : string → string.
Variable toISOString : Z → string.

(** A cache file that is missing, unreadable or not valid JSON is no
    entry: [readFile] or [JSON.parse] throws and the function returns
    [null]. *)
Definition getCachedProduct (now : Z) (url : string) : M JsVal :=
  λ w,
    match files w !! md5 url with
    | Some parsedData =>
        let cacheAge := now - timestamp parsedData in
        if cacheAge <? TTL then (inr (data parsedData), w) else (inr JNull, w)
    | None => (inr JNull, w)
    end.

Definition cacheProduct (now : Z) (ok : bool) (url : string) (data : JsVal) : M unit :=
  λ w,
    if ok then
      let cacheData :=
        {| timestamp := now; entry_url := url; data := json_roundtrip data |} in
      (inr (), {| trace := trace w; files := <[md5 url := cacheData]> (files w) |})
    else (inr (), w).

Definition hasMissingData (productData : Obj) : bool :=
  negb (truthy (get "title" productData))
  || negb (truthy (get "price" productData))
  || negb (truthy (get "description" productData))
  || negb (truthy (get "weight" productData))
  || strict_eq (opt_prop (get "images" productData) "length") (JNum 0).

(** The extraction steps of [scrapeProduct]: index and AI extraction, the
    dedicated weight extraction, the delivery inquiry and the filling of
    missing fields. *)
Definition gather (env : Env) (opts : Options) (platform : Platform) : M Obj :=
  let! productData :=
    extractDataWithIndexAndAI (index_eval env) (ai_first env) (ai_second env)
      (last_resort env) platform in
  let productData :=
    if negb (truthy (get "weight" productData)) && truthy (weightInfo env)
    then set "weight" (weightInfo env) productData
    else productData in
  let! productData :=
    if checkDelivery opts then
      let! deliveryInfo := checkDeliveryWithAI (delivery_run env) platform (opt_pincode opts) in
      ret (set "delivery" (JObj (delivery_object deliveryInfo)) productData)
    else ret productData in
  if hasMissingData productData
  then fillMissingDataWithAI (fill_run env) productData
  else ret productData.

(** The defaults and the metadata of the final record. *)
Definition normalized (env : Env) (platform : Platform) (url : string)
    (productData : Obj) : Obj :=
  let productData := handleMissingData productData (toISOString (now_defaults env)) in
  let productData := set "source" (JStr (platform_name platform)) productData in
  let productData := set "scrapedAt" (JStr (toISOString (now_scraped env))) productData in
  set "originalUrl" (JStr url) productData.

(** The body of the [try] block of [scrapeProduct].  The calls of
    [handlePlatformObstacles], [createInvertedIndex] and [selectVariants]
    catch every exception and return nothing that is used; what they do to
    the page shows in the outcomes of the later interactions. *)
Definition scrape (env : Env) (url : string) (opts : Options) : M JsVal :=
  run! step EvNewPage (newPage_ok env) "newPage failed" in
  let! platform := lift (detectPlatform url) in
  run! step (EvGoto url) (goto_ok env) "Navigation failed" in
  let! productData := gather env opts platform in
  let productData := normalized env platform url productData in
  run! lift (validateScrapedData productData) in
  run! cacheProduct (now_cached env) (write_ok env) url (JObj productData) in
  ret (JObj productData).

(** [scrapeProduct] after the cache lookup: the browser is launched, the
    [try] block runs, every exception that is not a [ScraperError] is
    wrapped with status 500, and the browser is closed. *)
Definition launch_and_scrape (env : Env) (url : string) (opts : Options) : M JsVal :=
  run! step EvLaunch (launch_ok env) "Failed to launch the browser" in
  finally
    (try_catch (scrape env url opts)
       (λ error,
          match error with
          | ScraperError _ _ => throw error
          | Error message =>
              throw (ScraperError ("Error scraping product: " +:+ message) 500)
          end))
    (step EvClose (close_ok env) "close failed").

Definition scrapeProduct (env : Env) (url : string) (opts : Options) : M JsVal :=
  let! cachedData :=
    if bypassCache opts then ret JUndefined
    else getCachedProduct (now_lookup env) url in
  if negb (bypassCache opts) && truthy cachedData then ret cachedData
  else launch_and_scrape env url opts.

(** What the cache lookup of a call yields, and whether the call is served
    from the cache. *)
Definition cached (env : Env) (url : string) (w : World) : JsVal :=
  match (getCachedProduct (now_lookup env) url w).1 with
  | inr v => v
  | inl _ => JUndefined
  end.

Definition served_from_cache (env : Env) (url : string) (opts : Options) (w : World) : bool :=
  negb (bypassCache opts) && truthy (cached env url w).

(** The cache after [cacheProduct] has run for a record. *)
Definition written (env : Env) (url : string) (record : JsVal) (w : World)
    : gmap string CacheEntry :=
  if write_ok env then
    <[md5 url := {| timestamp := now_cached env; entry_url := url;
                    data := json_roundtrip record |}]> (files w)
  else files w.

(** How a call that is not served from the cache ends: the outcome, and
    the world it leaves. *)
Inductive Ending (env : Env) (url : string) (opts : Options) (w : World)
    : Exn + JsVal → World → Prop :=
| LaunchFails :
    launch_ok env = false →
    Ending env url opts w (inl (Error "Failed to launch the browser"))
      {| trace := (trace w ++ [EvLaunch])%list; files := files w |}
| CloseFails evs fs :
    launch_ok env = true → close_ok env = false →
    Ending env url opts w (inl (Error "close failed"))
      {| trace := (trace w ++ EvLaunch :: evs ++ [EvClose])%list; files := fs |}
| PageFails :
    launch_ok env = true → close_ok env = true → newPage_ok env = false →
    Ending env url opts w (inl (ScraperError "Error scraping product: newPage failed" 500))
      {| trace := (trace w ++ [EvLaunch; EvNewPage; EvClose])%list; files := files w |}
| Unsupported :
    launch_ok env = true → close_ok env = true → newPage_ok env = true →
    detectPlatform url = inl (ScraperError "Unsupported platform" 400) →
    Ending env url opts w (inl (ScraperError "Unsupported platform" 400))
      {| trace := (trace w ++ [EvLaunch; EvNewPage; EvClose])%list; files := files w |}
| NavigationFails platform :
    launch_ok env = true → close_ok env = true → newPage_ok env = true →
    detectPlatform url = inr platform → goto_ok env = false →
    Ending env url opts w
      (inl (ScraperError "Error scraping product: Navigation failed" 500))
      {| trace := (trace w ++ [EvLaunch; EvNewPage; EvGoto url; EvClose])%list;
         files := files w |}
| Scraped platform productData evs :
    launch_ok env = true → close_ok env = true → newPage_ok env = true →
    detectPlatform url = inr platform → goto_ok env = true →
    Forall gather_event evs →
    (clean_env env = true → data_ok productData) →
    Ending env url opts w
      (inr (JObj (normalized env platform url productData)))
      {| trace := (trace w ++ [EvLaunch; EvNewPage; EvGoto url] ++ evs ++ [EvClose])%list;
         files := written env url
                    (JObj (normalized env platform url productData)) w |}.

End Pipeline.

Global Arguments written : simpl never.
Global Arguments cacheProduct : simpl never.
Global Arguments getCachedProduct : simpl never.
Global Arguments normalized : simpl never.
Global Arguments json_roundtrip : simpl never.
Global Arguments gather : simpl never.

(** ** Reading results *)

(** The elements that [[...(v || [])]] spreads (none when it throws). *)
Definition elements (v : JsVal) : list JsVal :=
  default [] (iterate (js_or v (JArr []))).

(** The properties that [{...(v || {})}] copies. *)
Definition properties (v : JsVal) : Obj :=
  own_props (js_or v (JObj [])).

(** The strings among the elements of an array. *)
Definition strings_of (l : list JsVal) : list string :=
  omap (λ v, match v with JStr s => Some s | _ => None end) l.

(** The keys that the merge computes instead of copying. *)
Definition computed_keys : list string := ["source"; "images"; "features"; "variants"].

(** The fields of a product record, of its variants and of its delivery. *)
Definition record_fields : list string :=
  [ "title"; "price"; "originalPrice"; "description"; "features"; "variants";
    "images"; "delivery"; "weight"; "category"; "source"; "scrapedAt"; "originalUrl" ].
Definition variant_fields : list string := [ "sizes"; "colors"; "other" ].
Definition delivery_fields : list string :=
  [ "available"; "estimatedDate"; "charges"; "pincode" ].

(** The key is present and bound to a value other than [undefined]. *)
Definition defined_at (o : Obj) (k : string) : bool :=
  has_key k o && negb (is_undefined (get k o)).

(** Every field of the record, of its variants and of its delivery is
    present and defined; the variants and the list fields are arrays. *)
Definition complete_record (r : JsVal) : bool :=
  match r with
  | JObj o =>
      forallb (defined_at o) record_fields
      && isArray (get "features" o) && isArray (get "images" o)
      && match get "variants" o with
         | JObj vs => forallb (λ k, has_key k vs && isArray (get k vs)) variant_fields
         | _ => false
         end
      && match get "delivery" o with
         | JObj d => forallb (defined_at d) delivery_fields
         | _ => false
         end
  | _ => false
  end.

(** The state of the image loop of the index extraction: the array has no duplicates, holds fewer than
    five entries, all of them in the Set and none with a data: prefix. *)
Definition loop_invariant (uniqueImageUrls : gset string) (topImages : list string) : Prop :=
  NoDup topImages
  ∧ (length topImages < 5)%nat
  ∧ (∀ u, u ∈ topImages → u ∈ uniqueImageUrls)
  ∧ (∀ u, u ∈ topImages → startsWith "data:" u = false).

(** No duplicates, at most five entries, none with a data: prefix. *)
Definition good_images (l : list string) : Prop :=
  NoDup l ∧ (length l ≤ 5)%nat ∧ ∀ u, u ∈ l → startsWith "data:" u = false.

(** [runs c P Q]: from every world, [c] ends with an outcome that
    satisfies [Q], adds only events that satisfy [P] to the trace and
    leaves the cache as it is. *)
Definition runs {A} (c : M A) (P : Event → Prop) (Q : Exn + A → Prop) : Prop :=
  ∀ w, ∃ r evs,
    c w = (r, {| trace := (trace w ++ evs)%list; files := files w |})
    ∧ Forall P evs ∧ Q r.

(** The outcome is a value, not an exception. *)
Definition returned {A} (Q : A → Prop) (r : Exn + A) : Prop :=
  match r with inr a => Q a | inl _ => False end.

(** The outcome is an exception, or a value that satisfies [Q]. *)
Definition thrown_or {A} (Q : A → Prop) (r : Exn + A) : Prop :=
  match r with inr a => Q a | inl _ => True end.

(** The strategies of the delivery inquiry that come to nothing: the
    platform checker yields no usable estimate; the generic input finder or
    the text scan throws, or the text scan finds nothing; the AI request
    cannot be made, throws, or its reply holds no usable JSON. *)
Definition direct_fails (run : DeliveryRun) (platform : Platform) (pincode : string) : bool :=
  let direct := checkDeliveryDate run platform pincode in
  negb (truthy (estimatedDate direct)
        && negb (strict_eq (estimatedDate direct) (JStr "Error checking delivery"))).

Definition ai_fails (run : DeliveryRun) (pincode : string) : bool :=
  negb (screenshot_ok run)
  || match delivery_reply run with
     | DeliveryJson (Some v) =>
         match delivery_of_json v pincode with Some _ => false | None => true end
     | _ => true
     end.

Definition every_strategy_fails (run : DeliveryRun) (platform : Platform)
    (pincode : string) : bool :=
  direct_fails run platform pincode
  && match pincode_input run, delivery_text run with
     | None, _ => true
     | Some _, None => true
     | Some _, Some None => ai_fails run pincode
     | Some _, Some (Some _) => false
     end.

(** A value that the index extraction has not set: absent, null or the
    empty array of the template. *)
Definition unset (v : JsVal) : bool :=
  match v with
  | JUndefined | JNull | JArr [] => true
  | _ => false
  end.

(** [begins c ev]: whatever the world, the first external call of [c] is
    [ev]. *)
Definition begins {A} (c : M A) (ev : Event) : Prop :=
  ∀ w, ∃ evs, trace (c w).2 = (trace w ++ ev :: evs)%list.

(** Whether a URL names one of the supported platforms. *)
Definition supported (url : string) : bool :=
  includes "amazon.in" url || includes "amzn.in" url || includes "flipkart.com" url
  || includes "myntra.com" url || includes "snapdeal.com" url.

(** How often an external call occurs in the trace. *)
Definition calls (ev : Event) (w : World) : nat :=
  length (filter (λ e, e = ev) (trace w)).

(** ** Scenarios

    Concrete pages, replies and environments, used to run the code. *)

Definition a_scan : PageScan :=
  {| titleCandidates := [ {| score := 3; text := "Deals" |};
                          {| score := 5; text := "Steel Bottle 1L" |} ];
     priceCandidates := [ {| score := 4; text := "₹499" |} ];
     priceTexts := [ "₹499"; "₹799" ];
     descCandidates := [ {| score := 2; text := "Keeps drinks cold for a day." |} ];
     imageCandidates :=
       [ {| img_score := 4; url := "/img/bottle-side.jpg?w=200" |};
         {| img_score := 8; url := "https://cdn.shop.in/img/bottle.jpg?w=800" |};
         {| img_score := 8; url := "data:image/png;base64,AAAA" |};
         {| img_score := 6; url := "//cdn.shop.in/img/bottle.jpg" |};
         {| img_score := 1; url := "https://cdn.shop.in/img/thumb-1.jpg" |} ];
     origin := "https://www.amazon.in";
     weightCandidates := [];
     listItems := [ "Leak proof lid"; "1L"; "Double wall insulation" ];
     breadcrumbs := [ "Home"; "Kitchen"; "Bottles" ] |}.

(** The same page with a weight in its specification table. *)
Definition a_scan_with_weight : PageScan :=
  {| titleCandidates := titleCandidates a_scan;
     priceCandidates := priceCandidates a_scan;
     priceTexts := priceTexts a_scan;
     descCandidates := descCandidates a_scan;
     imageCandidates := imageCandidates a_scan;
     origin := origin a_scan;
     weightCandidates := [ {| score := 6; text := "Item weight 350 g" |} ];
     listItems := listItems a_scan;
     breadcrumbs := breadcrumbs a_scan |}.

(** The same page with a weight, and a heading that holds no text. *)
Definition a_scan_with_empty_title : PageScan :=
  {| titleCandidates := [ {| score := 5; text := EmptyString |} ];
     priceCandidates := priceCandidates a_scan;
     priceTexts := priceTexts a_scan;
     descCandidates := descCandidates a_scan;
     imageCandidates := imageCandidates a_scan;
     origin := origin a_scan;
     weightCandidates := [ {| score := 6; text := "Item weight 350 g" |} ];
     listItems := listItems a_scan;
     breadcrumbs := breadcrumbs a_scan |}.

Definition no_fallback : FallbackScan :=
  {| fb_title := None; fb_price := None; fb_images := None;
     fb_description := None; fb_weight := None |}.

(** A reply of the AI service with a price, a size and six images, one of
    them embedded. *)
Definition an_ai_answer : JsVal :=
  JObj [ ("title", JStr "Steel Bottle 1L");
         ("price", JStr "₹999");
         ("description", JStr "Insulated steel bottle");
         ("images", JArr [ JStr "https://cdn.shop.in/1.jpg"; JStr "https://cdn.shop.in/2.jpg";
                           JStr "https://cdn.shop.in/3.jpg"; JStr "https://cdn.shop.in/4.jpg";
                           JStr "https://cdn.shop.in/5.jpg"; JStr "data:image/png;base64,AAAA";
                           JStr "https://cdn.shop.in/1.jpg" ]);
         ("variants", JObj [ ("sizes", JArr [JStr "1L"]) ]);
         ("weight", JStr "350 g");
         ("category", JStr "Bottles") ].

Definition an_ai_run : AiRun :=
  {| capture_ok := true;
     vision := ReplyText (Some an_ai_answer) None;
     text_only := ReplyThrows;
     fallback_scan := no_fallback |}.

Definition a_fill_run : FillRun :=
  {| flipkartImages := [];
     fill_capture_ok := true;
     fill_vision := FillJson (Some (JObj [("weight", JStr "350 g")])) None;
     fill_text_only := FillThrows |}.

(** A delivery inquiry in which nothing is found and every call fails. *)
Definition a_failing_delivery : DeliveryRun :=
  {| checkers := λ _, None;
     pincode_input := Some false;
     delivery_text := Some None;
     screenshot_ok := true;
     delivery_reply := DeliveryThrows |}.

(** A Flipkart page without any delivery text: the result of
    [checkFlipkartDeliveryDate]. *)
Definition a_flipkart_delivery : DeliveryRun :=
  {| checkers := λ _,
       Some {| available := JNull;
               estimatedDate := JStr "Delivery information unavailable";
               charges := JNull;
               pincode := JStr "201001" |};
     pincode_input := Some false;
     delivery_text := Some None;
     screenshot_ok := true;
     delivery_reply := DeliveryThrows |}.

(** An environment in which every external call succeeds. *)
Definition an_env (ev : IndexEval) (now : Z) : Env :=
  {| now_lookup := now;
     launch_ok := true;
     newPage_ok := true;
     goto_ok := true;
     index_eval := ev;
     ai_first := an_ai_run;
     ai_second := an_ai_run;
     last_resort := no_fallback;
     weightInfo := JNull;
     delivery_run := a_failing_delivery;
     fill_run := a_fill_run;
     now_defaults := now + 9000;
     now_scraped := now + 9001;
     now_cached := now + 9002;
     write_ok := true;
     close_ok := true |}.

(** The same, with a navigation that fails. *)
Definition an_env_without_navigation (now : Z) : Env :=
  {| now_lookup := now;
     launch_ok := true;
     newPage_ok := true;
     goto_ok := false;
     index_eval := IndexThrows;
     ai_first := an_ai_run;
     ai_second := an_ai_run;
     last_resort := no_fallback;
     weightInfo := JNull;
     delivery_run := a_failing_delivery;
     fill_run := a_fill_run;
     now_defaults := now;
     now_scraped := now;
     now_cached := now;
     write_ok := true;
     close_ok := true |}.

(** An environment in which every external call succeeds, except that
    the cache file cannot be written. *)
Definition an_env_without_cache (now : Z) : Env :=
  {| now_lookup := now;
     launch_ok := true;
     newPage_ok := true;
     goto_ok := true;
     index_eval := IndexThrows;
     ai_first := an_ai_run;
     ai_second := an_ai_run;
     last_resort := no_fallback;
     weightInfo := JNull;
     delivery_run := a_failing_delivery;
     fill_run := a_fill_run;
     now_defaults := now + 9000;
     now_scraped := now + 9001;
     now_cached := now + 9002;
     write_ok := false;
     close_ok := true |}.

Definition a_world : World := {| trace := []; files := ∅ |}.

Definition an_md5 (s : string) : string := "md5:" +:+ s.
Definition an_iso (t : Z) : string := pretty t.

Definition a_url : string := "https://www.amazon.in/dp/B0BOTTLE".
Definition another_url : string := "https://www.ebay.com/itm/42".

Definition no_delivery : Options :=
  {| bypassCache := false; variants := []; checkDelivery := false;
     opt_pincode := "201001"; timeout := 60000 |}.

(** A cache that holds a record for [a_url], written at time 1000. *)
Definition a_cached_record : JsVal :=
  JObj [ ("title", JStr "Steel Bottle 1L"); ("price", JStr "₹499") ].

Definition a_cached_world : World :=
  {| trace := [];
     files := {[ an_md5 a_url :=
                   {| timestamp := 1000; entry_url := a_url; data := a_cached_record |} ]} |}.

(** ** The full-size images of a Flipkart page

    The in-page function of [getFlipkartFullSizeImages], applied to the
    images that its four selector queries find. *)

(** [\d] *)
Definition is_digit (c : ascii) : bool :=
  let n := Ascii.nat_of_ascii c in ((48 <=? n) && (n <=? 57))%nat.

(** The rest of [s] after the prefix [p], when [s] starts with it. *)
Fixpoint after_prefix (p s : string) : option string :=
  match p, s with
  | EmptyString, _ => Some s
  | String a p', String b s' => if Ascii.eqb a b then after_prefix p' s' else None
  | String _ _, EmptyString => None
  end.

Fixpoint skip_digits (s : string) : string :=
  match s with
  | String c s' => if is_digit c then skip_digits s' else s
  | EmptyString => EmptyString
  end.

(** The rest of [s] after a match of [\d+\/] at its start. *)
Definition after_number (s : string) : option string :=
  match s with
  | String c _ =>
      if is_digit c then after_prefix "/" (skip_digits s) else None
  | EmptyString => None
  end.

(** The rest of [s] after a match of [\/image\/\d+\/\d+\/] at its start. *)
Definition after_size (s : string) : option string :=
  match after_prefix "/image/" s with
  | Some s1 =>
      match after_number s1 with
      | Some s2 => after_number s2
      | None => None
      end
  | None => None
  end.

(** [s.replace(/\/image\/\d+\/\d+\//, "/image/1500/1500/")]: the leftmost
    match is replaced. *)
Fixpoint replace_size (s : string) : string :=
  match after_size s with
  | Some rest => "/image/1500/1500/" +:+ rest
  | None =>
      match s with
      | String c s' => String c (replace_size s')
      | EmptyString => EmptyString
      end
  end.

(** [None] is [null]. *)
Definition normalizeImageUrl (url : string) : option string :=
  if String.eqb url EmptyString then None
  else
    let cleanUrl := before_query url in
    Some (if includes "image/" cleanUrl then replace_size cleanUrl else cleanUrl).

(** An [img] element: its [src] property and its [data-src] attribute. *)
Record ImgElement := {
  img_src : string;
  img_data_src : option string
}.

(** [img.src || img.getAttribute("data-src")] *)
Definition source_of (img : ImgElement) : option string :=
  if negb (String.eqb (img_src img) EmptyString) then Some (img_src img)
  else img_data_src img.

(** [if (src) { ...; if (fullSizeUrl && !images.includes(fullSizeUrl))
    images.push(fullSizeUrl) }] *)
Definition push_image (images : list string) (img : ImgElement) : list string :=
  match source_of img with
  | Some src =>
      match normalizeImageUrl src with
      | Some fullSizeUrl =>
          if negb (String.eqb fullSizeUrl EmptyString) && negb (is_in fullSizeUrl images)
          then (images ++ [fullSizeUrl])%list
          else images
      | None => images
      end
  | None => images
  end.

(** [Array.from(new Set(l))]: the first occurrence of every element. *)
Fixpoint unique_from (seen l : list string) : list string :=
  match l with
  | [] => []
  | u :: l' =>
      if is_in u seen then unique_from seen l'
      else u :: unique_from (u :: seen) l'
  end.

(** What the four queries of the function find. *)
Record FlipkartImgs := {
  galleryImages : list ImgElement;
  mainImage : option ImgElement;
  thumbnails : list ImgElement;
  allImages : list ImgElement
}.

Definition flipkart_page_function (page : FlipkartImgs) : list string :=
  let images := fold_left push_image (galleryImages page) [] in
  let images :=
    match mainImage page with
    | Some img => push_image images img
    | None => images
    end in
  let images := fold_left push_image (thumbnails page) images in
  let productImages :=
    omap (λ img,
            match normalizeImageUrl (img_src img) with
            | Some url =>
                if negb (String.eqb url EmptyString) && negb (is_in url images)
                then Some url else None
            | None => None
            end)
         (filter (λ img,
                    includes "product" (img_src img) = true
                    ∨ includes "/image/" (img_src img) = true
                    ∨ includes "_image_" (img_src img) = true
                    ∨ includes "_img_" (img_src img) = true)
                 (allImages page)) in
  take 5 (unique_from [] (images ++ productImages)).

(** [None] is a [page.evaluate] that throws. *)
Definition getFlipkartFullSizeImages (page : option FlipkartImgs) : list string :=
  match page with
  | Some page => flipkart_page_function page
  | None => []
  end.

(** The string holds the character. *)
Fixpoint has_char (c : ascii) (s : string) : bool :=
  match s with
  | EmptyString => false
  | String a s' => Ascii.eqb a c || has_char c s'
  end.

(** What the function collects: URLs that are not empty and hold no
    query. *)
Definition collected (u : string) : Prop := u ≠ EmptyString ∧ has_char "?" u = false.

(** ** The HTTP interface

    [config.js], [middleware/validators.js], [routes/product.js] and
    [middleware/errorHandler.js], as [server.js] chains them for the path
    [/product]: the validator, the route handler, and the error handler
    that receives what the route handler passes to [next].  The rate
    limiter in front of them is a library and is left out. *)

Module Http.

(** [config.supportedDomains] *)
Definition supportedDomains (p : Platform) : list string :=
  match p with
  | flipkart => ["flipkart.com"; "www.flipkart.com"; "dl.flipkart.com"]
  | amazon => ["amazon.in"; "www.amazon.in"; "amzn.in"]
  | myntra => ["myntra.com"; "www.myntra.com"]
  | snapdeal => ["snapdeal.com"; "www.snapdeal.com"]
  end.

(** [process.env], as far as it is read. *)
Record ProcessEnv := {
  NODE_ENV : option string;
  DEBUG : option string
}.

(** What the middleware reads of a request; the [url] parameter of the
    query is a string when it is present. *)
Record Request := {
  originalUrl : string;
  accept : option string;         (* req.headers.accept *)
  query_url : option string       (* req.query.url *)
}.

(** [res.status(code).json(body)] and [res.status(code).render(view, locals)] *)
Inductive Body :=
| Json (body : Obj)
| Render (view : string) (locals : Obj).

Record Response := {
  status : JsVal;
  content : Body
}.

(** The object that a response is made of. *)
Definition locals_of (b : Body) : Obj :=
  match b with
  | Json body => body
  | Render _ locals => locals
  end.

Definition bad_request (message : string) : Response :=
  {| status := JNum 400;
     content := Json [("success", JBool false); ("message", JStr message)] |}.

(** The validator answers the request itself, or calls [next] after it
    has recorded the host name and the website type on the request. *)
Inductive Validation :=
| Responds (r : Response)
| Next (url hostname : string) (websiteType : JsVal).

(** [hostname_of] is [new URL(url).hostname]; [None] is the TypeError of
    a string that is no URL. *)
Definition validateUrl (hostname_of : string → option string) (req : Request)
    : Validation :=
  match query_url req with
  | None => Responds (bad_request "URL parameter is required")
  | Some url =>
      if String.eqb url EmptyString
      then Responds (bad_request "URL parameter is required")
      else
        match hostname_of url with
        | None => Responds (bad_request "Invalid URL format")
        | Some parsed =>
            let hostname := toLowerCase parsed in
            let allDomains :=
              (supportedDomains flipkart ++ supportedDomains amazon
               ++ supportedDomains myntra)%list in
            let isSupported := existsb (λ domain, String.eqb hostname domain) allDomains in
            if negb isSupported
            then Responds (bad_request
                   "URL is not from a supported website. Supported websites: Flipkart, Amazon India, Myntra")
            else
              Next url hostname
                (if is_in hostname (supportedDomains flipkart) then JStr "flipkart"
                 else if is_in hostname (supportedDomains amazon) then JStr "amazon"
                 else if is_in hostname (supportedDomains myntra) then JStr "myntra"
                 else JUndefined)
        end
  end.

(** [process.env.NODE_ENV === 'development' || process.env.DEBUG === 'true'] *)
Definition development (penv : ProcessEnv) : bool :=
  bool_decide (NODE_ENV penv = Some "development")
  || bool_decide (DEBUG penv = Some "true").

(** The error handler; [err] is the error object. *)
Definition errorHandler (penv : ProcessEnv) (err : Obj) (req : Request) : Response :=
  let '(statusCode, message) :=
    if strict_eq (get "name" err) (JStr "AxiosError") then
      let upstream := opt_prop (get "response" err) "status" in
      if strict_eq upstream (JNum 404)
      then (JNum 404, JStr "Website or product not found")
      else if strict_eq upstream (JNum 403)
      then (JNum 429, JStr "Access denied by website. This may be due to rate limiting")
      else (js_or upstream (JNum 500), JStr "Error fetching product data")
    else if strict_eq (get "name" err) (JStr "ScraperError") then
      (js_or (get "statusCode" err) (JNum 400), get "message" err)
    else (JNum 500, JStr "Internal server error") in
  let isApiRequest :=
    startsWith "/product" (originalUrl req)
    && match accept req with
       | Some a => truthy (JStr a) && includes "application/json" a
       | None => false
       end in
  if isApiRequest then
    {| status := statusCode;
       content :=
         Json [ ("success", JBool false); ("message", message);
                ("error", if development penv then get "message" err else JUndefined) ] |}
  else
    {| status := statusCode;
       content :=
         Render "error"
           [ ("message", message); ("status", statusCode);
             ("error", if development penv then JObj err
                       else JObj [("stack", JStr EmptyString)]) ] |}.

(** The error objects of the scraper service: a [ScraperError] has the
    name ScraperError and a status code; any other exception of the
    renderer or of the runtime has a name of its own, which is neither
    ScraperError nor AxiosError. *)
Definition error_object (e : Exn) : Obj :=
  match e with
  | ScraperError message statusCode =>
      [ ("name", JStr "ScraperError"); ("message", JStr message);
        ("statusCode", JNum statusCode) ]
  | Error message => [ ("name", JStr "Error"); ("message", JStr message) ]
  end.

(** The route handler after [scrapeProduct] has settled: the answer to a
    result, and the error handler for an error passed to [next]. *)
Definition product_response (penv : ProcessEnv) (req : Request)
    (outcome : Obj + JsVal) : Response :=
  match outcome with
  | inr productData =>
      if negb (truthy productData)
      then {| status := JNum 404;
              content := Json [ ("success", JBool false);
                                ("message", JStr "Product details not found") ] |}
      else {| status := JNum 200;
              content := Json [ ("success", JBool true); ("data", productData) ] |}
  | inl error => errorHandler penv error req
  end.

Section Route.

Variable md5 : string → string.
Variable toISOString : Z → string.
Variable hostname_of : string → option string.

(** [GET /product]: the validator, then the handler, which calls
    [scrapeProduct(url)] with the default options. *)
Definition product_route (penv : ProcessEnv) (env : Env) (req : Request)
    (w : World) : Response * World :=
  match validateUrl hostname_of req with
  | Responds r => (r, w)
  | Next url _ _ =>
      match scrapeProduct md5 toISOString env url default_options w with
      | (inr productData, w') => (product_response penv req (inr productData), w')
      | (inl error, w') => (product_response penv req (inl (error_object error)), w')
      end
  end.

End Route.

End Http.

(** ** The HTML-parsing scraper

    The first version of [services/scraper.js], which fetches the page
    with axios and parses it with cheerio, and the record that the
    scrapers of [services/websiteScrapers.js] return.  The class
    [ScraperError] is declared in [websiteScrapers.js], for the scrapers
    of that module; [scraper.js] takes the name from the exports of
    [websiteScrapers.js], which hold the three scrapers and nothing
    else. *)

Module AxiosScraper.

(** The external calls, in the order they are made. *)
Inductive Call :=
| Get (url : string)              (* axiosInstance.get *)
| Launch                          (* puppeteer.launch *)
| NewPage                         (* browser.newPage and setUserAgent *)
| Goto (url : string)             (* page.goto *)
| Evaluate                        (* page.evaluate *)
| Close.                          (* browser.close *)

(** What is thrown: a [ScraperError] of a site scraper, the rejection of
    a request (whose [response], when there is one, has a status), a
    TypeError of the runtime, or any other error. *)
Inductive Failure :=
| ScraperError (message : string) (statusCode : Z)
| RequestError (message : string) (response : option Z)
| TypeError (message : string)
| OtherError (message : string).

Definition message_of (error : Failure) : string :=
  match error with
  | ScraperError message _ | RequestError message _ | TypeError message
  | OtherError message => message
  end.

(** Computations: the trace of calls is threaded, exceptions propagate. *)
Definition T (A : Type) : Type := list Call → (Failure + A) * list Call.

Definition ret {A} (a : A) : T A := λ t, (inr a, t).

Definition bind {A B} (c : T A) (k : A → T B) : T B :=
  λ t, match c t with
       | (inl e, t') => (inl e, t')
       | (inr a, t') => k a t'
       end.

Definition throw {A} (e : Failure) : T A := λ t, (inl e, t).

Definition try_catch {A} (body : T A) (handler : Failure → T A) : T A :=
  λ t, match body t with
       | (inl e, t') => handler e t'
       | (inr a, t') => (inr a, t')
       end.

Definition finally {A} (body : T A) (cleanup : T unit) : T A :=
  λ t, match body t with
       | (r, t') =>
           match cleanup t' with
           | (inl e, t'') => (inl e, t'')
           | (inr _, t'') => (r, t'')
           end
       end.

Definition lift {A} (r : Failure + A) : T A := λ t, (r, t).

Definition call (c : Call) : T unit := λ t, (inr (), (t ++ [c])%list).

(** A call of the renderer: it succeeds ([None]) or throws an error with a
    message. *)
Definition step (c : Call) (outcome : option string) : T unit :=
  bind (call c)
       (λ _, match outcome with
             | None => ret ()
             | Some message => throw (OtherError message)
             end).

Declare Scope axios_scope.
Notation "'let!' x ':=' c 'in' k" := (bind c (λ x, k))
  (at level 10, x name, c at level 100, k at level 200) : axios_scope.
Notation "'run!' c 'in' k" := (bind c (λ _, k))
  (at level 10, c at level 100, k at level 200) : axios_scope.
Local Open Scope axios_scope.

(** *** [websiteScrapers.js] *)

(** The values of the local variables of a scraper when it reaches its
    [return]. *)
Record Extracted := {
  title : JsVal;
  price : JsVal;
  availability : JsVal;
  description : JsVal;
  image_url : JsVal;
  category : JsVal;
  variants : JsVal;
  weight : JsVal;
  deliveryInfo : JsVal;
  features : JsVal;
  additionalImages : JsVal
}.

(** The run of a scraper over a document: a selector call throws, or the
    body reaches its [return]. *)
Inductive Parse :=
| ParseThrows (message : string)
| Parsed (x : Extracted).

(** The object literal that the three scrapers return. *)
Definition site_record (x : Extracted) : Obj :=
  [ ("title", js_or (title x) (JStr "Title not found"));
    ("price", js_or (price x) (JStr "Price not available"));
    ("availability", availability x);
    ("description", js_or (description x) (JStr "Description not available"));
    ("image_url", js_or (image_url x) (JStr EmptyString));
    ("category", js_or (category x) (JStr "Category not available"));
    ("variants", variants x);
    ("weight", weight x);
    ("delivery_info", deliveryInfo x);
    ("additional_features", features x);
    ("additional_images", additionalImages x) ].

(** [try { ... return {...} } catch (error) { throw new ScraperError(...) }] *)
Definition scraper (site : string) (p : Parse) : Failure + Obj :=
  match p with
  | Parsed x => inr (site_record x)
  | ParseThrows message =>
      inl (ScraperError ("Error parsing " +:+ site +:+ " product: " +:+ message) 400)
  end.

Definition flipkartScraper : Parse → Failure + Obj := scraper "Flipkart".
Definition amazonScraper : Parse → Failure + Obj := scraper "Amazon.in".
Definition myntraScraper : Parse → Failure + Obj := scraper "Myntra".

(** *** [scraper.js] *)

(** In this module the name [ScraperError] is bound to [undefined]: the
    exports of [websiteScrapers.js] have no property of that name.  The
    expression [new ScraperError(message, statusCode)] evaluates its
    arguments and throws the TypeError below, and [error instanceof
    ScraperError] throws one as well. *)
Definition new_ScraperError (message : string) (statusCode : option Z) : Failure :=
  TypeError "ScraperError is not a constructor".

Definition instanceof_ScraperError (error : Failure) : Failure + bool :=
  inl (TypeError "Right-hand side of 'instanceof' is not callable").

Definition getScraperByUrl (url : string) : Failure + (Parse → Failure + Obj) :=
  if includes "flipkart.com" url then inr flipkartScraper
  else if includes "amazon.in" url then inr amazonScraper
  else if includes "amzn.in" url then inr amazonScraper
  else if includes "myntra.com" url then inr myntraScraper
  else inl (new_ScraperError "Unsupported website" (Some 400)).

Definition validateScrapedData (data : Obj) : Failure + unit :=
  if negb (truthy (get "title" data)) && negb (truthy (get "price" data))
  then inl (new_ScraperError "Product data incomplete. Missing basic information."
              (Some 422))
  else inr ().

(** A response of axios: [request] is [response.request], and inside it
    [response.request.res], whose [responseUrl] may be undefined. *)
Record Response := {
  status : Z;
  data : JsVal;
  request : option (option (option string))
}.

(** A request resolves with a response, or rejects. *)
Inductive GetOutcome :=
| Resolves (response : Response)
| Rejects (message : string) (response : option Z).

(** The document that cheerio loads from the data of a response, and the
    run of a scraper over it: loading the document or reading its title
    throws, or the scraper runs. *)
Inductive Document :=
| LoadThrows (message : string)
| Loaded (p : Parse).

(** The outcomes of the external interactions of one call. *)
Record Env := {
  get_url : GetOutcome;                     (* axiosInstance.get(url) *)
  get_final : GetOutcome;                   (* axiosInstance.get(finalUrl) *)
  document : JsVal → string → Document;     (* of the data, for finalUrl *)
  launch : option string;
  newPage : option string;
  goto : option string;
  evaluate : string + JsVal;                (* page.evaluate throws, or its result *)
  close : option string
}.

Definition http_get (outcome : GetOutcome) (url : string) : T Response :=
  run! call (Get url) in
  match outcome with
  | Resolves response => ret response
  | Rejects message response => throw (RequestError message response)
  end.

Definition scrapeMyntraWithPuppeteer (env : Env) (url : string) : T JsVal :=
  run! step Launch (launch env) in
  finally
    (try_catch
       (run! step NewPage (newPage env) in
        run! step (Goto url) (goto env) in
        (* the rejection of waitForSelector is caught on the spot *)
        run! call Evaluate in
        match evaluate env with
        | inr productData => ret productData
        | inl message => throw (OtherError message)
        end)
       (λ error,
          throw (new_ScraperError
                   ("Error scraping Myntra with Puppeteer: " +:+ message_of error) None)))
    (step Close (close env)).

(** [response.request.res.responseUrl]; reading [res] of an undefined
    request, or [responseUrl] of an undefined [res], is a TypeError. *)
Definition responseUrl (response : Response) : Failure + option string :=
  match request response with
  | None => inl (TypeError "Cannot read properties of undefined (reading 'res')")
  | Some None => inl (TypeError "Cannot read properties of undefined (reading 'responseUrl')")
  | Some (Some u) => inr u
  end.

(** [responseUrl || url] *)
Definition or_url (u : option string) (url : string) : string :=
  match u with
  | Some u => if String.eqb u EmptyString then url else u
  | None => url
  end.

Definition scrapeProduct (env : Env) (url : string) : T JsVal :=
  if includes "myntra.com" url then scrapeMyntraWithPuppeteer env url
  else
    let! scraper := lift (getScraperByUrl url) in
    try_catch
      (let! response := http_get (get_url env) url in
       run! (if 400 <=? status response
             then throw (new_ScraperError "Failed to fetch product page"
                           (Some (status response)))
             else ret ()) in
       (* the log of the final URL *)
       let! logged := lift (responseUrl response) in
       let! fetched :=
         if includes "dl.flipkart.com" url
            && bool_decide (is_Some (request response))
            && bool_decide (request response ≠ Some None)
         then
           let finalUrl := or_url logged url in
           if negb (String.eqb finalUrl url) then
             let! redirectResponse := http_get (get_final env) finalUrl in
             ret (finalUrl,
                  if status redirectResponse =? 200 then data redirectResponse
                  else data response)
           else ret (finalUrl, data response)
         else ret (url, data response) in
       let '(finalUrl, html) := fetched in
       let! p :=
         match document env html finalUrl with
         | LoadThrows message => throw (OtherError message)
         | Loaded p => ret p
         end in
       let! productData := lift (scraper p) in
       run! lift (validateScrapedData productData) in
       ret (JObj productData))
      (λ error,
         let! isScraperError := lift (instanceof_ScraperError error) in
         if isScraperError then throw error
         else
           match error with
           | RequestError message (Some status) =>
               throw (new_ScraperError ("Error fetching product data: " +:+ message)
                        (Some status))
           | _ =>
               throw (new_ScraperError ("Error scraping product: " +:+ message_of error)
                        (Some 500))
           end).

(** The error object of a failure, for the error handler. *)
Definition error_object (e : Failure) : Obj :=
  match e with
  | ScraperError message statusCode =>
      [ ("name", JStr "ScraperError"); ("message", JStr message);
        ("statusCode", JNum statusCode) ]
  | RequestError message response =>
      [ ("name", JStr "AxiosError"); ("message", JStr message);
        ("response",
         match response with
         | Some status => JObj [("status", JNum status)]
         | None => JUndefined
         end) ]
  | TypeError message => [ ("name", JStr "TypeError"); ("message", JStr message) ]
  | OtherError message => [ ("name", JStr "Error"); ("message", JStr message) ]
  end.

(** A computation whose result, when it has one, is a record with a title
    and a price. *)
Definition titled (c : T JsVal) : Prop :=
  ∀ t, match (c t).1 with
       | inr productData =>
           ∃ record, productData = JObj record
                     ∧ truthy (get "title" record) = true
                     ∧ truthy (get "price" record) = true
       | inl _ => True
       end.

(** [GET /product] with this version of the service behind the validator. *)
Definition product_route (hostname_of : string → option string)
    (penv : Http.ProcessEnv) (env : Env) (req : Http.Request)
    (t : list Call) : Http.Response * list Call :=
  match Http.validateUrl hostname_of req with
  | Http.Responds r => (r, t)
  | Http.Next url _ _ =>
      match scrapeProduct env url t with
      | (inr productData, t') => (Http.product_response penv req (inr productData), t')
      | (inl error, t') => (Http.product_response penv req (inl (error_object error)), t')
      end
  end.

End AxiosScraper.

(** ** The results page

    [POST /scrape] of [routes/views.js]: the form field holds one URL per
    line; each one is fetched through the API of the server itself. *)

Module Views.

(** The code points that [trim] strips from both ends of a string: the
    white space and the line terminators of the language. *)
Definition white_space : list N :=
  [ 0x9; 0xA; 0xB; 0xC; 0xD; 0x20; 0xA0; 0x1680;
    0x2000; 0x2001; 0x2002; 0x2003; 0x2004; 0x2005; 0x2006; 0x2007; 0x2008;
    0x2009; 0x200A; 0x2028; 0x2029; 0x202F; 0x205F; 0x3000; 0xFEFF ]%N.

(** The rest of the string after the white space character that it starts
    with, if it starts with one. *)
Definition space_at (s : string) : option string :=
  head (omap (λ n, after_prefix (utf8 n) s) white_space).

(** The loop of [trimStart]; every round takes at least one byte, so that
    the length of the string is fuel enough. *)
Fixpoint trimStart_loop (fuel : nat) (s : string) : string :=
  match fuel with
  | O => s
  | S fuel' =>
      match space_at s with
      | Some rest => trimStart_loop fuel' rest
      | None => s
      end
  end.

Definition trimStart (s : string) : string := trimStart_loop (String.length s) s.

(** The string holds nothing but white space. *)
Definition blank (s : string) : bool := String.eqb (trimStart s) EmptyString.

(** The string up to the white space that it ends with.  (No byte inside
    the encoding of a character starts the encoding of a white space
    character.) *)
Fixpoint trimEnd (s : string) : string :=
  match s with
  | EmptyString => EmptyString
  | String c s' => if blank s then EmptyString else String c (trimEnd s')
  end.

(** [s.trim()] *)
Definition trim (s : string) : string := trimEnd (trimStart s).

(** [s.split(c)] for a one-character separator. *)
Fixpoint split (c : ascii) (s : string) : list string :=
  match s with
  | EmptyString => [EmptyString]
  | String a s' =>
      if Ascii.eqb a c then EmptyString :: split c s'
      else
        match split c s' with
        | piece :: pieces => String a piece :: pieces
        | [] => [String a EmptyString]
        end
  end.

Definition newline : ascii := Ascii.ascii_of_nat 10.

(** [url.split('\n').map(u => u.trim()).filter(u => u.length > 0)]; a
    string has a length above 0 when it is not empty. *)
Definition lines (url : string) : list string :=
  filter (λ u, (0 < String.length u)%nat) (trim <$> split newline url).

(** How a request to the API settles: with [response.data], or with an
    error that has a message and may have a [response]. *)
Inductive ApiOutcome :=
| Resolved (data : JsVal)
| Rejected (message : string) (response : JsVal).

(** The two arrays that the loop fills, and the requests it has sent. *)
Record Progress := {
  products : list JsVal;
  errors : list JsVal;
  requests : list string
}.

Section Scrape.

(** The text of [config.server.port] in the request URL, the builtin
    [encodeURIComponent], and the outcome of the n-th request. *)
Variable port : string.
Variable encodeURIComponent : string → string.
Variable api : nat → string → ApiOutcome.

Definition request_url (productUrl : string) : string :=
  "http://localhost:" +:+ port +:+ "/product?url=" +:+ encodeURIComponent productUrl.

(** The body of the loop. *)
Definition scrape_one (st : Progress) (productUrl : string) : Progress :=
  let sent := (requests st ++ [request_url productUrl])%list in
  match api (length (requests st)) (request_url productUrl) with
  | Resolved data =>
      if truthy data && truthy (opt_prop data "success") && truthy (opt_prop data "data")
      then
        {| products :=
             (products st
              ++ [JObj (set "source_url" (JStr productUrl)
                          (assign [] (own_props (opt_prop data "data"))))])%list;
           errors := errors st;
           requests := sent |}
      else {| products := products st; errors := errors st; requests := sent |}
  | Rejected message response =>
      {| products := products st;
         errors :=
           (errors st
            ++ [JObj [ ("url", JStr productUrl);
                       ("message",
                        js_or (opt_prop (opt_prop response "data") "message")
                              (JStr message)) ]])%list;
         requests := sent |}
  end.

Definition scrape_all (urls : list string) : Progress :=
  fold_left scrape_one urls {| products := []; errors := []; requests := [] |}.

Definition index_view (products error : JsVal) : Http.Body :=
  Http.Render "index"
    [ ("title", JStr "E-commerce Product Scraper");
      ("products", products); ("error", error) ].

(** The handler, for the [url] field of the form ([None] when the field is
    absent): what it renders, and the requests it has sent.  The outer
    [catch] is not reached when the field is a string. *)
Definition post_scrape (url : option string) : Http.Body * list string :=
  match url with
  | None => (index_view JNull (JStr "URL is required"), [])
  | Some url =>
      if String.eqb url EmptyString
      then (index_view JNull (JStr "URL is required"), [])
      else
        let urls := lines url in
        if (length urls =? 0)%nat
        then (index_view JNull (JStr "No valid URLs provided"), [])
        else
          let st := scrape_all urls in
          (index_view (JArr (products st))
             (if (0 <? length (errors st))%nat then JArr (errors st) else JNull),
           requests st)
  end.

End Scrape.

End Views.

(** ** Reading traces *)

(** The events of the [try] block of [scrapeProduct]. *)
Definition page_event (e : Event) : Prop :=
  e = EvNewPage ∨ (∃ url, e = EvGoto url) ∨ gather_event e.

(** [spends c n]: whatever the world, [c] sends at most [n] requests to
    the AI service. *)
Definition spends {A} (c : M A) (n : nat) : Prop :=
  ∀ w, (calls EvGenerateContent (c w).2 ≤ calls EvGenerateContent w + n)%nat.
(** ** Further scenarios *)

Definition bypassing : Options :=
  {| bypassCache := true; variants := []; checkDelivery := true;
     opt_pincode := "201001"; timeout := 60000 |}.

(** An environment in which the AI service is of little help: the index
    finds nothing, the first vision request fails and the text-only reply
    holds a number in place of the images, the second attempt fails
    twice, the delivery request fails, and so do the two requests of the
    filling step. *)
Definition a_costly_env : Env :=
  {| now_lookup := 1000;
     launch_ok := true;
     newPage_ok := true;
     goto_ok := true;
     index_eval := IndexThrows;
     ai_first :=
       {| capture_ok := true;
          vision := ReplyThrows;
          text_only := ReplyText (Some (JObj [("images", JNum 5)])) None;
          fallback_scan := no_fallback |};
     ai_second :=
       {| capture_ok := true; vision := ReplyThrows; text_only := ReplyThrows;
          fallback_scan := no_fallback |};
     last_resort := no_fallback;
     weightInfo := JNull;
     delivery_run := a_failing_delivery;
     fill_run :=
       {| flipkartImages := []; fill_capture_ok := true;
          fill_vision := FillThrows; fill_text_only := FillThrows |};
     now_defaults := 10000;
     now_scraped := 10001;
     now_cached := 10002;
     write_ok := true;
     close_ok := true |}.

Definition a_snapdeal_url : string := "https://www.snapdeal.com/product/bottle/42".

(** A reading of host names that knows two URLs. *)
Definition a_hostname_of (url : string) : option string :=
  if String.eqb url a_url then Some "www.amazon.in"
  else if String.eqb url a_snapdeal_url then Some "www.snapdeal.com"
  else None.

Definition production : Http.ProcessEnv :=
  {| Http.NODE_ENV := Some "production"; Http.DEBUG := None |}.

Definition an_api_request (url : string) : Http.Request :=
  {| Http.originalUrl := "/product?url=" +:+ url;
     Http.accept := Some "application/json";
     Http.query_url := Some url |}.

(** A site that answers with the status 403, and one that answers with a
    page in which the scraper finds a title and nothing else. *)
Definition a_forbidden : AxiosScraper.Response :=
  {| AxiosScraper.status := 403; AxiosScraper.data := JStr "Forbidden";
     AxiosScraper.request := Some (Some (Some a_url)) |}.

Definition a_page : AxiosScraper.Response :=
  {| AxiosScraper.status := 200; AxiosScraper.data := JStr "<html>...</html>";
     AxiosScraper.request := Some (Some (Some a_url)) |}.

(** A response as the test suite mocks it: a status and the data. *)
Definition a_mock_response : AxiosScraper.Response :=
  {| AxiosScraper.status := 200; AxiosScraper.data := JStr "<html><body>Test</body></html>";
     AxiosScraper.request := None |}.

Definition a_title_only : AxiosScraper.Extracted :=
  {| AxiosScraper.title := JStr "Steel Bottle 1L";
     AxiosScraper.price := JStr EmptyString;
     AxiosScraper.availability := JStr "Out of Stock";
     AxiosScraper.description := JStr EmptyString;
     AxiosScraper.image_url := JUndefined;
     AxiosScraper.category := JStr EmptyString;
     AxiosScraper.variants := JObj [("sizes", JArr []); ("colors", JArr [])];
     AxiosScraper.weight := JStr "Not specified";
     AxiosScraper.deliveryInfo := JStr "Not available";
     AxiosScraper.features := JArr [];
     AxiosScraper.additionalImages := JArr [] |}.

Definition a_site (answer : AxiosScraper.Response) : AxiosScraper.Env :=
  {| AxiosScraper.get_url := AxiosScraper.Resolves answer;
     AxiosScraper.get_final := AxiosScraper.Rejects "socket hang up" None;
     AxiosScraper.document := λ _ _, AxiosScraper.Loaded (AxiosScraper.Parsed a_title_only);
     AxiosScraper.launch := None;
     AxiosScraper.newPage := None;
     AxiosScraper.goto := Some "Navigation timeout of 30000 ms exceeded";
     AxiosScraper.evaluate := inr JNull;
     AxiosScraper.close := None |}.

Definition a_myntra_url : string := "https://www.myntra.com/tshirts/42/buy".

(** Three title candidates, two of them with the highest score. *)
Definition some_candidates : list Candidate :=
  [ {| score := 3; text := "Deals of the day" |};
    {| score := 7; text := "Steel Bottle 1L" |};
    {| score := 7; text := "Steel Bottle 1L (Blue)" |} ].

(** A Flipkart page: two gallery images that differ in their size
    segment only, a main image that has a data-src only, and seven more
    product images. *)
Definition a_flipkart_page : FlipkartImgs :=
  let img (src : string) := {| img_src := src; img_data_src := None |} in
  {| galleryImages :=
       [ img "https://rukminim2.flixcart.com/image/312/312/a.jpeg?q=70";
         img "https://rukminim2.flixcart.com/image/128/128/a.jpeg?q=70" ];
     mainImage :=
       Some {| img_src := EmptyString;
               img_data_src := Some "https://rukminim2.flixcart.com/image/832/832/b.jpeg" |};
     thumbnails := [];
     allImages :=
       [ img "https://static.flixcart.com/logo.svg";
         img "https://rukminim2.flixcart.com/image/64/64/a.jpeg";
         img "https://rukminim2.flixcart.com/image/64/64/c.jpeg";
         img "https://rukminim2.flixcart.com/image/64/64/c.jpeg";
         img "https://rukminim2.flixcart.com/image/64/64/d.jpeg";
         img "https://rukminim2.flixcart.com/image/64/64/e.jpeg";
         img "https://rukminim2.flixcart.com/image/64/64/f.jpeg";
         img "https://rukminim2.flixcart.com/image/64/64/g.jpeg" ] |}.

(** A record that lacks its category, and one that lacks its weight. *)
Definition a_record_without_category : Obj :=
  [ ("title", JStr "Steel Bottle 1L"); ("price", JStr "₹499");
    ("description", JStr "Keeps drinks cold for a day.");
    ("images", JArr [JStr "https://cdn.shop.in/img/bottle.jpg"]);
    ("weight", JStr "350 g"); ("category", JNull) ].

Definition a_record_without_weight : Obj :=
  [ ("title", JStr "Steel Bottle 1L"); ("price", JStr "₹499");
    ("description", JStr "Keeps drinks cold for a day.");
    ("images", JArr [JStr "https://cdn.shop.in/img/bottle.jpg"]);
    ("weight", JNull); ("category", JStr "Bottles") ].

(** A URL that mentions two sites. *)
Definition a_redirect_url : string :=
  "https://www.flipkart.com/redirect?to=https://www.amazon.in/dp/B0BOTTLE".

(** A form field of four lines, one of them blank (it holds two blanks
    around a no-break space, and a carriage return), and an API that
    answers the first request with a product, the second with a failure
    and the third without success. *)
Definition a_form_field : string :=
  " https://www.amazon.in/dp/1 " +:+ String (Ascii.ascii_of_nat 10) EmptyString
  +:+ " " +:+ utf8 0xA0 +:+ " "
  +:+ String (Ascii.ascii_of_nat 13) (String (Ascii.ascii_of_nat 10) EmptyString)
  +:+ "https://www.flipkart.com/p/2" +:+ String (Ascii.ascii_of_nat 10) EmptyString
  +:+ "https://www.myntra.com/3".

Definition an_api (n : nat) (request : string) : Views.ApiOutcome :=
  match n with
  | 0%nat =>
      Views.Resolved
        (JObj [ ("success", JBool true);
                ("data", JObj [ ("title", JStr "Steel Bottle 1L");
                                ("source_url", JStr "https://elsewhere.example/") ]) ])
  | 1%nat =>
      Views.Rejected "Request failed with status code 500"
        (JObj [ ("data",
                 JObj [ ("message", JStr "Error scraping product: Navigation failed") ]) ])
  | _ => Views.Resolved (JObj [ ("success", JBool false) ])
  end.

(** A form field that holds a no-break space, a line break and a blank. *)
Definition a_blank_field : string :=
  utf8 0xA0 +:+ String Views.newline (String (Ascii.ascii_of_nat 32) EmptyString).

(** The runs below leave the URL in the request as it is; the properties
    hold for every encoding. *)
Definition no_encoding (s : string) : string := s.

(** * Properties *)

(** ** The definitions on small inputs *)

Example includes_ex : includes "amzn.in" "https://amzn.in/d/abc" = true.
Proof. reflexivity. Qed.

Example before_query_ex :
  before_query "https://x.in/a.jpg?w=100" = "https://x.in/a.jpg".
Proof. reflexivity. Qed.

Example toLowerCase_ex : toLowerCase "Smart WATCH 2" = "smart watch 2".
Proof. reflexivity. Qed.

Example dedup_ex :
  dedup [JStr "a"; JStr "b"; JStr "a"; JNum 1; JStr "b"; JNum 1]
  = [JStr "a"; JStr "b"; JNum 1].
Proof. reflexivity. Qed.

Example assign_ex :
  assign [("price", JNull); ("title", JStr "T")] [("price", JStr "₹999"); ("x", JNum 1)]
  = [("price", JStr "₹999"); ("title", JStr "T"); ("x", JNum 1)].
Proof. reflexivity. Qed.

(** The characters of a string that is spread into an object come
    first, then the keys that were there before. *)
Example merge_objects_ex :
  merge_objects (JObj [("sizes", JArr []); ("10", JNull); ("colors", JArr [])]) (JStr "ab")
  = JObj [("0", JStr "a"); ("1", JStr "b"); ("10", JNull);
          ("sizes", JArr []); ("colors", JArr [])].
Proof. reflexivity. Qed.

Example array_index_ex :
  array_index "42" = Some 42%N ∧ array_index "042" = None ∧ array_index "4294967295" = None
  ∧ array_index "sizes" = None ∧ array_index EmptyString = None.
Proof. repeat split; reflexivity. Qed.

Example chars_ex : chars "₹9é" = [JStr "₹"; JStr "9"; JStr "é"].
Proof. reflexivity. Qed.

(** U+1F600, of four bytes, is one character and two code units. *)
Example units_ex :
  let face :=
    String (Ascii.ascii_of_N 0xF0) (String (Ascii.ascii_of_N 0x9F)
      (String (Ascii.ascii_of_N 0x98) (String (Ascii.ascii_of_N 0x80) EmptyString))) in
  chars ("a" +:+ face) = [JStr "a"; JStr face]
  ∧ units ("a" +:+ face) = [JStr "a"; JStr (utf8 0xD83D); JStr (utf8 0xDE00)]
  ∧ js_length ("a" +:+ face) = 3%nat.
Proof. repeat split; reflexivity. Qed.

Example own_props_ex :
  own_props (JArr [JNull; JBool true]) = [("0", JNull); ("1", JBool true)].
Proof. reflexivity. Qed.

(** The sort is stable: equal scores keep the document order. *)
Example findBestCandidate_ex :
  findBestCandidate [ {| score := 3; text := "a" |}; {| score := 5; text := "b" |};
                      {| score := 5; text := "c" |} ]
  = Some {| score := 5; text := "b" |}.
Proof. reflexivity. Qed.

Example detectPlatform_ex :
  detectPlatform "https://www.flipkart.com/p/itm1" = inr flipkart
  ∧ detectPlatform "https://dl.example.org/amzn.in" = inr amazon
  ∧ detectPlatform "https://www.ebay.com/itm/42"
    = inl (ScraperError "Unsupported platform" 400).
Proof. repeat split; reflexivity. Qed.

Example extractBasicDataWithIndex_ex :
  page_evaluate (IndexDone a_scan) empty_data
  = Some
    [ ("title", JStr "Steel Bottle 1L"); ("price", JStr "₹499");
      ("originalPrice", JStr "₹799");
      ("description", JStr "Keeps drinks cold for a day.");
      ("features", of_strings ["Leak proof lid"; "Double wall insulation"]);
      ("images", of_strings ["https://cdn.shop.in/img/bottle.jpg";
                             "https://www.amazon.in/img/bottle-side.jpg"]);
      ("variants", JObj [("sizes", JArr []); ("colors", JArr []); ("other", JArr [])]);
      ("delivery", JObj [("available", JNull); ("estimatedDate", JNull);
                         ("charges", JNull)]);
      ("weight", JNull); ("category", JStr "Kitchen") ]
  ∧ extractBasicDataWithIndex (IndexDone a_scan) = empty_data.
Proof. split; reflexivity. Qed.

(** A request that throws, then a text-only reply that parses. *)
Example extractDataWithAI_ex :
  let run := {| capture_ok := true; vision := ReplyThrows;
                text_only := ReplyText (Some (JObj [("title", JStr "T")])) None;
                fallback_scan := no_fallback |} in
  extractDataWithAI run myntra a_world
  = (inr [("title", JStr "T"); ("source", JStr "myntra")],
     {| trace := [EvExtractDataWithAI; EvGenerateContent; EvGenerateContent];
        files := ∅ |}).
Proof. reflexivity. Qed.

(** An AI result whose [images] cannot be spread: the merge throws, and
    the AI extraction runs a second time. *)
Example extractDataWithIndexAndAI_ex :
  let bad := {| capture_ok := true;
                vision := ReplyText (Some (JObj [("images", JNum 3)])) None;
                text_only := ReplyThrows; fallback_scan := no_fallback |} in
  (extractDataWithIndexAndAI IndexThrows bad an_ai_run no_fallback amazon a_world).2
  = {| trace := [EvExtractDataWithAI; EvGenerateContent;
                 EvExtractDataWithAI; EvGenerateContent];
       files := ∅ |}.
Proof. reflexivity. Qed.

Example json_roundtrip_ex :
  json_roundtrip (JObj [("a", JUndefined); ("b", JArr [JUndefined; JNum 1])])
  = JObj [("b", JArr [JNull; JNum 1])].
Proof. reflexivity. Qed.

(** ** Objects: reading after writing *)

Lemma get_set_eq k v o : get k (set k v o) = v.
Proof.
  induction o as [|[k' v'] o IH]; cbn [set get].
  - by rewrite String.eqb_refl.
  - destruct (String.eqb k k') eqn:E; cbn [get]; [by rewrite E|].
    destruct (key_before k k' && negb (has_key k o)); cbn [get].
    + by rewrite String.eqb_refl.
    + by rewrite E.
Qed.

Lemma get_set_ne k k' v o : k ≠ k' → get k (set k' v o) = get k o.
Proof.
  intros Hne. induction o as [|[k'' v''] o IH]; cbn [set get].
  - destruct (String.eqb_spec k k'); done.
  - destruct (String.eqb_spec k' k''); cbn [get].
    + subst. destruct (String.eqb_spec k k''); done.
    + destruct (key_before k' k'' && negb (has_key k' o)); cbn [get].
      * destruct (String.eqb_spec k k'); done.
      * by rewrite IH.
Qed.

Lemma has_key_set k k' v o :
  has_key k (set k' v o) = String.eqb k k' || has_key k o.
Proof.
  induction o as [|[k'' v''] o IH]; cbn [set has_key].
  - by rewrite orb_false_r.
  - destruct (String.eqb_spec k' k''); cbn [has_key].
    + subst. destruct (String.eqb k k''); done.
    + destruct (key_before k' k'' && negb (has_key k' o)); cbn [has_key]; [done|].
      rewrite IH. destruct (String.eqb k k'), (String.eqb k k''); done.
Qed.

(** A key that is no array index goes behind the keys of the object. *)
Lemma key_before_name k k' : array_index k = None → key_before k k' = false.
Proof. unfold key_before. by intros ->. Qed.

(** Assignments to keys that are literal names, in an object whose keys
    are literal names. *)
Ltac set_names :=
  repeat (progress (cbn [set String.eqb Ascii.eqb Bool.eqb andb];
                    rewrite ?key_before_name by reflexivity)).

Lemma has_key_elem k (o : Obj) : has_key k o = true ↔ k ∈ o.*1.
Proof.
  induction o as [|[k' v'] o IH]; simpl.
  - split; [done | intros H%elem_of_nil; done].
  - rewrite orb_true_iff, IH, elem_of_cons.
    destruct (String.eqb_spec k k') as [->|Hne]; [tauto|].
    split; [intros [?|?]; [done | by right] | intros [?|?]; [done | by right]].
Qed.

Lemma get_no_key k o : has_key k o = false → get k o = JUndefined.
Proof.
  induction o as [|[k' v'] o IH]; simpl; [done|].
  destruct (String.eqb k k'); simpl; [done | exact IH].
Qed.

(** Assigning the properties of an object whose keys are distinct. *)
Lemma get_assign k (acc src : Obj) :
  NoDup src.*1 →
  get k (assign acc src) = if has_key k src then get k src else get k acc.
Proof.
  unfold assign. revert acc.
  induction src as [|[k' v'] src IH]; intros acc Hnd; simpl; [done|].
  apply NoDup_cons in Hnd as [Hnotin Hnd]. rewrite IH by done.
  destruct (String.eqb_spec k k') as [->|Hne]; simpl.
  - destruct (has_key k' src) eqn:Hk.
    + apply has_key_elem in Hk. done.
    + apply get_set_eq.
  - destruct (has_key k src); [done|]. by apply get_set_ne.
Qed.

Lemma has_key_assign k (acc src : Obj) :
  has_key k (assign acc src) = has_key k acc || has_key k src.
Proof.
  unfold assign. revert acc.
  induction src as [|[k' v'] src IH]; intros acc; simpl.
  - by rewrite orb_false_r.
  - rewrite IH, has_key_set.
    destruct (String.eqb k k'), (has_key k acc), (has_key k src); done.
Qed.

(** ** De-duplication *)

Lemma strict_eq_eq a b : strict_eq a b = true → a = b.
Proof.
  destruct a, b; simpl; try done.
  - intros H. by apply Bool.eqb_prop in H as ->.
  - intros H%Z.eqb_eq. by subst.
  - intros H%String.eqb_eq. by subst.
Qed.

Lemma dedup_from_elem seen l v : v ∈ dedup_from seen l → v ∈ l.
Proof.
  revert seen. induction l as [|a l IH]; intros seen; simpl; [done|].
  destruct (existsb (strict_eq a) seen).
  - intros H%IH. by right.
  - intros [->|H%IH]%elem_of_cons; [left | by right].
Qed.

Lemma dedup_from_fresh seen l v x :
  v ∈ dedup_from seen l → x ∈ seen → strict_eq v x = false.
Proof.
  revert seen. induction l as [|a l IH]; intros seen; simpl.
  - intros H%elem_of_nil. done.
  - destruct (existsb (strict_eq a) seen) eqn:E.
    + apply IH.
    + intros [->|H]%elem_of_cons Hx.
      * destruct (strict_eq a x) eqn:Ex; [|done].
        assert (existsb (strict_eq a) seen = true); [|congruence].
        apply existsb_exists. exists x. split; [by apply list_elem_of_In | done].
      * apply (IH (seen ++ [a])%list); [done|]. apply elem_of_app. by left.
Qed.

Lemma dedup_from_keeps seen l v :
  v ∈ l → existsb (strict_eq v) seen = false → v ∈ dedup_from seen l.
Proof.
  revert seen. induction l as [|a l IH]; intros seen; simpl.
  - intros H%elem_of_nil. done.
  - intros [->|Hin]%elem_of_cons Hseen.
    + rewrite Hseen. left.
    + destruct (existsb (strict_eq a) seen) eqn:E; [by apply IH|].
      destruct (strict_eq v a) eqn:Eva.
      * apply strict_eq_eq in Eva as ->. left.
      * right. apply IH; [done|].
        rewrite existsb_app, Hseen. simpl. by rewrite Eva.
Qed.

Lemma dedup_from_strings seen l : NoDup (strings_of (dedup_from seen l)).
Proof.
  revert seen. induction l as [|a l IH]; intros seen; simpl.
  - constructor.
  - destruct (existsb (strict_eq a) seen); [apply IH|].
    destruct a; simpl; try apply IH.
    constructor; [|apply IH].
    unfold strings_of. rewrite list_elem_of_omap.
    intros (v & Hv & Hs). destruct v; try done. injection Hs as ->.
    assert (strict_eq (JStr s) (JStr s) = false) as Hne.
    { eapply dedup_from_fresh; [exact Hv|]. apply elem_of_app. right. left. }
    simpl in Hne. by rewrite String.eqb_refl in Hne.
Qed.

Lemma dedup_elem l v : v ∈ dedup l ↔ v ∈ l.
Proof.
  split; [apply dedup_from_elem|]. intros H. by apply dedup_from_keeps.
Qed.

Lemma merge_arrays_spec a b r :
  merge_arrays a b = Some r →
  ∃ l, r = JArr l
       ∧ (∀ v, v ∈ l ↔ v ∈ elements a ∨ v ∈ elements b)
       ∧ NoDup (strings_of l).
Proof.
  unfold merge_arrays, elements.
  destruct (iterate (js_or a (JArr []))) as [la|]; [|done].
  destruct (iterate (js_or b (JArr []))) as [lb|]; [|done].
  intros [= <-]. eexists. split; [done|]. split.
  - intros v. rewrite dedup_elem, elem_of_app. done.
  - apply dedup_from_strings.
Qed.

(** ** The merge of the index result and the AI result *)

Lemma mergedData_get basicData aiData platform merged k :
  NoDup basicData.*1 → NoDup aiData.*1 →
  mergedData basicData aiData platform = Some merged →
  k ∉ computed_keys →
  get k merged = if has_key k aiData then get k aiData else get k basicData.
Proof.
  intros Hb Ha Hm Hk. unfold mergedData in Hm.
  destruct (merge_arrays (get "images" basicData) (get "images" aiData)); [|done].
  destruct (merge_arrays (get "features" basicData) (get "features" aiData)); [|done].
  injection Hm as <-.
  assert (k ≠ "source" ∧ k ≠ "images" ∧ k ≠ "features" ∧ k ≠ "variants") as (?&?&?&?).
  { unfold computed_keys in Hk. rewrite !not_elem_of_cons in Hk. tauto. }
  rewrite !get_set_ne by done.
  rewrite get_assign by done. destruct (has_key k aiData); [done|].
  rewrite get_assign by done. destruct (has_key k basicData) eqn:E; [done|].
  simpl. by rewrite get_no_key.
Qed.

Lemma get_has_key k o : get k o ≠ JUndefined → has_key k o = true.
Proof.
  intros H. destruct (has_key k o) eqn:E; [done|]. by apply get_no_key in E.
Qed.

Lemma merge_objects_get a b k :
  NoDup (properties a).*1 → NoDup (properties b).*1 →
  ∃ vs, merge_objects a b = JObj vs
        ∧ get k vs = if has_key k (properties b) then get k (properties b)
                     else get k (properties a).
Proof.
  intros Ha Hb. unfold merge_objects. eexists. split; [done|].
  fold (properties a). fold (properties b).
  rewrite get_assign by done. destruct (has_key k (properties b)); [done|].
  rewrite get_assign by done. destruct (has_key k (properties a)) eqn:E; [done|].
  simpl. by rewrite get_no_key.
Qed.

(** The merge of any two records. *)
Lemma mergedData_spec (basicData aiData merged : Obj) (platform : Platform) :
  NoDup basicData.*1 → NoDup aiData.*1 →
  NoDup (properties (get "variants" basicData)).*1 →
  NoDup (properties (get "variants" aiData)).*1 →
  mergedData basicData aiData platform = Some merged →
  (∀ k, k ∉ computed_keys →
        get k merged = if has_key k aiData then get k aiData else get k basicData)
  ∧ (∀ f, f ∈ ["images"; "features"] →
       ∃ l, get f merged = JArr l
            ∧ (∀ v, v ∈ l ↔ v ∈ elements (get f basicData) ∨ v ∈ elements (get f aiData))
            ∧ NoDup (strings_of l))
  ∧ (∃ vs, get "variants" merged = JObj vs
           ∧ ∀ k, get k vs =
                  if has_key k (properties (get "variants" aiData))
                  then get k (properties (get "variants" aiData))
                  else get k (properties (get "variants" basicData))).
Proof.
  intros Hb Ha Hvb Hva Hm.
  split_and!.
  - intros k Hk. by apply (mergedData_get _ _ platform).
  - unfold mergedData in Hm.
    destruct (merge_arrays (get "images" basicData) (get "images" aiData))
      as [images|] eqn:Hi; [|done].
    destruct (merge_arrays (get "features" basicData) (get "features" aiData))
      as [features|] eqn:Hf; [|done].
    injection Hm as <-.
    intros f [->|[->|[]%elem_of_nil]%elem_of_cons]%elem_of_cons.
    + rewrite !get_set_ne, get_set_eq by done.
      destruct (merge_arrays_spec _ _ _ Hi) as (l & -> & ? & ?). by exists l.
    + rewrite get_set_ne, get_set_eq by done.
      destruct (merge_arrays_spec _ _ _ Hf) as (l & -> & ? & ?). by exists l.
  - unfold mergedData in Hm.
    destruct (merge_arrays (get "images" basicData) (get "images" aiData)); [|done].
    destruct (merge_arrays (get "features" basicData) (get "features" aiData)); [|done].
    injection Hm as <-. rewrite get_set_eq.
    destruct (merge_objects_get (get "variants" basicData) (get "variants" aiData) EmptyString)
      as (vs & Hvs & _); [done..|].
    exists vs. split; [done|]. intros k.
    destruct (merge_objects_get (get "variants" basicData) (get "variants" aiData) k)
      as (vs' & Hvs' & Hk); [done..|].
    rewrite Hvs in Hvs'. by injection Hvs' as <-.
Qed.

Lemma NoDup_strings (l : list string) : bool_decide (NoDup l) = true → NoDup l.
Proof. intros H. exact (bool_decide_eq_true_1 _ H). Qed.

(** The index extraction returns its template, whatever the page holds. *)
Lemma extractBasicDataWithIndex_empty ev : extractBasicDataWithIndex ev = empty_data.
Proof. by destruct ev. Qed.

Lemma unset_template_variants k :
  unset (get k (properties (get "variants" empty_data))) = true.
Proof.
  cbn [empty_data get properties own_props js_or truthy String.eqb Ascii.eqb Bool.eqb].
  repeat (destruct (String.eqb k _); [done|]). done.
Qed.

(** C2.  The record that [extractDataWithIndexAndAI] merges from the
    result of the index extraction and a result of the AI extraction
    takes the AI value for every field that the index left null -- the
    price among them, so that an AI price of "₹999" is the price of the
    merged record; its [images] and its [features] are the union of both
    arrays, in which no string occurs twice; and its [variants] are the
    shallow merge of both: a key holds the AI value when the AI variants
    have it and the index value otherwise, and a key whose value differs
    from the index value is one that the index left unset. *)
Theorem merge_policy (ev : IndexEval) (aiData merged : Obj) (platform : Platform) :
  let basicData := extractBasicDataWithIndex ev in
  NoDup aiData.*1 →
  NoDup (properties (get "variants" aiData)).*1 →
  mergedData basicData aiData platform = Some merged →
  (∀ k, k ∉ computed_keys → get k basicData = JNull → has_key k aiData = true →
        get k merged = get k aiData)
  ∧ get "price" basicData = JNull
  ∧ (get "price" aiData = JStr "₹999" → get "price" merged = JStr "₹999")
  ∧ (∀ f, f ∈ ["images"; "features"] →
       ∃ l, get f merged = JArr l
            ∧ (∀ v, v ∈ l ↔ v ∈ elements (get f basicData) ∨ v ∈ elements (get f aiData))
            ∧ NoDup (strings_of l))
  ∧ (∃ vs, get "variants" merged = JObj vs
           ∧ (∀ k, get k vs =
                   if has_key k (properties (get "variants" aiData))
                   then get k (properties (get "variants" aiData))
                   else get k (properties (get "variants" basicData)))
           ∧ (∀ k, get k vs ≠ get k (properties (get "variants" basicData)) →
                   unset (get k (properties (get "variants" basicData))) = true
                   ∧ get k vs = get k (properties (get "variants" aiData)))).
Proof.
  intros basicData Ha Hva Hm. subst basicData.
  rewrite extractBasicDataWithIndex_empty in *.
  destruct (mergedData_spec empty_data aiData merged platform)
    as (Hget & Harr & vs & Hvs & Hk); try done;
    try (apply NoDup_strings; vm_compute; reflexivity).
  split_and!.
  - intros k Hnot _ Hin. by rewrite Hget, Hin.
  - done.
  - intros Hp. rewrite Hget.
    + rewrite get_has_key; [done|]. by rewrite Hp.
    + unfold computed_keys. rewrite !not_elem_of_cons. split_and!; try done.
      apply not_elem_of_nil.
  - exact Harr.
  - exists vs. split_and!; [done | done |]. intros k Hne.
    split; [apply unset_template_variants|].
    rewrite Hk in Hne |- *. by destruct (has_key k _).
Qed.

Lemma merge_policy_witness :
  let basicData := extractBasicDataWithIndex (IndexDone a_scan) in
  let aiData := with_source an_ai_answer amazon in
  let merged := default [] (mergedData basicData aiData amazon) in
  mergedData basicData aiData amazon = Some merged
  ∧ get "price" basicData = JNull
  ∧ get "price" aiData = JStr "₹999"
  ∧ get "price" merged = JStr "₹999"
  ∧ (∃ l, get "images" merged = JArr l ∧ NoDup (strings_of l))
  ∧ get "variants" merged
    = JObj [("sizes", JArr [JStr "1L"]); ("colors", JArr []); ("other", JArr [])].
Proof.
  intros basicData aiData merged.
  destruct (merge_policy (IndexDone a_scan) aiData merged amazon)
    as (_ & Hnull & Hprice & Harr & _).
  - apply NoDup_strings. vm_compute. reflexivity.
  - apply NoDup_strings. vm_compute. reflexivity.
  - vm_compute. reflexivity.
  - split; [vm_compute; reflexivity|]. split; [exact Hnull|]. split; [reflexivity|].
    split; [apply Hprice; reflexivity|]. split; [|vm_compute; reflexivity].
    destruct (Harr "images") as (l & Hl & _ & Hnd); [left|]. by exists l.
Defined.

(** ** The images of the index-based extraction *)

Lemma startsWith_before_query p s :
  startsWith p (before_query s) = true → startsWith p s = true.
Proof.
  revert s. induction p as [|a p IH]; intros s; [done|].
  destruct s as [|b s]; [done|].
  change (before_query (String b s))
    with (if Ascii.eqb b "?" then EmptyString else String b (before_query s)).
  destruct (Ascii.eqb b "?"); [done|].
  change (startsWith (String a p) (String b (before_query s)))
    with (Ascii.eqb a b && startsWith p (before_query s)).
  change (startsWith (String a p) (String b s)) with (Ascii.eqb a b && startsWith p s).
  destruct (Ascii.eqb a b); [apply IH | done].
Qed.

Section TopImages.

Variable origin : string.

Lemma topImages_loop_good candidates uniqueImageUrls topImages :
  loop_invariant uniqueImageUrls topImages →
  good_images (topImages_loop origin candidates uniqueImageUrls topImages).
Proof.
  revert uniqueImageUrls topImages.
  induction candidates as [|img rest IH]; intros seen top (Hnd & Hlen & Hseen & Hdata);
    cbn [topImages_loop].
  - split_and!; [done | lia | done].
  - destruct (_ && _) eqn:Hfilter; [|by apply IH].
    apply andb_true_iff in Hfilter as [_ Hnodata%negb_true_iff].
    set (fullUrl := before_query (absolute origin (url img))).
    assert (startsWith "data:" fullUrl = false) as Hfull.
    { destruct (startsWith "data:" fullUrl) eqn:E; [|done].
      apply startsWith_before_query in E. congruence. }
    case_bool_decide as Hin; [by apply IH|].
    assert (NoDup (top ++ [fullUrl])) as Hnd'.
    { apply NoDup_app. split_and!; [done | | apply NoDup_singleton].
      intros u Hu ->%list_elem_of_singleton. by apply Hin, Hseen. }
    assert (∀ u, u ∈ (top ++ [fullUrl])%list → startsWith "data:" u = false) as Hdata'.
    { intros u [Hu| ->%list_elem_of_singleton]%elem_of_app; [by apply Hdata | done]. }
    destruct (5 <=? length (top ++ [fullUrl]))%nat eqn:Hfive.
    + split_and!; [done | | done]. rewrite length_app. simpl. lia.
    + apply Nat.leb_gt in Hfive. apply IH. split_and!; [done | done | | done].
      intros u [Hu| ->%list_elem_of_singleton]%elem_of_app; set_solver.
Qed.

Lemma topImages_good candidates : good_images (topImages origin candidates).
Proof.
  apply topImages_loop_good. split_and!.
  - constructor.
  - simpl. lia.
  - intros u Hu%elem_of_nil. done.
  - intros u Hu%elem_of_nil. done.
Qed.

End TopImages.

Lemma get_set_text k k' best data :
  k ≠ k' → get k (set_text k' best data) = get k data.
Proof. intros H. destruct best; simpl; [by apply get_set_ne | done]. Qed.

Lemma index_page_function_images scan data :
  get "images" (index_page_function scan data)
  = of_strings (topImages (origin scan) (imageCandidates scan)).
Proof.
  unfold index_page_function.
  repeat match goal with
         | |- context [match ?x with _ => _ end] => destruct x
         end;
    rewrite ?get_set_ne, ?get_set_text by done;
    rewrite ?get_set_eq; try done;
    rewrite ?get_set_ne, ?get_set_text by done; by rewrite ?get_set_eq.
Qed.

(** ** Rules for computations *)

Lemma world_eta w : {| trace := (trace w ++ [])%list; files := files w |} = w.
Proof. destruct w. simpl. by rewrite app_nil_r. Qed.

Section Rules.

Context {A B : Type}.
Implicit Types (P : Event → Prop).

Lemma runs_ret P (Q : Exn + A → Prop) a : Q (inr a) → runs (ret a) P Q.
Proof.
  intros HQ w. exists (inr a), []. by rewrite world_eta.
Qed.

Lemma runs_throw P (Q : Exn + A → Prop) e : Q (inl e) → runs (throw e) P Q.
Proof.
  intros HQ w. exists (inl e), []. by rewrite world_eta.
Qed.

Lemma runs_lift P (Q : Exn + A → Prop) r : Q r → runs (lift r) P Q.
Proof.
  intros HQ w. exists r, []. by rewrite world_eta.
Qed.

Lemma runs_bind P (Q1 : Exn + A → Prop) (Q : Exn + B → Prop) c k :
  runs c P Q1 →
  (∀ e, Q1 (inl e) → Q (inl e)) →
  (∀ a, Q1 (inr a) → runs (k a) P Q) →
  runs (bind c k) P Q.
Proof.
  intros Hc He Hk w. unfold bind.
  destruct (Hc w) as (r & evs & -> & Hevs & Hr).
  destruct r as [e|a].
  - exists (inl e), evs. auto.
  - destruct (Hk a Hr {| trace := (trace w ++ evs)%list; files := files w |})
      as (r' & evs' & -> & Hevs' & Hr').
    exists r', (evs ++ evs')%list. simpl. rewrite app_assoc.
    split_and!; [done | by apply Forall_app | done].
Qed.

Lemma runs_bind_returned P (Q1 : A → Prop) (Q : Exn + B → Prop) c k :
  runs c P (returned Q1) →
  (∀ a, Q1 a → runs (k a) P Q) →
  runs (bind c k) P Q.
Proof.
  intros Hc Hk. eapply runs_bind; [exact Hc | done | exact Hk].
Qed.

Lemma runs_try_catch P (Q1 Q : Exn + A → Prop) body handler :
  runs body P Q1 →
  (∀ a, Q1 (inr a) → Q (inr a)) →
  (∀ e, Q1 (inl e) → runs (handler e) P Q) →
  runs (try_catch body handler) P Q.
Proof.
  intros Hc Ha Hh w. unfold try_catch.
  destruct (Hc w) as (r & evs & -> & Hevs & Hr).
  destruct r as [e|a].
  - destruct (Hh e Hr {| trace := (trace w ++ evs)%list; files := files w |})
      as (r' & evs' & -> & Hevs' & Hr').
    exists r', (evs ++ evs')%list. simpl. rewrite app_assoc.
    split_and!; [done | by apply Forall_app | done].
  - exists (inr a), evs. auto.
Qed.

Lemma runs_weaken P P' (Q Q' : Exn + A → Prop) c :
  runs c P Q → (∀ e, P e → P' e) → (∀ r, Q r → Q' r) → runs c P' Q'.
Proof.
  intros Hc HP HQ w. destruct (Hc w) as (r & evs & -> & Hevs & Hr).
  exists r, evs. split_and!; [done | | by apply HQ].
  eapply Forall_impl; [exact Hevs | exact HP].
Qed.

End Rules.

Lemma runs_emit P (Q : Exn + unit → Prop) ev :
  P ev → Q (inr ()) → runs (emit ev) P Q.
Proof.
  intros HP HQ w. exists (inr tt), [ev]. split_and!; [done | | done].
  by constructor.
Qed.

Lemma runs_step P (Q : Exn + unit → Prop) ev (ok : bool) message :
  P ev → (if ok then Q (inr ()) else Q (inl (Error message))) →
  runs (step ev ok message) P Q.
Proof.
  intros HP HQ. unfold step.
  eapply (runs_bind _ (λ r, r = inr ())).
  - by apply runs_emit.
  - done.
  - intros _ _. destruct ok; [by apply runs_ret | by apply runs_throw].
Qed.

(** The number of calls of an event that a computation does not emit. *)
Lemma calls_unchanged ev w w' evs :
  trace w' = (trace w ++ evs)%list →
  Forall (λ e, e ≠ ev) evs →
  calls ev w' = calls ev w.
Proof.
  intros Htrace H. unfold calls. rewrite Htrace, filter_app, length_app.
  replace (filter (λ e, e = ev) evs) with (@nil Event); [simpl; lia|].
  clear Htrace. symmetry. induction H as [|e evs He _ IH]; [done|].
  rewrite filter_cons_False by done. exact IH.
Qed.

Ltac runs_rule :=
  lazymatch goal with
  | |- runs (ret _) _ _ => apply runs_ret
  | |- runs (throw _) _ _ => apply runs_throw
  | |- runs (lift _) _ _ => apply runs_lift
  | |- runs (emit _) _ _ => apply runs_emit
  | |- runs (step _ _ _) _ _ => apply runs_step
  | |- runs (bind _ _) _ _ => eapply (runs_bind _ (λ _, True))
  | |- runs (try_catch _ _) _ _ => eapply (runs_try_catch _ (λ _, True))
  | |- runs (match ?x with _ => _ end) _ _ => destruct x
  | |- runs (let _ := _ in _) _ _ => cbv zeta
  end.

Ltac runs_auto := repeat first [ runs_rule | progress intros | done | tauto ].

(** ** The delivery inquiry *)

Lemma checkDeliveryWithAI_runs run platform pincode :
  runs (checkDeliveryWithAI run platform pincode) delivery_event (returned (λ _, True)).
Proof.
  unfold checkDeliveryWithAI, delivery_event.
  eapply (runs_bind_returned _ (λ _, True)); [by apply runs_emit; [left|] |]. intros _ _.
  eapply (runs_try_catch _ (λ _, True)); [| done | intros; by apply runs_ret].
  runs_auto.
Qed.

Lemma checkDeliveryWithAI_fallback run platform pincode w :
  every_strategy_fails run platform pincode = true →
  ∃ estimate w',
    checkDeliveryWithAI run platform pincode w = (inr (generic_delivery estimate pincode), w')
    ∧ (estimate = "Standard delivery available, check at checkout for exact timeframe"
       ∨ estimate = "Standard delivery, check at checkout for details").
Proof.
  unfold every_strategy_fails, direct_fails, ai_fails.
  intros [Hdirect Hrest]%andb_true_iff. apply negb_true_iff in Hdirect.
  unfold checkDeliveryWithAI, bind, try_catch, emit, ret, throw. simpl.
  rewrite Hdirect.
  destruct (pincode_input run); [|eauto].
  destruct (delivery_text run) as [[info|]|]; [done | | eauto].
  destruct (screenshot_ok run); simpl in *; [|eauto].
  destruct (delivery_reply run) as [| |[v|]]; simpl; [eauto | eauto | | eauto].
  destruct (delivery_of_json v pincode); [done | eauto].
Qed.




(** ** The extraction steps always return *)

Lemma extractDataWithAI_runs run platform :
  runs (extractDataWithAI run platform) gather_event (returned (λ _, True)).
Proof.
  unfold extractDataWithAI, gather_event.
  eapply (runs_bind_returned _ (λ _, True)); [by apply runs_emit; [left|] |]. intros _ _.
  eapply (runs_try_catch _ (λ _, True)); [| done | intros; by apply runs_ret].
  runs_auto.
Qed.

Lemma extractDataWithIndexAndAI_runs ev first second last_resort platform :
  runs (extractDataWithIndexAndAI ev first second last_resort platform)
    gather_event (returned (λ _, True)).
Proof.
  unfold extractDataWithIndexAndAI.
  eapply (runs_try_catch _ (λ _, True)); [| done |].
  - cbv zeta. destruct (index_complete _); [by apply runs_ret|].
    eapply runs_bind_returned; [apply extractDataWithAI_runs|].
    intros aiData _. destruct (mergedData _ _ _); [by apply runs_ret | by apply runs_throw].
  - intros e _. eapply (runs_try_catch _ (λ _, True)); [| done | intros; by apply runs_ret].
    eapply runs_weaken; [apply extractDataWithAI_runs | done | done].
Qed.

Lemma fillMissingDataWithAI_runs run productData :
  runs (fillMissingDataWithAI run productData) gather_event (returned (λ _, True)).
Proof.
  unfold fillMissingDataWithAI, gather_event.
  eapply (runs_bind_returned _ (λ _, True)); [by apply runs_emit; [right; left|] |].
  intros _ _. cbv zeta.
  destruct (length (missingFields productData) =? 0)%nat; [by apply runs_ret|].
  eapply (runs_try_catch _ (λ _, True)); [| done | intros; by apply runs_ret].
  destruct (length _ =? 0)%nat; [by apply runs_ret|].
  unfold fill_requests. runs_auto.
Qed.

Lemma gather_runs env opts platform :
  runs (gather env opts platform) gather_event (returned (λ _, True)).
Proof.
  unfold gather.
  eapply runs_bind_returned; [apply extractDataWithIndexAndAI_runs|].
  intros productData _. cbv zeta.
  eapply (runs_bind_returned _ (λ _, True)).
  - destruct (checkDelivery opts); [|by apply runs_ret].
    eapply runs_bind_returned.
    + eapply runs_weaken; [apply checkDeliveryWithAI_runs | | done].
      unfold delivery_event, gather_event. tauto.
    + intros info _. by apply runs_ret.
  - intros productData' _.
    destruct (hasMissingData productData');
      [apply fillMissingDataWithAI_runs | by apply runs_ret].
Qed.

(** ** JSON data through the pipeline *)

Lemma json_clean_obj (o : Obj) :
  json_clean (JObj o) = true ↔ Forall (λ kv, json_clean kv.2 = true) o.
Proof.
  cbn [json_clean]. induction o as [|[k v] o IH].
  - split; [constructor | done].
  - rewrite andb_true_iff, IH, Forall_cons. done.
Qed.

Lemma json_clean_arr (l : list JsVal) :
  json_clean (JArr l) = true ↔ Forall (λ v, json_clean v = true) l.
Proof.
  cbn [json_clean]. induction l as [|v l IH].
  - split; [constructor | done].
  - cbn [forallb]. rewrite andb_true_iff, IH, Forall_cons. done.
Qed.

Lemma json_clean_strings l : json_clean (of_strings l) = true.
Proof.
  unfold of_strings. apply json_clean_arr. apply Forall_fmap.
  by apply Forall_true.
Qed.

Lemma json_clean_chars s : Forall (λ v, json_clean v = true) (chars s).
Proof.
  induction s as [|c s IH]; [constructor|]. cbn [chars]. cbv zeta.
  destruct s as [|d s']; [by repeat constructor|].
  destruct (chars (String d s')) as [|v l]; [by repeat constructor|].
  apply Forall_cons in IH as [Hv Hl].
  destruct v; try (by repeat constructor); destruct (continuation d); by repeat constructor.
Qed.

Lemma json_clean_units s : Forall (λ v, json_clean v = true) (units s).
Proof.
  unfold units. induction (json_clean_chars s) as [|char l Hchar _ IH]; [constructor|].
  cbn [fmap list_fmap concat]. apply Forall_app. split; [|exact IH].
  destruct char; try (by repeat constructor).
  unfold units_of. repeat case_match; by repeat constructor.
Qed.

Lemma clean_field_ok k v : json_clean v = true → field_ok (k, v) = true.
Proof.
  intros H. unfold field_ok, delivery_ok. cbn [fst snd]. rewrite H.
  by destruct (String.eqb k "delivery").
Qed.

Lemma data_ok_set k v o : data_ok o → field_ok (k, v) = true → data_ok (set k v o).
Proof.
  intros Ho Hv. induction Ho as [|[k' v'] o Hkv Ho IH]; cbn [set].
  - by repeat constructor.
  - destruct (String.eqb_spec k k') as [->|Hne]; [by constructor|].
    destruct (key_before k k' && negb (has_key k o)); by repeat constructor.
Qed.

Lemma data_ok_assign acc src : data_ok acc → data_ok src → data_ok (assign acc src).
Proof.
  unfold assign. intros Hacc Hsrc. revert acc Hacc.
  induction Hsrc as [|[k v] src Hkv Hsrc IH]; intros acc Hacc; cbn [fold_left]; [done|].
  apply IH. by apply data_ok_set.
Qed.

Lemma data_ok_clean (o : Obj) :
  Forall (λ kv, json_clean kv.2 = true) o → data_ok o.
Proof.
  intros H. eapply Forall_impl; [exact H|]. intros [k v] Hv. by apply clean_field_ok.
Qed.

Lemma imap_clean (f : nat → string) (l : list JsVal) :
  Forall (λ v, json_clean v = true) l →
  Forall (λ kv : string * JsVal, json_clean kv.2 = true) (imap (λ i v, (f i, v)) l).
Proof.
  intros H. revert f. induction H as [|v l Hv Hl IH]; intros f; cbn [imap]; [done|].
  constructor; [done|]. apply (IH (f ∘ S)).
Qed.

Lemma indexed_clean l :
  Forall (λ v, json_clean v = true) l →
  Forall (λ kv : string * JsVal, json_clean kv.2 = true) (indexed l).
Proof. apply (imap_clean (λ i, pretty (N.of_nat i))). Qed.

Lemma own_props_clean v :
  json_clean v = true → Forall (λ kv, json_clean kv.2 = true) (own_props v).
Proof.
  destruct v; cbn [own_props]; try by constructor.
  - intros _. apply indexed_clean, json_clean_units.
  - intros H. by apply indexed_clean, json_clean_arr.
  - intros H. by apply json_clean_obj.
Qed.

Lemma json_or_undefined_get (o : Obj) k :
  Forall (λ kv, json_or_undefined kv.2 = true) o → json_or_undefined (get k o) = true.
Proof.
  intros H. induction H as [|[k' v'] o Hkv Ho IH]; cbn [get]; [done|].
  by destruct (String.eqb k k').
Qed.

Lemma clean_json_or_undefined v : json_clean v = true → json_or_undefined v = true.
Proof. unfold json_or_undefined. intros ->. by rewrite orb_true_r. Qed.

(** Reading a field other than [delivery]. *)
Lemma data_ok_get o k :
  data_ok o → k ≠ "delivery" → json_or_undefined (get k o) = true.
Proof.
  intros H Hk. induction H as [|[k' v'] o Hkv Ho IH]; cbn [get]; [done|].
  destruct (String.eqb_spec k k') as [->|Hne]; [|done].
  unfold field_ok in Hkv. cbn [fst snd] in Hkv.
  destruct (String.eqb_spec k' "delivery"); [done|].
  by apply clean_json_or_undefined.
Qed.

Lemma data_ok_get_delivery o :
  data_ok o →
  get "delivery" o = JUndefined ∨ delivery_ok (get "delivery" o) = true.
Proof.
  intros H. induction H as [|[k' v'] o Hkv Ho IH]; cbn [get]; [by left|].
  destruct (String.eqb_spec "delivery" k') as [<-|Hne]; [|done].
  right. exact Hkv.
Qed.

Lemma opt_prop_clean v k :
  json_or_undefined v = true → json_or_undefined (opt_prop v k) = true.
Proof.
  destruct v; cbn; try done.
  - intros _. by destruct (String.eqb k "length").
  - intros _. by destruct (String.eqb k "length").
  - intros H%json_clean_obj. apply json_or_undefined_get.
    eapply Forall_impl; [exact H|]. intros kv. apply clean_json_or_undefined.
Qed.

Lemma opt_prop_delivery v k :
  v = JUndefined ∨ delivery_ok v = true → json_or_undefined (opt_prop v k) = true.
Proof.
  intros [->|H]; [done|]. unfold delivery_ok in H.
  apply orb_true_iff in H as [H|H].
  - by apply opt_prop_clean, clean_json_or_undefined.
  - destruct v; try done. cbn. apply json_or_undefined_get.
    rewrite forallb_forall in H. apply Forall_forall. intros x Hx.
    by apply H, list_elem_of_In.
Qed.

Lemma js_or_clean a b :
  json_or_undefined a = true → json_clean b = true → json_clean (js_or a b) = true.
Proof.
  intros Ha Hb. unfold js_or. destruct (truthy a) eqn:E; [|done].
  destruct a; try done.
Qed.

Lemma js_nullish_clean a b :
  json_or_undefined a = true → json_clean b = true → json_clean (js_nullish a b) = true.
Proof. intros Ha Hb. by destruct a. Qed.

Lemma array_or_empty_clean v :
  json_or_undefined v = true → json_clean (array_or_empty v) = true.
Proof. intros H. unfold array_or_empty. by destruct v. Qed.

(** The record after the defaults is JSON data. *)
Lemma normalized_clean toISOString env platform url productData :
  data_ok productData →
  json_clean (JObj (normalized toISOString env platform url productData)) = true.
Proof.
  intros H. unfold normalized, handleMissingData. set_names.
  pose proof (λ k, data_ok_get productData k H) as Hget.
  pose proof (λ k, opt_prop_delivery _ k (data_ok_get_delivery productData H)) as Hdel.
  pose proof (λ k, opt_prop_clean _ k (Hget "variants" ltac:(done))) as Hvar.
  cbn [json_clean].
  rewrite !js_or_clean, !js_nullish_clean, !array_or_empty_clean; done || by apply Hget.
Qed.

Lemma data_ok_empty : data_ok empty_data.
Proof. unfold data_ok, empty_data. repeat constructor. Qed.

Lemma data_ok_set_clean k v o : data_ok o → json_clean v = true → data_ok (set k v o).
Proof. intros Ho Hv. apply data_ok_set; [done|]. by apply clean_field_ok. Qed.

Lemma data_ok_index ev : data_ok (extractBasicDataWithIndex ev).
Proof. rewrite extractBasicDataWithIndex_empty. apply data_ok_empty. Qed.

Lemma clean_option_some v x : clean_option v = true → v = Some x → json_clean x = true.
Proof. by intros H ->. Qed.

Lemma data_ok_fallback scan platform :
  clean_fallback scan = true → data_ok (fallbackExtraction scan platform).
Proof.
  unfold clean_fallback. intros H.
  repeat (apply andb_true_iff in H as [H ?]).
  unfold fallbackExtraction.
  repeat match goal with
         | |- context [match ?x with _ => _ end] => destruct x eqn:?
         end;
    repeat (apply data_ok_set_clean; [|done || by eapply clean_option_some]);
    apply data_ok_empty.
Qed.

Lemma data_ok_with_source v platform :
  json_clean v = true → data_ok (with_source v platform).
Proof.
  intros H. unfold with_source. apply data_ok_set_clean; [|done].
  apply data_ok_assign; [constructor|]. by apply data_ok_clean, own_props_clean.
Qed.

Lemma dedup_from_Forall (P : JsVal → Prop) seen l :
  Forall P l → Forall P (dedup_from seen l).
Proof.
  intros H. revert seen. induction H as [|v l Hv Hl IH]; intros seen; cbn [dedup_from];
    [done|].
  destruct (existsb (strict_eq v) seen); [apply IH | constructor; [done | apply IH]].
Qed.

Lemma iterate_clean v l :
  json_or_undefined v = true → iterate (js_or v (JArr [])) = Some l →
  Forall (λ x, json_clean x = true) l.
Proof.
  unfold js_or. destruct (truthy v) eqn:E.
  - destruct v; try done; cbn [iterate]; intros H [= <-].
    + apply json_clean_chars.
    + by apply json_clean_arr.
  - cbn [iterate]. intros _ [= <-]. constructor.
Qed.

Lemma merge_arrays_clean a b r :
  json_or_undefined a = true → json_or_undefined b = true →
  merge_arrays a b = Some r → json_clean r = true.
Proof.
  intros Ha Hb. unfold merge_arrays.
  destruct (iterate (js_or a (JArr []))) as [la|] eqn:Ea; [|done].
  destruct (iterate (js_or b (JArr []))) as [lb|] eqn:Eb; [|done].
  intros [= <-]. apply json_clean_arr. apply dedup_from_Forall, Forall_app.
  split; [by apply (iterate_clean a) | by apply (iterate_clean b)].
Qed.

Lemma Forall_set (P : JsVal → Prop) k v (o : Obj) :
  Forall (λ kv, P kv.2) o → P v → Forall (λ kv, P kv.2) (set k v o).
Proof.
  intros Ho Hv. induction Ho as [|[k' v'] o Hkv Ho IH]; cbn [set].
  - by repeat constructor.
  - destruct (String.eqb k k'); [by constructor|].
    destruct (key_before k k' && negb (has_key k o)); by repeat constructor.
Qed.

Lemma Forall_assign (P : JsVal → Prop) (acc src : Obj) :
  Forall (λ kv, P kv.2) acc → Forall (λ kv, P kv.2) src →
  Forall (λ kv, P kv.2) (assign acc src).
Proof.
  unfold assign. intros Hacc Hsrc. revert acc Hacc.
  induction Hsrc as [|[k v] src Hkv Hsrc IH]; intros acc Hacc; cbn [fold_left]; [done|].
  apply IH. by apply Forall_set.
Qed.

Lemma properties_clean v :
  json_or_undefined v = true →
  Forall (λ kv, json_clean kv.2 = true) (properties v).
Proof.
  intros H. unfold properties, js_or. destruct (truthy v) eqn:E; [|constructor].
  apply own_props_clean. by destruct v.
Qed.

Lemma merge_objects_clean a b :
  json_or_undefined a = true → json_or_undefined b = true →
  json_clean (merge_objects a b) = true.
Proof.
  intros Ha Hb. unfold merge_objects. apply json_clean_obj.
  apply (Forall_assign (λ v, json_clean v = true));
    [apply (Forall_assign (λ v, json_clean v = true)); [constructor|] |];
    by apply properties_clean.
Qed.

Lemma data_ok_merged basicData aiData platform merged :
  data_ok basicData → data_ok aiData →
  mergedData basicData aiData platform = Some merged → data_ok merged.
Proof.
  intros Hb Ha. unfold mergedData.
  destruct (merge_arrays (get "images" basicData) (get "images" aiData)) eqn:Hi; [|done].
  destruct (merge_arrays (get "features" basicData) (get "features" aiData)) eqn:Hf;
    [|done].
  intros [= <-].
  repeat apply data_ok_set_clean.
  - apply data_ok_assign; [apply data_ok_assign; [constructor | done] | done].
  - done.
  - eapply merge_arrays_clean; [| |exact Hi]; by apply data_ok_get.
  - eapply merge_arrays_clean; [| |exact Hf]; by apply data_ok_get.
  - apply merge_objects_clean; by apply data_ok_get.
Qed.

Ltac clean_hyps :=
  repeat match goal with
         | H : _ && _ = true |- _ => apply andb_true_iff in H as [? ?]
         end.

Lemma extractDataWithAI_clean run platform :
  clean_ai_run run = true →
  runs (extractDataWithAI run platform) gather_event (returned data_ok).
Proof.
  unfold clean_ai_run, clean_reply. intros H. clean_hyps.
  unfold extractDataWithAI.
  eapply (runs_bind_returned _ (λ _, True)); [by apply runs_emit; [left|] |]. intros _ _.
  eapply (runs_try_catch _ (thrown_or data_ok)); [| done |].
  2: { intros e _. apply runs_ret. by apply data_ok_fallback. }
  destruct (capture_ok run); [|by apply runs_throw].
  eapply (runs_try_catch _ (thrown_or data_ok)); [| done |].
  - eapply (runs_bind_returned _ (λ _, True)); [by apply runs_emit; [do 3 right|] |].
    intros _ _.
    destruct (vision run) as [|[v|] [v'|]]; clean_hyps;
      first [ by apply runs_throw
            | apply runs_ret; by apply data_ok_with_source ].
  - intros e _. eapply (runs_try_catch _ (thrown_or data_ok)); [| done |].
    + eapply (runs_bind_returned _ (λ _, True)); [by apply runs_emit; [do 3 right|] |].
      intros _ _.
      destruct (text_only run) as [|[v|] ?]; clean_hyps;
        first [ by apply runs_throw
              | apply runs_ret; by apply data_ok_with_source ].
    + intros e' _. by apply runs_throw.
Qed.

Lemma extractDataWithIndexAndAI_clean ev first second last_resort platform :
  clean_ai_run first = true → clean_ai_run second = true →
  clean_fallback last_resort = true →
  runs (extractDataWithIndexAndAI ev first second last_resort platform)
    gather_event (returned data_ok).
Proof.
  intros Hfirst Hsecond Hlast. unfold extractDataWithIndexAndAI.
  pose proof (data_ok_index ev) as Hindex.
  eapply (runs_try_catch _ (thrown_or data_ok)); [| done |].
  - cbv zeta. destruct (index_complete _).
    + apply runs_ret. apply data_ok_set_clean; [|done].
      apply data_ok_assign; [constructor | done].
    + eapply runs_bind_returned; [by apply extractDataWithAI_clean|].
      intros aiData Hai. destruct (mergedData _ _ _) eqn:Hm;
        [apply runs_ret; by apply (data_ok_merged _ _ _ _ Hindex Hai Hm)
        | by apply runs_throw].
  - intros e _. eapply (runs_try_catch _ (thrown_or data_ok)); [| done |].
    + eapply runs_weaken; [by apply extractDataWithAI_clean | done |].
      by intros [|].
    + intros e' _. apply runs_ret. by apply data_ok_fallback.
Qed.

Lemma delivery_of_json_clean v pincode info :
  json_clean v = true → delivery_of_json v pincode = Some info →
  clean_delivery_info info = true.
Proof.
  intros Hv. unfold delivery_of_json.
  pose proof (λ k, opt_prop_clean v k (clean_json_or_undefined _ Hv)) as H.
  unfold opt_prop in H.
  pose proof (H "available"). pose proof (H "estimatedDate"). pose proof (H "charges").
  destruct (prop v "available"), (prop v "estimatedDate"), (prop v "charges"); try done.
  intros [= <-]. unfold clean_delivery_info. simpl.
  by repeat (apply andb_true_iff; split).
Qed.

Lemma checkDeliveryWithAI_clean run platform pincode :
  clean_delivery_run run = true →
  runs (checkDeliveryWithAI run platform pincode) delivery_event
    (returned (λ info, clean_delivery_info info = true)).
Proof.
  unfold clean_delivery_run. intros H. clean_hyps.
  assert (clean_delivery_info (checkDeliveryDate run platform pincode) = true) as Hdirect.
  { unfold checkDeliveryDate.
    destruct (checkers run platform) as [info|] eqn:E; [|done].
    match goal with Hc : forallb _ _ = true |- _ => rewrite forallb_forall in Hc;
      specialize (Hc platform) end.
    rewrite E in *. cbn in *.
    match goal with Hc : _ → clean_delivery_info info = true |- _ => apply Hc end.
    destruct platform; cbn; tauto. }
  assert (∀ v, delivery_reply run = DeliveryJson (Some v) → json_clean v = true)
    as Hreply.
  { intros v Hv.
    match goal with
    | Hr : match delivery_reply run with _ => _ end = true |- _ => by rewrite Hv in Hr
    end. }
  unfold checkDeliveryWithAI, delivery_event.
  eapply (runs_bind_returned _ (λ _, True)); [by apply runs_emit; [left|] |]. intros _ _.
  eapply (runs_try_catch _ (thrown_or (λ info, clean_delivery_info info = true)));
    [| done | intros; by apply runs_ret].
  cbv zeta. destruct (_ && _); [by apply runs_ret|].
  eapply (runs_bind _ (λ _, True)); [| done |].
  { destruct (pincode_input run); [by apply runs_ret | by apply runs_throw]. }
  intros _ _.
  destruct (delivery_text run) as [[text|]|].
  - eapply (runs_bind_returned _ (λ t, t = Some text)); [by apply runs_ret|].
    intros ? ->. apply runs_ret. unfold thrown_or, clean_delivery_info. simpl.
    clean_hyps. by repeat (apply andb_true_iff; split).
  - eapply (runs_bind_returned _ (λ t, t = None)); [by apply runs_ret|].
    intros ? ->.
    eapply (runs_bind_returned _
              (λ r, from_option (λ info, clean_delivery_info info = true) True r)).
    + eapply (runs_try_catch _ (thrown_or
                (λ r, from_option (λ info, clean_delivery_info info = true) True r)));
        [| done | intros; by apply runs_ret].
      eapply (runs_bind _ (λ _, True)); [| done |].
      { destruct (screenshot_ok run); [by apply runs_ret | by apply runs_throw]. }
      intros _ _.
      eapply (runs_bind_returned _ (λ _, True)); [by apply runs_emit; [right|] |].
      intros _ _.
      destruct (delivery_reply run) as [| |[v|]] eqn:Er;
        [by apply runs_throw | by apply runs_ret | | by apply runs_ret].
      apply runs_ret. cbn. destruct (delivery_of_json v pincode) eqn:E; [|exact I].
      cbn. exact (delivery_of_json_clean v pincode _ (Hreply v eq_refl) E).
    + intros [info|] Hinfo; by apply runs_ret.
  - eapply (runs_bind _ (λ r, ∃ e, r = inl e));
      [apply runs_throw; eauto | intros; exact I | by intros ? [? ?]].
Qed.

Lemma prop_clean v k x :
  json_clean v = true → prop v k = Some x → json_or_undefined x = true.
Proof.
  intros Hv Hx.
  pose proof (opt_prop_clean v k (clean_json_or_undefined _ Hv)) as H.
  unfold opt_prop in H. by rewrite Hx in H.
Qed.

Lemma data_ok_merge_missing productData missingData with_variants merged :
  data_ok productData → json_clean missingData = true →
  merge_missing productData missingData with_variants = Some merged →
  data_ok merged.
Proof.
  intros Hpd Hv. unfold merge_missing.
  destruct (prop missingData "images") as [newImages|] eqn:Hi; [|done].
  destruct (merge_arrays (get "images" productData) newImages) as [images|] eqn:Hm;
    [|done].
  assert (data_ok (set "images" images
                     (assign (assign [] productData) (own_props missingData)))) as Hmerged.
  { apply data_ok_set_clean.
    - apply data_ok_assign; [apply data_ok_assign; [constructor | done] |].
      by apply data_ok_clean, own_props_clean.
    - eapply merge_arrays_clean; [| |exact Hm];
        [by apply data_ok_get | by eapply prop_clean]. }
  destruct with_variants; [|by intros [= <-]].
  destruct (prop missingData "variants") as [newVariants|] eqn:Hvar; [|done].
  intros [= <-]. apply data_ok_set_clean; [done|].
  apply merge_objects_clean; [by apply data_ok_get | by eapply prop_clean].
Qed.

Lemma data_ok_generic_weight productData productData' :
  data_ok productData → generic_weight productData = Some productData' →
  data_ok productData'.
Proof.
  intros Hpd. unfold generic_weight.
  destruct (js_or (get "title" productData) (JStr EmptyString)); try done.
  intros [= <-].
  repeat match goal with
         | |- context [if ?b then _ else _] => destruct b
         end; try done; by apply data_ok_set_clean.
Qed.

Lemma fill_requests_clean run productData missingFields :
  clean_fill_run run = true → data_ok productData →
  runs (try_catch
          (if (length missingFields =? 0)%nat then ret productData
           else fill_requests run productData missingFields)
          (λ error, ret productData))
    gather_event (returned data_ok).
Proof.
  unfold clean_fill_run. intros H Hpd. clean_hyps.
  eapply (runs_try_catch _ (thrown_or data_ok)); [| done | intros; by apply runs_ret].
  destruct (length _ =? 0)%nat; [by apply runs_ret|].
  unfold fill_requests, gather_event.
  eapply (runs_bind _ (λ _, True)); [| done |].
  { destruct (fill_capture_ok run); [by apply runs_ret | by apply runs_throw]. }
  intros _ _.
  eapply (runs_bind_returned _ (from_option data_ok True)).
  - eapply (runs_try_catch _ (thrown_or (from_option data_ok True))); [| done |].
    + eapply (runs_bind_returned _ (λ _, True)); [by apply runs_emit; [do 3 right|] |].
      intros _ _.
      destruct (fill_vision run) as [| |parsed reparsed] eqn:Er;
        [by apply runs_throw | by apply runs_ret |].
      cbn [clean_fill_reply] in *. clean_hyps.
      destruct (from_option _ None parsed) as [merged|] eqn:E1.
      * apply runs_ret. cbn. destruct parsed as [v|]; [|done].
        by apply (data_ok_merge_missing productData v true merged).
      * apply runs_ret. cbn. destruct reparsed as [v|]; [|exact I]. cbn.
        destruct (merge_missing productData v false) as [merged|] eqn:E2; [|exact I].
        by apply (data_ok_merge_missing productData v false merged).
    + intros e _.
      eapply (runs_try_catch _ (thrown_or (from_option data_ok True)));
        [| done | intros; by apply runs_ret].
      eapply (runs_bind_returned _ (λ _, True)); [by apply runs_emit; [do 3 right|] |].
      intros _ _.
      destruct (fill_text_only run) as [| |parsed reparsed] eqn:Er;
        [by apply runs_throw | by apply runs_ret |].
      cbn [clean_fill_reply] in *. clean_hyps.
      apply runs_ret. cbn. destruct parsed as [v|]; [|exact I]. cbn.
      apply data_ok_assign; [apply data_ok_assign; [constructor | done] |].
      by apply data_ok_clean, own_props_clean.
  - intros [merged|] Hanswer; [by apply runs_ret|].
    destruct (_ && _); [|by apply runs_ret].
    destruct (generic_weight productData) eqn:Eg; [|by apply runs_throw].
    apply runs_ret. by apply (data_ok_generic_weight productData).
Qed.

Lemma fillMissingDataWithAI_clean run productData :
  clean_fill_run run = true → data_ok productData →
  runs (fillMissingDataWithAI run productData) gather_event (returned data_ok).
Proof.
  intros H Hpd. unfold fillMissingDataWithAI.
  eapply (runs_bind_returned _ (λ _, True)); [by apply runs_emit; [right; left|] |].
  intros _ _. cbv zeta.
  destruct (length (missingFields productData) =? 0)%nat; [by apply runs_ret|].
  apply fill_requests_clean; [done|].
  destruct (_ && _); [|done].
  apply data_ok_set_clean; [done | apply json_clean_strings].
Qed.

Lemma clean_delivery_object info :
  clean_delivery_info info = true →
  field_ok ("delivery", JObj (delivery_object info)) = true.
Proof.
  unfold clean_delivery_info. intros H. clean_hyps.
  unfold field_ok, delivery_ok, delivery_object. cbn [fst snd String.eqb Ascii.eqb Bool.eqb].
  cbn [forallb snd]. apply orb_true_iff. right.
  by repeat (apply andb_true_iff; split).
Qed.

(** The product data that the extraction steps gather is JSON data. *)
Lemma gather_clean env opts platform :
  clean_env env = true →
  runs (gather env opts platform) gather_event (returned data_ok).
Proof.
  unfold clean_env. intros H. clean_hyps. unfold gather.
  eapply runs_bind_returned; [by apply extractDataWithIndexAndAI_clean|].
  intros productData Hpd. cbv zeta.
  eapply (runs_bind_returned _ data_ok).
  - assert (data_ok (if negb (truthy (get "weight" productData)) && truthy (weightInfo env)
                     then set "weight" (weightInfo env) productData else productData))
      as Hpd'.
    { destruct (_ && _); [|done]. by apply data_ok_set_clean. }
    destruct (checkDelivery opts); [|by apply runs_ret].
    eapply runs_bind_returned.
    + eapply runs_weaken; [by apply checkDeliveryWithAI_clean | | done].
      unfold delivery_event, gather_event. tauto.
    + intros info Hinfo. apply runs_ret. apply data_ok_set; [done|].
      by apply clean_delivery_object.
  - intros pd Hok.
    destruct (hasMissingData pd); [by apply fillMissingDataWithAI_clean | by apply runs_ret].
Qed.

(** Whatever the environment, the steps return; and from JSON data they
    gather JSON data. *)
Lemma gather_returns env opts platform :
  runs (gather env opts platform) gather_event
    (returned (λ productData, clean_env env = true → data_ok productData)).
Proof.
  destruct (clean_env env) eqn:Hclean.
  - eapply runs_weaken; [by apply gather_clean | done |].
    intros [e|productData]; cbn; auto.
  - eapply runs_weaken; [apply gather_runs | done |].
    intros [e|productData]; cbn; [done | intros _ ?; done].
Qed.

(** ** The pipeline *)

Section PipelineFacts.

Variable md5 : string → string.
Variable toISOString : Z → string.

Lemma truthy_js_or_str a s : s ≠ EmptyString → truthy (js_or a (JStr s)) = true.
Proof.
  intros Hs. unfold js_or. destruct (truthy a) eqn:E; [done|]. simpl.
  destruct (String.eqb_spec s EmptyString); done.
Qed.

(** After the defaults, the record has a title: the validation that
    follows cannot fail. *)
Lemma validate_normalized env platform url productData :
  validateScrapedData (normalized toISOString env platform url productData) = inr ().
Proof.
  unfold validateScrapedData, normalized.
  rewrite !get_set_ne by done. cbn [handleMissingData get String.eqb Ascii.eqb Bool.eqb].
  by rewrite truthy_js_or_str.
Qed.

(** A run of the [try] block that reaches the extraction returns the
    normalised record and writes it to the cache. *)
Lemma scrape_returns P Q env url opts platform w :
  newPage_ok env = true → detectPlatform url = inr platform → goto_ok env = true →
  runs (gather env opts platform) P (returned Q) →
  ∃ productData evs,
    Forall P evs ∧ Q productData
    ∧ let record := JObj (normalized toISOString env platform url productData) in
      scrape md5 toISOString env url opts w
      = (inr record,
         {| trace := (trace w ++ [EvNewPage; EvGoto url] ++ evs)%list;
            files := written md5 env url record w |}).
Proof.
  intros Hpage Hplatform Hgoto Hgather.
  destruct (Hgather {| trace := (trace w ++ [EvNewPage; EvGoto url])%list; files := files w |})
    as (r & evs & Hrun & Hevs & Hr).
  destruct r as [e|productData]; [done|].
  exists productData, evs. split_and!; [done | done |].
  unfold scrape, bind, step, emit, lift, ret. simpl.
  rewrite Hpage, Hplatform, Hgoto. simpl.
  rewrite <- app_assoc. simpl. simpl in Hrun. rewrite Hrun.
  rewrite validate_normalized. unfold cacheProduct, written.
  destruct (write_ok env); cbn [trace files]; by rewrite <- app_assoc.
Qed.

Lemma scrapeProduct_miss env url opts w :
  served_from_cache md5 env url opts w = false →
  scrapeProduct md5 toISOString env url opts w
  = launch_and_scrape md5 toISOString env url opts w.
Proof.
  unfold served_from_cache, cached, scrapeProduct, bind, getCachedProduct, ret.
  destruct (bypassCache opts); simpl; [done|].
  destruct (files w !! md5 url) as [entry|]; simpl; [|done].
  destruct (_ <? TTL); simpl; [|done]. by intros ->.
Qed.

Lemma scrapeProduct_hit env url opts w :
  served_from_cache md5 env url opts w = true →
  scrapeProduct md5 toISOString env url opts w = (inr (cached md5 env url w), w).
Proof.
  unfold served_from_cache, cached, scrapeProduct, bind, getCachedProduct, ret.
  destruct (bypassCache opts); simpl; [done|].
  destruct (files w !! md5 url) as [entry|]; simpl; [|done].
  destruct (_ <? TTL); simpl; [|done]. by intros ->.
Qed.

(** A call that is not served from the cache and whose browser, page,
    platform and navigation are fine returns the normalised record. *)
Lemma scrapeProduct_returns P Q env url opts platform w :
  served_from_cache md5 env url opts w = false →
  launch_ok env = true → newPage_ok env = true →
  detectPlatform url = inr platform → goto_ok env = true → close_ok env = true →
  runs (gather env opts platform) P (returned Q) →
  ∃ productData evs,
    Forall P evs ∧ Q productData
    ∧ let record := JObj (normalized toISOString env platform url productData) in
      scrapeProduct md5 toISOString env url opts w
      = (inr record,
         {| trace := (trace w ++ [EvLaunch; EvNewPage; EvGoto url] ++ evs ++ [EvClose])%list;
            files := written md5 env url record w |}).
Proof.
  intros Hmiss Hlaunch Hpage Hplatform Hgoto Hclose Hgather.
  destruct (scrape_returns P Q env url opts platform
              {| trace := (trace w ++ [EvLaunch])%list; files := files w |}
              Hpage Hplatform Hgoto Hgather)
    as (productData & evs & Hevs & HQ & Hrun).
  exists productData, evs. split_and!; [done | done |]. cbv zeta in *.
  rewrite scrapeProduct_miss by done.
  unfold launch_and_scrape, bind, finally, try_catch, step, emit, ret. simpl.
  rewrite Hlaunch. simpl. rewrite Hrun. simpl. rewrite Hclose. simpl.
  f_equal. f_equal. rewrite <- !app_assoc. done.
Qed.

Lemma detectPlatform_error url e :
  detectPlatform url = inl e → e = ScraperError "Unsupported platform" 400.
Proof.
  unfold detectPlatform.
  repeat match goal with |- context [if ?b then _ else _] => destruct b end;
    congruence.
Qed.

Lemma scrape_page_fails env url opts w :
  newPage_ok env = false →
  scrape md5 toISOString env url opts w
  = (inl (Error "newPage failed"),
     {| trace := (trace w ++ [EvNewPage])%list; files := files w |}).
Proof.
  intros H. unfold scrape, bind, step, emit, ret, throw. by rewrite H.
Qed.

Lemma scrape_unsupported env url opts w e :
  newPage_ok env = true → detectPlatform url = inl e →
  scrape md5 toISOString env url opts w
  = (inl e, {| trace := (trace w ++ [EvNewPage])%list; files := files w |}).
Proof.
  intros H1 H2. unfold scrape, bind, step, emit, ret, throw, lift. by rewrite H1, H2.
Qed.

Lemma scrape_navigation_fails env url opts w platform :
  newPage_ok env = true → detectPlatform url = inr platform → goto_ok env = false →
  scrape md5 toISOString env url opts w
  = (inl (Error "Navigation failed"),
     {| trace := (trace w ++ [EvNewPage; EvGoto url])%list; files := files w |}).
Proof.
  intros H1 H2 H3. unfold scrape, bind, step, emit, ret, throw, lift.
  rewrite H1, H2. simpl. rewrite H3. simpl. by rewrite <- app_assoc.
Qed.

Lemma written_files env url record w w' :
  files w = files w' → written md5 env url record w = written md5 env url record w'.
Proof. unfold written. by intros ->. Qed.

(** The wrapper around the [try] block, given the outcome of the block. *)
Lemma launch_and_scrape_unfold env url opts w r w1 :
  launch_ok env = true →
  scrape md5 toISOString env url opts
    {| trace := (trace w ++ [EvLaunch])%list; files := files w |} = (r, w1) →
  launch_and_scrape md5 toISOString env url opts w
  = (if close_ok env then
       match r with
       | inl (Error message) =>
           inl (ScraperError ("Error scraping product: " +:+ message) 500)
       | _ => r
       end
     else inl (Error "close failed"),
     {| trace := (trace w1 ++ [EvClose])%list; files := files w1 |}).
Proof.
  intros Hlaunch Hrun.
  unfold launch_and_scrape, bind, finally, try_catch, step, emit, ret, throw.
  rewrite Hlaunch. simpl. rewrite Hrun.
  destruct r as [[m c|m]|a]; destruct (close_ok env); reflexivity.
Qed.

Lemma launch_and_scrape_ending env url opts w :
  Ending md5 toISOString env url opts w
    (launch_and_scrape md5 toISOString env url opts w).1
    (launch_and_scrape md5 toISOString env url opts w).2.
Proof.
  destruct (launch_ok env) eqn:Hlaunch.
  2: { unfold launch_and_scrape, bind, step, emit, ret, throw. rewrite Hlaunch.
       by constructor. }
  set (w0 := {| trace := (trace w ++ [EvLaunch])%list; files := files w |}).
  destruct (newPage_ok env) eqn:Hpage.
  2: { rewrite (launch_and_scrape_unfold _ _ _ _ _ _ Hlaunch
                  (scrape_page_fails env url opts w0 Hpage)).
       cbn [fst snd trace files w0]. rewrite <- !app_assoc.
       destruct (close_ok env) eqn:Hclose;
         [by apply PageFails | by apply (CloseFails _ _ _ _ _ _ [EvNewPage])]. }
  destruct (detectPlatform url) as [e|platform] eqn:Hplatform.
  { pose proof (detectPlatform_error _ _ Hplatform) as ->.
    rewrite (launch_and_scrape_unfold _ _ _ _ _ _ Hlaunch
               (scrape_unsupported env url opts w0 _ Hpage Hplatform)).
    cbn [fst snd trace files w0]. rewrite <- !app_assoc.
    destruct (close_ok env) eqn:Hclose;
      [by apply Unsupported | by apply (CloseFails _ _ _ _ _ _ [EvNewPage])]. }
  destruct (goto_ok env) eqn:Hgoto.
  2: { rewrite (launch_and_scrape_unfold _ _ _ _ _ _ Hlaunch
                  (scrape_navigation_fails env url opts w0 _ Hpage Hplatform Hgoto)).
       cbn [fst snd trace files w0]. rewrite <- !app_assoc.
       destruct (close_ok env) eqn:Hclose;
         [by eapply NavigationFails
         | by apply (CloseFails _ _ _ _ _ _ [EvNewPage; EvGoto url])]. }
  destruct (scrape_returns gather_event _ env url opts platform w0
              Hpage Hplatform Hgoto (gather_returns env opts platform))
    as (productData & evs & Hevs & Hclean & Hrun).
  cbv zeta in Hrun.
  rewrite (launch_and_scrape_unfold _ _ _ _ _ _ Hlaunch Hrun).
  rewrite (written_files env url _ w0 w eq_refl).
  cbn [fst snd trace files w0]. rewrite <- !app_assoc.
  destruct (close_ok env) eqn:Hclose.
  - by apply (Scraped _ _ _ _ _ _ platform productData evs).
  - by apply (CloseFails _ _ _ _ _ _ ([EvNewPage; EvGoto url] ++ evs)%list).
Qed.

End PipelineFacts.

(** ** Normalisation *)

Lemma js_or_defined a b : is_undefined b = false → is_undefined (js_or a b) = false.
Proof.
  intros Hb. unfold js_or. destruct (truthy a) eqn:E; [|done]. by destruct a.
Qed.

Lemma js_nullish_defined a b : is_undefined b = false → is_undefined (js_nullish a b) = false.
Proof. by destruct a. Qed.

Lemma array_or_empty_array v : isArray (array_or_empty v) = true.
Proof. unfold array_or_empty. by destruct (isArray v) eqn:E. Qed.

Lemma array_defined v : isArray v = true → is_undefined v = false.
Proof. by destruct v. Qed.

(** The record that [handleMissingData] builds is complete, and so is the
    record with its metadata. *)
Lemma handleMissingData_complete productData now :
  complete_record (JObj (handleMissingData productData now)) = true.
Proof.
  unfold complete_record, handleMissingData, defined_at, record_fields,
    variant_fields, delivery_fields.
  cbn [forallb get has_key String.eqb Ascii.eqb Bool.eqb orb andb].
  rewrite !array_or_empty_array.
  rewrite !js_or_defined, !js_nullish_defined, !(array_defined _ (array_or_empty_array _));
    done.
Qed.

Lemma normalized_complete toISOString env platform url productData :
  complete_record (JObj (normalized toISOString env platform url productData)) = true.
Proof.
  unfold complete_record, normalized, handleMissingData, defined_at, record_fields,
    variant_fields, delivery_fields.
  set_names. cbn [forallb get has_key String.eqb Ascii.eqb Bool.eqb orb andb].
  rewrite !array_or_empty_array.
  rewrite !js_or_defined, !js_nullish_defined, !(array_defined _ (array_or_empty_array _));
    done.
Qed.

(** The placeholders of the fields that have one. *)
Lemma handleMissingData_defaults productData now k placeholder :
  (k, placeholder) ∈ [ ("title", "Unknown Product");
                       ("description", "No description available");
                       ("category", "Uncategorized") ] →
  truthy (get k productData) = false →
  get k (handleMissingData productData now) = JStr placeholder.
Proof.
  intros Hk Hfalsy.
  repeat (apply elem_of_cons in Hk as [[= -> ->]|Hk];
          [cbn [handleMissingData get String.eqb Ascii.eqb Bool.eqb];
           unfold js_or; by rewrite Hfalsy|]).
  by apply elem_of_nil in Hk.
Qed.

Section Claims.

Variable md5 : string → string.
Variable toISOString : Z → string.

(** C3.  The record that an extraction returns after normalisation has
    every field of a product record present and bound to a value other
    than undefined (a found value, or the default or null that
    [handleMissingData] puts in its place); its list fields are arrays,
    its variants hold the three arrays and its delivery the four fields;
    and its title, description and category are never empty: they hold a
    found value or their placeholder. *)
Theorem record_is_complete env url opts w r :
  served_from_cache md5 env url opts w = false →
  (scrapeProduct md5 toISOString env url opts w).1 = inr r →
  complete_record r = true
  ∧ ∃ record, r = JObj record
              ∧ ∀ k, k ∈ ["title"; "description"; "category"] →
                     truthy (get k record) = true.
Proof.
  intros Hmiss Hr. rewrite scrapeProduct_miss in Hr by done.
  pose proof (launch_and_scrape_ending md5 toISOString env url opts w) as Hend.
  rewrite Hr in Hend. inversion Hend; subst. split; [apply normalized_complete|].
  eexists. split; [done|]. intros k Hk. unfold normalized.
  repeat (apply elem_of_cons in Hk as [->|Hk];
          [rewrite !get_set_ne by done;
           cbn [handleMissingData get String.eqb Ascii.eqb Bool.eqb];
           by apply truthy_js_or_str|]).
  by apply elem_of_nil in Hk.
Qed.

Lemma detectPlatform_unsupported url :
  supported url = false →
  detectPlatform url = inl (ScraperError "Unsupported platform" 400).
Proof.
  unfold supported, detectPlatform. intros H.
  repeat (apply orb_false_iff in H as [H ?]).
  by repeat match goal with Hb : _ = false |- _ => rewrite Hb; clear Hb end.
Qed.

(** C7 (as amended).  For a URL that matches no supported platform, a
    call that is not served from the cache and whose browser starts fails
    with the unsupported-source error, status 400, and never navigates:
    the browser is launched, a page is opened and the browser is closed,
    and that is all. *)
Theorem unsupported_source env url opts w :
  supported url = false →
  served_from_cache md5 env url opts w = false →
  launch_ok env = true → newPage_ok env = true → close_ok env = true →
  scrapeProduct md5 toISOString env url opts w
  = (inl (ScraperError "Unsupported platform" 400),
     {| trace := (trace w ++ [EvLaunch; EvNewPage; EvClose])%list; files := files w |}).
Proof.
  intros Hurl%detectPlatform_unsupported Hmiss Hlaunch Hpage Hclose.
  rewrite scrapeProduct_miss by done.
  rewrite (launch_and_scrape_unfold _ _ _ _ _ _ _ _ Hlaunch
             (scrape_unsupported _ _ env url opts _ _ Hpage Hurl)).
  rewrite Hclose. cbn [trace files]. by rewrite <- !app_assoc.
Qed.

(** C8 (as amended).  When the navigation fails, the pipeline does not
    retry: the URL is navigated to once, the browser is closed, and the
    failure surfaces with the internal classification 500. *)
Theorem navigation_failure env url opts w platform :
  detectPlatform url = inr platform →
  served_from_cache md5 env url opts w = false →
  launch_ok env = true → newPage_ok env = true → close_ok env = true →
  goto_ok env = false →
  scrapeProduct md5 toISOString env url opts w
  = (inl (ScraperError "Error scraping product: Navigation failed" 500),
     {| trace := (trace w ++ [EvLaunch; EvNewPage; EvGoto url; EvClose])%list;
        files := files w |}).
Proof.
  intros Hurl Hmiss Hlaunch Hpage Hclose Hgoto.
  rewrite scrapeProduct_miss by done.
  rewrite (launch_and_scrape_unfold _ _ _ _ _ _ _ _ Hlaunch
             (scrape_navigation_fails _ _ env url opts _ _ Hpage Hurl Hgoto)).
  rewrite Hclose. cbn [trace files]. by rewrite <- !app_assoc.
Qed.

(** The status of every [ScraperError] of the entry point. *)
Lemma scraper_error_status env url opts w message status :
  (scrapeProduct md5 toISOString env url opts w).1 = inl (ScraperError message status) →
  status = 400 ∨ status = 500.
Proof.
  destruct (served_from_cache md5 env url opts w) eqn:Hserved.
  - by rewrite scrapeProduct_hit.
  - rewrite scrapeProduct_miss by done. intros Hr.
    pose proof (launch_and_scrape_ending md5 toISOString env url opts w) as Hend.
    rewrite Hr in Hend. inversion Hend; subst; auto.
Qed.

(** ** The cache *)

(** A call that is not served from the cache launches the browser first. *)
Lemma launch_and_scrape_launches env url opts w :
  ∃ evs, trace (launch_and_scrape md5 toISOString env url opts w).2
         = (trace w ++ EvLaunch :: evs)%list.
Proof.
  pose proof (launch_and_scrape_ending md5 toISOString env url opts w) as Hend.
  inversion Hend; cbn [trace]; eauto.
Qed.

(** C5.  The cache lookup for a URL returns the stored record exactly when
    there is an entry for the hash of the URL whose age is strictly less
    than 24 hours: an entry that is 24 hours old or older, like a missing
    one, is a miss (null), and after a miss the entry point extracts
    again, starting with the launch of the browser. *)
Theorem cache_lookup now url w :
  (∀ entry, files w !! md5 url = Some entry → now - timestamp entry < TTL →
            getCachedProduct md5 now url w = (inr (data entry), w))
  ∧ (∀ entry, files w !! md5 url = Some entry → TTL ≤ now - timestamp entry →
              getCachedProduct md5 now url w = (inr JNull, w))
  ∧ (files w !! md5 url = None → getCachedProduct md5 now url w = (inr JNull, w))
  ∧ (∀ env opts,
       now_lookup env = now → bypassCache opts = false →
       (getCachedProduct md5 now url w).1 = inr JNull →
       ∃ evs, trace (scrapeProduct md5 toISOString env url opts w).2
              = (trace w ++ EvLaunch :: evs)%list).
Proof.
  split_and!.
  - intros entry Hentry Hage. unfold getCachedProduct. rewrite Hentry.
    cbv zeta. by rewrite (proj2 (Z.ltb_lt _ _) Hage).
  - intros entry Hentry Hage. unfold getCachedProduct. rewrite Hentry.
    cbv zeta. by rewrite (proj2 (Z.ltb_ge _ _) Hage).
  - intros Hentry. unfold getCachedProduct. by rewrite Hentry.
  - intros env opts Hnow Hbypass Hmiss.
    rewrite scrapeProduct_miss; [apply launch_and_scrape_launches|].
    unfold served_from_cache, cached. by rewrite Hnow, Hmiss, andb_false_r.
Qed.

(** ** Records and JSON *)

(** JSON data survives the round trip through the cache file. *)
Lemma json_value_clean : ∀ v, json_clean v = true → json_value v = v.
Proof.
  fix IH 1. intros [ | | | | | l | o]; try done.
  - intros H. cbn [json_value]. f_equal.
    induction l as [|a l IHl]; [done|].
    cbn [json_clean forallb] in H. apply andb_true_iff in H as [Ha Hl].
    cbn [map]. f_equal; [by apply IH | by apply IHl].
  - intros H. cbn [json_value]. f_equal.
    induction o as [|[k x] o IHo]; [done|].
    cbn [json_clean] in H. apply andb_true_iff in H as [Hx Ho].
    specialize (IHo Ho). specialize (IH x Hx).
    destruct x; try done; cbn; cbn in IH; cbn in IHo; rewrite IHo; try done;
      by rewrite IH.
Qed.

Lemma cached_fresh env url w entry :
  files w !! md5 url = Some entry →
  now_lookup env - timestamp entry < TTL →
  cached md5 env url w = data entry.
Proof.
  intros Hentry Hage. unfold cached, getCachedProduct. rewrite Hentry. cbv zeta.
  by rewrite (proj2 (Z.ltb_lt _ _) Hage).
Qed.

Lemma served_from_cache_entry env url opts w :
  served_from_cache md5 env url opts w = true →
  ∃ entry, files w !! md5 url = Some entry ∧ cached md5 env url w = data entry.
Proof.
  unfold served_from_cache, cached, getCachedProduct.
  intros [_ H]%andb_true_iff. destruct (files w !! md5 url) as [entry|]; [|done].
  exists entry. split; [done|]. cbv zeta in *. by destruct (_ <? TTL).
Qed.

(** C6 (as amended).  Two calls of the entry point for the same URL,
    without [bypassCache], return identical records when the first call
    returns a record, its cache file can be written, and the second
    lookup falls within the 24 hours of the cache entry that the first
    call leaves for the URL -- 24 hours from the time stamp of that
    entry, not from the first call: the second call is served from that
    entry, and does nothing else.  (The renderer and the AI service hand
    over JSON data.) *)
Theorem idempotence env1 env2 url opts w r w1 :
  bypassCache opts = false →
  scrapeProduct md5 toISOString env1 url opts w = (inr r, w1) →
  write_ok env1 = true →
  clean_env env1 = true →
  (∀ entry, files w1 !! md5 url = Some entry →
            now_lookup env2 - timestamp entry < TTL) →
  scrapeProduct md5 toISOString env2 url opts w1 = (inr r, w1)
  ∧ trace (scrapeProduct md5 toISOString env2 url opts w1).2 = trace w1.
Proof.
  intros Hbypass Hfirst Hwrite Hclean Hfresh.
  assert (∃ entry, files w1 !! md5 url = Some entry ∧ data entry = r ∧ truthy r = true)
    as (entry & Hentry & Hdata & Htruthy).
  { destruct (served_from_cache md5 env1 url opts w) eqn:Hserved.
    - rewrite scrapeProduct_hit in Hfirst by done. injection Hfirst as <- <-.
      destruct (served_from_cache_entry _ _ _ _ Hserved) as (entry & Hentry & Hcached).
      exists entry. split_and!; [done | done |].
      by apply andb_true_iff in Hserved as [_ ?].
    - rewrite scrapeProduct_miss in Hfirst by done.
      pose proof (launch_and_scrape_ending md5 toISOString env1 url opts w) as Hend.
      rewrite Hfirst in Hend. cbn [fst snd] in Hend.
      inversion Hend as [| | | | |platform productData evs ? ? ? ? ? ? Hdata]; subst.
      eexists. split_and!; [| |done].
      + cbn [files]. unfold written. rewrite Hwrite. apply lookup_insert_eq.
      + cbn [data]. unfold json_roundtrip.
        by apply json_value_clean, normalized_clean, Hdata. }
  assert (served_from_cache md5 env2 url opts w1 = true) as Hserved.
  { unfold served_from_cache. rewrite Hbypass.
    rewrite (cached_fresh _ _ _ _ Hentry (Hfresh _ Hentry)), Hdata. done. }
  rewrite scrapeProduct_hit by done.
  by rewrite (cached_fresh _ _ _ _ Hentry (Hfresh _ Hentry)), Hdata.
Qed.

(** ** Escalation *)

Lemma runs_trace {A} (c : M A) P Q w :
  runs c P Q → ∃ evs, trace (c w).2 = (trace w ++ evs)%list.
Proof. intros Hc. destruct (Hc w) as (r & evs & -> & _). by exists evs. Qed.

Lemma begins_emit ev : begins (emit ev) ev.
Proof. intros w. by exists []. Qed.

Lemma begins_bind {A B} (c : M A) (k : A → M B) P Q ev :
  begins c ev → (∀ a, runs (k a) P Q) → begins (bind c k) ev.
Proof.
  intros Hc Hk w. unfold bind. destruct (Hc w) as (evs & Hevs).
  destruct (c w) as [[e|a] w1]; cbn [snd] in *; [by exists evs|].
  destruct (runs_trace (k a) P Q w1 (Hk a)) as (evs' & ->).
  exists (evs ++ evs')%list. rewrite Hevs, <- app_assoc. done.
Qed.

Lemma begins_try_catch {A} (body : M A) (handler : Exn → M A) P Q ev :
  begins body ev → (∀ e, runs (handler e) P Q) → begins (try_catch body handler) ev.
Proof.
  intros Hc Hh w. unfold try_catch. destruct (Hc w) as (evs & Hevs).
  destruct (body w) as [[e|a] w1]; cbn [snd] in *; [|by exists evs].
  destruct (runs_trace (handler e) P Q w1 (Hh e)) as (evs' & ->).
  exists (evs ++ evs')%list. rewrite Hevs, <- app_assoc. done.
Qed.

Lemma extractDataWithAI_begins run platform :
  begins (extractDataWithAI run platform) EvExtractDataWithAI.
Proof.
  unfold extractDataWithAI.
  eapply (begins_bind _ _ (λ _, True) (λ _, True)); [apply begins_emit|].
  intros _. runs_auto.
Qed.

(** The index result is never complete: the extraction goes on to the AI
    vision extraction. *)
Lemma extractDataWithIndexAndAI_begins ev first second last_resort platform :
  begins (extractDataWithIndexAndAI ev first second last_resort platform)
    EvExtractDataWithAI.
Proof.
  unfold extractDataWithIndexAndAI. cbv zeta.
  rewrite extractBasicDataWithIndex_empty.
  change (index_complete empty_data) with false. cbv iota.
  eapply (begins_try_catch _ _ gather_event (returned (λ _, True))).
  - eapply (begins_bind _ _ (λ _, True) (λ _, True)); [apply extractDataWithAI_begins|].
    intros aiData. destruct (mergedData _ _ _); [by apply runs_ret | by apply runs_throw].
  - intros e. eapply (runs_try_catch _ (λ _, True)); [| done | intros; by apply runs_ret].
    eapply runs_weaken; [apply extractDataWithAI_runs | done | done].
Qed.

Lemma gather_begins env opts platform :
  begins (gather env opts platform) EvExtractDataWithAI.
Proof.
  unfold gather.
  eapply (begins_bind _ _ gather_event (returned (λ _, True)));
    [apply extractDataWithIndexAndAI_begins|].
  intros productData. cbv zeta.
  eapply (runs_bind_returned _ (λ _, True)).
  - destruct (checkDelivery opts); [|by apply runs_ret].
    eapply runs_bind_returned.
    + eapply runs_weaken; [apply checkDeliveryWithAI_runs | | done].
      unfold delivery_event, gather_event. tauto.
    + intros info _. by apply runs_ret.
  - intros productData' _.
    destruct (hasMissingData productData');
      [apply fillMissingDataWithAI_runs | by apply runs_ret].
Qed.

(** The [try] block after the navigation: its calls are those of the
    extraction steps, and its record is the normalised result of these
    steps. *)
Lemma scrape_after_goto env url opts platform w :
  newPage_ok env = true → detectPlatform url = inr platform → goto_ok env = true →
  let gathered :=
    gather env opts platform
      {| trace := (trace w ++ [EvNewPage; EvGoto url])%list; files := files w |} in
  trace (scrape md5 toISOString env url opts w).2 = trace gathered.2
  ∧ ∀ productData,
      gathered.1 = inr productData →
      (scrape md5 toISOString env url opts w).1
      = inr (JObj (normalized toISOString env platform url productData)).
Proof.
  intros Hpage Hplatform Hgoto.
  unfold scrape, bind, step, emit, lift, ret. simpl.
  rewrite Hpage, Hplatform, Hgoto. simpl. rewrite <- app_assoc. simpl.
  destruct (gather env opts platform _) as [[e|pd] w1]; [done|].
  rewrite validate_normalized. unfold cacheProduct.
  split; [by destruct (write_ok env)|].
  intros productData [= <-]. by destruct (write_ok env).
Qed.

(** C1 (the code departs from it).  The index-based extraction does not
    use what the page yields: [extractBasicDataWithIndex] returns its
    empty template whatever the in-page function finds, the test for a
    complete index result fails on it, and every call of the entry point
    that reaches the extraction enters the AI vision extraction right
    after the navigation -- also for a page in which the in-page function
    finds a title, a price, a description and images. *)
Theorem index_result_is_discarded env url opts w platform :
  detectPlatform url = inr platform →
  served_from_cache md5 env url opts w = false →
  launch_ok env = true → newPage_ok env = true → goto_ok env = true →
  extractBasicDataWithIndex (index_eval env) = empty_data
  ∧ index_complete (extractBasicDataWithIndex (index_eval env)) = false
  ∧ ∃ evs,
      trace (scrapeProduct md5 toISOString env url opts w).2
      = (trace w ++ [EvLaunch; EvNewPage; EvGoto url; EvExtractDataWithAI] ++ evs)%list.
Proof.
  intros Hplatform Hmiss Hlaunch Hpage Hgoto.
  rewrite extractBasicDataWithIndex_empty. split_and!; [done | done |].
  rewrite scrapeProduct_miss by done.
  set (w0 := {| trace := (trace w ++ [EvLaunch])%list; files := files w |}).
  destruct (scrape_after_goto env url opts platform w0 Hpage Hplatform Hgoto)
    as [Htrace _].
  destruct (scrape md5 toISOString env url opts w0) as [r w1] eqn:Hrun.
  rewrite (launch_and_scrape_unfold _ _ _ _ _ _ _ _ Hlaunch Hrun).
  cbn [snd trace] in *. rewrite Htrace.
  destruct (gather_begins env opts platform
              {| trace := (trace w0 ++ [EvNewPage; EvGoto url])%list; files := files w0 |})
    as (evs & ->).
  exists (evs ++ [EvClose])%list. cbn [trace w0]. by rewrite <- !app_assoc.
Qed.

(** C9 (the code departs from it).  A record without a title is never
    reported: [handleMissingData] puts "Unknown Product" in the place of a
    missing title before [validateScrapedData] looks at the record, so
    that the validation of a normalised record always passes; a call that
    reaches the extraction returns the normalised record of what the
    extraction steps gathered, with that placeholder as its title when
    they found none; and no error of the entry point carries a status
    other than 400 and 500. *)
Theorem missing_title_is_not_reported env url opts w :
  (∀ platform productData,
     validateScrapedData (normalized toISOString env platform url productData) = inr ())
  ∧ (∀ message status,
       (scrapeProduct md5 toISOString env url opts w).1
       = inl (ScraperError message status) →
       status = 400 ∨ status = 500)
  ∧ (∀ platform,
       detectPlatform url = inr platform →
       served_from_cache md5 env url opts w = false →
       launch_ok env = true → newPage_ok env = true → goto_ok env = true →
       close_ok env = true →
       ∃ productData,
         (gather env opts platform
            {| trace := (trace w ++ [EvLaunch; EvNewPage; EvGoto url])%list;
               files := files w |}).1 = inr productData
         ∧ (scrapeProduct md5 toISOString env url opts w).1
           = inr (JObj (normalized toISOString env platform url productData))
         ∧ (truthy (get "title" productData) = false →
            get "title" (normalized toISOString env platform url productData)
            = JStr "Unknown Product")).
Proof.
  split_and!.
  - intros platform productData. apply validate_normalized.
  - intros message status. apply scraper_error_status.
  - intros platform Hplatform Hmiss Hlaunch Hpage Hgoto Hclose.
    rewrite scrapeProduct_miss by done.
    set (w0 := {| trace := (trace w ++ [EvLaunch])%list; files := files w |}).
    destruct (scrape_after_goto env url opts platform w0 Hpage Hplatform Hgoto)
      as [_ Hrecord].
    cbn [trace files w0] in Hrecord. rewrite <- app_assoc in Hrecord.
    cbn [app] in Hrecord.
    destruct (gather_runs env opts platform
                {| trace := (trace w ++ [EvLaunch; EvNewPage; EvGoto url])%list;
                   files := files w |}) as (r & evs & Hgather & _ & Hr).
    destruct r as [e|productData]; [done|].
    exists productData. rewrite Hgather in Hrecord |- *.
    specialize (Hrecord productData eq_refl).
    destruct (scrape md5 toISOString env url opts w0) as [r w1] eqn:Hrun.
    cbn [fst] in Hrecord. subst r.
    rewrite (launch_and_scrape_unfold _ _ _ _ _ _ _ _ Hlaunch Hrun), Hclose.
    split_and!; [done | done |].
    intros Htitle. unfold normalized. rewrite !get_set_ne by done.
    by apply (handleMissingData_defaults _ _ "title" "Unknown Product"); [left|].
Qed.

(** C4 (as amended).  The images chosen by the in-page function of the
    index-based extraction have no duplicate URL, no entry with a data:
    prefix and at most five entries; and whenever two image arrays are
    merged, no string occurs twice in the result.  (The images of the
    record come from the AI service, and are neither capped nor checked
    for a data: prefix.) *)
Theorem images_invariant :
  (∀ scan data,
     let images := topImages (origin scan) (imageCandidates scan) in
     get "images" (index_page_function scan data) = of_strings images
     ∧ good_images images)
  ∧ (∀ a b r, merge_arrays a b = Some r → ∃ l, r = JArr l ∧ NoDup (strings_of l)).
Proof.
  split_and!.
  - intros scan data. split; [apply index_page_function_images|].
    apply topImages_good.
  - intros a b r Hr. destruct (merge_arrays_spec _ _ _ Hr) as (l & -> & _ & Hnd).
    by exists l.
Qed.

End Claims.

(** * The claims on concrete runs *)

Lemma index_result_is_discarded_witness :
  let env := an_env (IndexDone a_scan_with_weight) 1000 in
  (∃ found, page_evaluate (index_eval env) empty_data = Some found
            ∧ index_complete found = true
            ∧ get "weight" found = JStr "Item weight 350 g")
  ∧ extractBasicDataWithIndex (index_eval env) = empty_data
  ∧ ∃ evs,
      trace (scrapeProduct an_md5 an_iso env a_url default_options a_world).2
      = ([EvLaunch; EvNewPage; EvGoto a_url; EvExtractDataWithAI] ++ evs)%list.
Proof.
  intros env.
  split; [eexists; split; [reflexivity|]; split; vm_compute; reflexivity|].
  destruct (index_result_is_discarded an_md5 an_iso env a_url default_options a_world amazon)
    as (Hempty & _ & Htrace); try reflexivity.
  split; [exact Hempty | exact Htrace].
Defined.

(** The run behind C1: the in-page function finds a title, a price, a
    description, two images and a weight, and the call all the same
    enters the AI vision extraction and sends a request to the AI
    service; the price of its record is the one of the AI reply. *)
Example complete_page_still_uses_ai :
  let env := an_env (IndexDone a_scan_with_weight) 1000 in
  let run := scrapeProduct an_md5 an_iso env a_url no_delivery a_world in
  (∃ found, page_evaluate (index_eval env) empty_data = Some found
            ∧ get "title" found = JStr "Steel Bottle 1L"
            ∧ get "price" found = JStr "₹499"
            ∧ get "description" found = JStr "Keeps drinks cold for a day."
            ∧ get "images" found
              = of_strings ["https://cdn.shop.in/img/bottle.jpg";
                            "https://www.amazon.in/img/bottle-side.jpg"]
            ∧ get "weight" found = JStr "Item weight 350 g")
  ∧ calls EvExtractDataWithAI run.2 = 1%nat
  ∧ calls EvGenerateContent run.2 = 1%nat
  ∧ ∃ record, run.1 = inr (JObj record) ∧ get "price" record = JStr "₹999".
Proof.
  split; [eexists; split; [reflexivity|]; vm_compute; done|].
  vm_compute. split_and!; try done. eexists. split; reflexivity.
Qed.

Lemma record_is_complete_witness :
  let env := an_env (IndexDone a_scan) 1000 in
  served_from_cache an_md5 env a_url default_options a_world = false
  ∧ ∃ r, (scrapeProduct an_md5 an_iso env a_url default_options a_world).1 = inr r
         ∧ complete_record r = true.
Proof.
  intros env. split; [reflexivity|].
  eexists. split; [vm_compute; reflexivity|].
  apply (record_is_complete an_md5 an_iso env a_url default_options a_world);
    [reflexivity | vm_compute; reflexivity].
Defined.

Lemma images_invariant_witness :
  get "images" (index_page_function a_scan empty_data)
  = of_strings ["https://cdn.shop.in/img/bottle.jpg";
                "https://www.amazon.in/img/bottle-side.jpg"]
  ∧ good_images (topImages (origin a_scan) (imageCandidates a_scan))
  ∧ ∃ l, merge_arrays
           (of_strings ["https://cdn.shop.in/1.jpg"; "https://cdn.shop.in/2.jpg"])
           (of_strings ["https://cdn.shop.in/2.jpg"; "https://cdn.shop.in/3.jpg"])
         = Some (JArr l)
         ∧ NoDup (strings_of l).
Proof.
  destruct (images_invariant) as (Hindex & Hmerge).
  destruct (Hindex a_scan empty_data) as [Himages Hgood].
  split; [rewrite Himages; reflexivity|]. split; [exact Hgood|].
  destruct (Hmerge (of_strings ["https://cdn.shop.in/1.jpg"; "https://cdn.shop.in/2.jpg"])
              (of_strings ["https://cdn.shop.in/2.jpg"; "https://cdn.shop.in/3.jpg"])
              _ eq_refl) as (l & Hl & Hnd).
  exists l. split; [by rewrite <- Hl | exact Hnd].
Defined.

(** C4 (as stated) fails: with an AI reply of six distinct images, one of
    them embedded, the record of the pipeline has six images and the
    data: entry among them. *)
Lemma images_counterexample :
  let result :=
    (scrapeProduct an_md5 an_iso (an_env (IndexDone a_scan) 1000) a_url
       no_delivery a_world).1 in
  ∃ o l, result = inr (JObj o)
         ∧ get "images" o = JArr l
         ∧ length l = 6%nat
         ∧ JStr "data:image/png;base64,AAAA" ∈ l.
Proof.
  eexists _, _. split; [vm_compute; reflexivity|].
  split; [vm_compute; reflexivity|]. split; [reflexivity|].
  do 5 right. left.
Qed.

Lemma cache_lookup_witness :
  (* one hour after the entry was written: a hit *)
  getCachedProduct an_md5 (1000 + 3600000) a_url a_cached_world
  = (inr a_cached_record, a_cached_world)
  (* exactly 24 hours after: a miss, and the browser is launched *)
  ∧ getCachedProduct an_md5 (1000 + TTL) a_url a_cached_world = (inr JNull, a_cached_world)
  ∧ ∃ evs,
      trace (scrapeProduct an_md5 an_iso (an_env IndexThrows (1000 + TTL)) a_url
               default_options a_cached_world).2
      = EvLaunch :: evs.
Proof.
  pose proof (cache_lookup an_md5 an_iso (1000 + 3600000) a_url a_cached_world)
    as (Hhit & _).
  pose proof (cache_lookup an_md5 an_iso (1000 + TTL) a_url a_cached_world)
    as (_ & Hstale & _ & Hagain).
  split_and!.
  - apply (Hhit {| timestamp := 1000; entry_url := a_url; data := a_cached_record |});
      [reflexivity | vm_compute; reflexivity].
  - apply (Hstale {| timestamp := 1000; entry_url := a_url; data := a_cached_record |});
      [reflexivity | vm_compute; discriminate].
  - apply (Hagain (an_env IndexThrows (1000 + TTL)) default_options);
      reflexivity.
Defined.

Lemma idempotence_witness :
  let env1 := an_env (IndexDone a_scan_with_weight) 1000 in
  let env2 := an_env IndexThrows 5000000 in
  let first := scrapeProduct an_md5 an_iso env1 a_url default_options a_world in
  ∃ r, first.1 = inr r
       ∧ clean_env env1 = true
       ∧ scrapeProduct an_md5 an_iso env2 a_url default_options first.2 = (inr r, first.2).
Proof.
  intros env1 env2 first.
  eexists. split; [vm_compute; reflexivity|]. split; [reflexivity|].
  apply (idempotence an_md5 an_iso env1 env2 a_url default_options a_world).
  - reflexivity.
  - vm_compute. reflexivity.
  - reflexivity.
  - reflexivity.
  - intros entry Hentry. vm_compute in Hentry. injection Hentry as <-.
    vm_compute. reflexivity.
Defined.

(** C6 (as stated) fails.  In the first run the first call is served from
    an entry that is three milliseconds short of 24 hours old; the second
    call, six milliseconds later, finds the entry expired, extracts again
    and returns another record.  In the second run the cache file cannot
    be written: the second call, six milliseconds after the first,
    extracts again, and its record differs in its [scrapedAt]. *)
Lemma second_call_within_ttl_differs :
  (let env1 := an_env IndexThrows (1000 + TTL - 3) in
   let env2 := an_env IndexThrows (1000 + TTL + 3) in
   let first := scrapeProduct an_md5 an_iso env1 a_url default_options a_cached_world in
   let second := scrapeProduct an_md5 an_iso env2 a_url default_options first.2 in
   bypassCache default_options = false
   ∧ now_lookup env2 - now_lookup env1 = 6
   ∧ first.1 = inr a_cached_record
   ∧ (∃ r2, second.1 = inr (JObj r2) ∧ get "price" r2 = JStr "₹999")
   ∧ second.1 ≠ first.1
   ∧ calls EvLaunch second.2 = 1%nat)
  ∧ (let env1 := an_env_without_cache 1000 in
     let env2 := an_env_without_cache 1006 in
     let first := scrapeProduct an_md5 an_iso env1 a_url default_options a_world in
     let second := scrapeProduct an_md5 an_iso env2 a_url default_options first.2 in
     now_lookup env2 - now_lookup env1 = 6
     ∧ (∃ r1 r2, first.1 = inr (JObj r1) ∧ second.1 = inr (JObj r2)
                 ∧ get "scrapedAt" r1 = JStr "10001"
                 ∧ get "scrapedAt" r2 = JStr "10007")
     ∧ second.1 ≠ first.1).
Proof.
  vm_compute. split_and!; try done.
  - eexists. split; reflexivity.
  - eexists _, _. split_and!; reflexivity.
Qed.

(** Without the second lookup falling within the 24 hours of the entry,
    the second call extracts again and its record differs (here in its
    [scrapedAt]). *)
Example second_call_after_expiry :
  let env1 := an_env (IndexDone a_scan_with_weight) 1000 in
  let env2 := an_env (IndexDone a_scan_with_weight) (1000 + 9002 + TTL) in
  let first := scrapeProduct an_md5 an_iso env1 a_url default_options a_world in
  let second := scrapeProduct an_md5 an_iso env2 a_url default_options first.2 in
  ∃ r1 r2, first.1 = inr (JObj r1) ∧ second.1 = inr (JObj r2)
           ∧ get "scrapedAt" r1 = JStr "10001"
           ∧ get "scrapedAt" r2 = JStr "86419003".
Proof. vm_compute. eexists _, _. split_and!; reflexivity. Qed.

Lemma unsupported_source_witness :
  let env := an_env IndexThrows 1000 in
  supported another_url = false
  ∧ scrapeProduct an_md5 an_iso env another_url default_options a_world
    = (inl (ScraperError "Unsupported platform" 400),
       {| trace := [EvLaunch; EvNewPage; EvClose]; files := ∅ |}).
Proof.
  intros env. split; [reflexivity|].
  apply (unsupported_source an_md5 an_iso env another_url default_options a_world);
    reflexivity.
Defined.

(** C7 (as stated) fails: for a URL of no supported platform the browser
    is launched, and a page opened, before the platform is detected. *)
Lemma unsupported_source_launches_browser :
  let run :=
    scrapeProduct an_md5 an_iso (an_env IndexThrows 1000) another_url default_options
      a_world in
  supported another_url = false
  ∧ run.1 = inl (ScraperError "Unsupported platform" 400)
  ∧ calls EvLaunch run.2 = 1%nat
  ∧ calls EvNewPage run.2 = 1%nat.
Proof. vm_compute. done. Qed.

Lemma navigation_failure_witness :
  let env := an_env_without_navigation 1000 in
  goto_ok env = false
  ∧ scrapeProduct an_md5 an_iso env a_url default_options a_world
    = (inl (ScraperError "Error scraping product: Navigation failed" 500),
       {| trace := [EvLaunch; EvNewPage; EvGoto a_url; EvClose]; files := ∅ |}).
Proof.
  intros env. split; [reflexivity|].
  apply (navigation_failure an_md5 an_iso env a_url default_options a_world amazon);
    reflexivity.
Defined.

(** C8 (as stated) fails: after a navigation that fails, the URL has been
    navigated to once, not twice. *)
Lemma navigation_is_not_retried :
  let run :=
    scrapeProduct an_md5 an_iso (an_env_without_navigation 1000) a_url default_options
      a_world in
  run.1 = inl (ScraperError "Error scraping product: Navigation failed" 500)
  ∧ calls (EvGoto a_url) run.2 = 1%nat
  ∧ calls (EvGoto a_url) run.2 ≠ 2%nat.
Proof. vm_compute. done. Qed.

Lemma missing_title_is_not_reported_witness :
  let env := a_costly_env in
  let w0 := {| trace := [EvLaunch; EvNewPage; EvGoto a_url]; files := ∅ |} in
  ∃ productData record,
    (gather env no_delivery amazon w0).1 = inr productData
    ∧ get "title" productData = JNull
    ∧ (scrapeProduct an_md5 an_iso env a_url no_delivery a_world).1 = inr (JObj record)
    ∧ get "title" record = JStr "Unknown Product".
Proof.
  intros env w0.
  destruct (missing_title_is_not_reported an_md5 an_iso env a_url no_delivery a_world)
    as (_ & _ & Hrun).
  destruct (Hrun amazon) as (productData & Hgather & Hrecord & Htitle); try reflexivity.
  exists productData, (normalized an_iso env amazon a_url productData).
  assert (get "title" productData = JNull) as Hnull.
  { vm_compute in Hgather. injection Hgather as <-. reflexivity. }
  split; [exact Hgather|]. split; [exact Hnull|]. split; [exact Hrecord|].
  apply Htitle. by rewrite Hnull.
Defined.

(** The run behind C9: on a page in which no strategy finds a title, the
    API answers with the status 200 and a record whose title is the
    placeholder. *)
Example title_less_page_is_answered :
  let response :=
    (Http.product_route an_md5 an_iso a_hostname_of production a_costly_env
       (an_api_request a_url) a_world).1 in
  Http.status response = JNum 200
  ∧ ∃ record,
      get "data" (Http.locals_of (Http.content response)) = JObj record
      ∧ get "title" record = JStr "Unknown Product".
Proof. vm_compute. split; [done|]. eexists. split; reflexivity. Qed.

(** * Further properties of the pipeline *)

(** ** The choice of the best candidate *)

Section BestCandidate.

Context {A : Type} (key : A → Z).

Lemma head_insert_desc c l :
  head (insert_desc key c l)
  = match head l with
    | Some d => if key d <=? key c then Some c else Some d
    | None => Some c
    end.
Proof. destruct l as [|d l]; [done|]. simpl. by destruct (key d <=? key c). Qed.

(** The head of the sorted list is the first element of the list among
    those of the highest key. *)
Lemma head_sort_desc l c :
  head (sort_desc key l) = Some c →
  ∃ before after,
    l = (before ++ c :: after)%list
    ∧ Forall (λ d, key d < key c) before
    ∧ Forall (λ d, key d ≤ key c) after.
Proof.
  revert c. induction l as [|a l IH]; intros c; [done|].
  cbn [sort_desc foldr]. fold (sort_desc key l). rewrite head_insert_desc.
  destruct (head (sort_desc key l)) as [d|] eqn:Hd.
  - destruct (IH d eq_refl) as (before & after & -> & Hbefore & Hafter).
    destruct (Z.leb_spec (key d) (key a)); intros [= <-].
    + exists [], (before ++ d :: after)%list. split_and!; [done | done |].
      apply Forall_app. split.
      * eapply Forall_impl; [exact Hbefore|]. simpl. lia.
      * constructor; [lia|]. eapply Forall_impl; [exact Hafter|]. simpl. lia.
    + exists (a :: before), after. split_and!; [done | | done].
      by constructor.
  - intros [= <-]. destruct l as [|b l].
    + by exists [], [].
    + exfalso. cbn [sort_desc foldr] in Hd. fold (sort_desc key l) in Hd.
      rewrite head_insert_desc in Hd. by repeat case_match.
Qed.

Lemma head_sort_desc_None l : head (sort_desc key l) = None → l = [].
Proof.
  destruct l as [|a l]; [done|].
  cbn [sort_desc foldr]. fold (sort_desc key l). rewrite head_insert_desc.
  by repeat case_match.
Qed.

End BestCandidate.

(** X1.  [findBestCandidate] returns nothing exactly for an empty list of
    candidates; otherwise it returns a candidate of the list whose score no
    other candidate exceeds, and among the candidates of that score the one
    that comes first in the list. *)
Theorem findBestCandidate_first_of_best candidates :
  (findBestCandidate candidates = None ↔ candidates = [])
  ∧ ∀ best, findBestCandidate candidates = Some best →
      ∃ before after,
        candidates = (before ++ best :: after)%list
        ∧ Forall (λ c, score c < score best) before
        ∧ Forall (λ c, score c ≤ score best) after.
Proof.
  split.
  - split; [apply head_sort_desc_None | by intros ->].
  - intros best. apply head_sort_desc.
Qed.

(** ** Normalisation is idempotent *)

Lemma js_or_js_or a b c :
  (truthy b = true ∨ b = c) → js_or (js_or a b) c = js_or a b.
Proof.
  unfold js_or. destruct (truthy a) eqn:Ha.
  - by rewrite Ha.
  - intros [Hb | ->]; [by rewrite Hb|]. by destruct (truthy c).
Qed.

Lemma array_or_empty_idem v : array_or_empty (array_or_empty v) = array_or_empty v.
Proof. unfold array_or_empty. by destruct (isArray v) eqn:E; [rewrite E|]. Qed.

Lemma js_nullish_idem a : js_nullish (js_nullish a JNull) JNull = js_nullish a JNull.
Proof. by destruct a. Qed.

(** X2.  Applying [handleMissingData] to a record that it has produced
    changes nothing, whatever the clock shows at the second application:
    the defaults are stable.  (The time stamp of the first application is
    not the empty string.) *)
Theorem handleMissingData_idempotent productData now now' :
  now ≠ EmptyString →
  handleMissingData (handleMissingData productData now) now'
  = handleMissingData productData now.
Proof.
  intros Hnow.
  assert (truthy (JStr now) = true) as Htime.
  { simpl. by destruct (String.eqb_spec now EmptyString). }
  unfold handleMissingData at 1.
  cbn [handleMissingData get opt_prop prop String.eqb Ascii.eqb Bool.eqb].
  rewrite !array_or_empty_idem, js_nullish_idem.
  rewrite !js_or_js_or by (first [by right | by left]).
  done.
Qed.

Lemma handleMissingData_idempotent_witness :
  handleMissingData
    (handleMissingData [("title", JStr "Bottle"); ("images", JStr "none")] "2024-01-01")
    "2025-06-30"
  = handleMissingData [("title", JStr "Bottle"); ("images", JStr "none")] "2024-01-01".
Proof. by apply handleMissingData_idempotent. Defined.

(** ** Which records are sent to the filling step *)

(** X3.  The entry point sends a record to [fillMissingDataWithAI] exactly
    when that function finds a field other than the category missing: a
    record that lacks nothing but its category is not sent, and a record
    that is sent never takes the early return for nothing is missing. *)
Theorem fill_is_called_for_missing_fields productData :
  hasMissingData productData = true
  ↔ ∃ field, field ∈ missingFields productData ∧ field ≠ "category".
Proof.
  unfold hasMissingData, missingFields, missing. split.
  - intros H.
    destruct (truthy (get "title" productData)); cbn [negb];
      [|exists "title"; split; [set_solver | done]].
    destruct (truthy (get "price" productData)); cbn [negb];
      [|exists "price"; split; [set_solver | done]].
    destruct (truthy (get "description" productData)); cbn [negb];
      [|exists "description"; split; [set_solver | done]].
    destruct (truthy (get "weight" productData)); cbn [negb];
      [|exists "weight"; split; [set_solver | done]].
    cbn [negb orb] in H. rewrite H.
    exists "images". split; [|done].
    destruct (truthy (get "category" productData)); cbn [negb]; set_solver.
  - intros (field & Hin & Hfield).
    destruct (truthy (get "title" productData)); [|done].
    destruct (truthy (get "price" productData)); [|done].
    destruct (truthy (get "description" productData)); [|done].
    destruct (truthy (get "weight" productData)); [|done].
    cbn [negb orb app] in *.
    destruct (strict_eq _ _); [done|].
    destruct (truthy (get "category" productData)); cbn [negb app] in Hin.
    + by apply elem_of_nil in Hin.
    + by apply list_elem_of_singleton in Hin.
Qed.

(** ** The full-size images of a Flipkart page *)

Lemma has_char_after_prefix c p s r :
  after_prefix p s = Some r → has_char c s = false → has_char c r = false.
Proof.
  revert s. induction p as [|a p IH]; intros [|b s]; cbn [after_prefix]; try done.
  - by intros [= <-].
  - by intros [= <-].
  - destruct (Ascii.eqb a b); [|done]. cbn [has_char].
    intros Hr [_ Hs]%orb_false_iff. by apply (IH s).
Qed.

Lemma has_char_skip_digits c s : has_char c s = false → has_char c (skip_digits s) = false.
Proof.
  induction s as [|a s IH]; [done|]. cbn [skip_digits].
  destruct (is_digit a); [|done]. cbn [has_char]. intros [_ Hs]%orb_false_iff. by apply IH.
Qed.

Lemma has_char_after_number c s r :
  after_number s = Some r → has_char c s = false → has_char c r = false.
Proof.
  unfold after_number. destruct s as [|a s]; [done|].
  destruct (is_digit a); [|done]. intros Hr Hs.
  eapply has_char_after_prefix; [exact Hr|]. by apply has_char_skip_digits.
Qed.

Lemma has_char_after_size c s r :
  after_size s = Some r → has_char c s = false → has_char c r = false.
Proof.
  unfold after_size.
  destruct (after_prefix "/image/" s) as [s1|] eqn:H1; [|done].
  destruct (after_number s1) as [s2|] eqn:H2; [|done].
  intros H3 Hs.
  eapply has_char_after_number; [exact H3|].
  eapply has_char_after_number; [exact H2|].
  by eapply has_char_after_prefix.
Qed.

Lemma has_char_replace_size s :
  has_char "?" s = false → has_char "?" (replace_size s) = false.
Proof.
  induction s as [|a s IH]; intros Hs.
  - done.
  - cbn [replace_size]. destruct (after_size (String a s)) as [rest|] eqn:Hrest.
    + apply (has_char_after_size "?") in Hrest; [|done]. by cbn.
    + cbn [has_char] in *. apply orb_false_iff in Hs as [-> Hs]. by apply IH.
Qed.

Lemma has_char_before_query s : has_char "?" (before_query s) = false.
Proof.
  induction s as [|a s IH]; [done|].
  change (before_query (String a s))
    with (if Ascii.eqb a "?" then EmptyString else String a (before_query s)).
  destruct (Ascii.eqb a "?") eqn:E; [done|]. cbn [has_char]. by rewrite E.
Qed.

Lemma normalizeImageUrl_clean url u :
  normalizeImageUrl url = Some u → has_char "?" u = false.
Proof.
  unfold normalizeImageUrl. destruct (String.eqb url EmptyString); [done|].
  cbv zeta. destruct (includes _ _); intros [= <-].
  - apply has_char_replace_size, has_char_before_query.
  - apply has_char_before_query.
Qed.

Lemma push_image_collected images img :
  Forall collected images → Forall collected (push_image images img).
Proof.
  intros H. unfold push_image.
  destruct (source_of img) as [src|]; [|done].
  destruct (normalizeImageUrl src) as [u|] eqn:Hu; [|done].
  destruct (String.eqb_spec u EmptyString); cbn [negb andb]; [done|].
  destruct (is_in u images); cbn [negb]; [done|].
  apply Forall_app. split; [done|]. constructor; [|done].
  split; [done | by eapply normalizeImageUrl_clean].
Qed.

Lemma fold_push_image_collected imgs images :
  Forall collected images → Forall collected (fold_left push_image imgs images).
Proof.
  revert images. induction imgs as [|img imgs IH]; intros images H; [done|].
  cbn [fold_left]. by apply IH, push_image_collected.
Qed.

Lemma is_in_elem u l : is_in u l = true ↔ u ∈ l.
Proof.
  unfold is_in. rewrite existsb_exists. split.
  - intros (x & Hin & ->%String.eqb_eq). by apply list_elem_of_In.
  - intros Hin. exists u. split; [by apply list_elem_of_In | apply String.eqb_refl].
Qed.

Lemma unique_from_spec seen l :
  NoDup (unique_from seen l)
  ∧ ∀ u, u ∈ unique_from seen l → u ∈ l ∧ u ∉ seen.
Proof.
  revert seen. induction l as [|a l IH]; intros seen; cbn [unique_from].
  - split; [constructor | by intros u ?%elem_of_nil].
  - destruct (is_in a seen) eqn:Ha.
    + destruct (IH seen) as [Hnd Hin]. split; [done|].
      intros u Hu. destruct (Hin u Hu). split; [by right | done].
    + destruct (IH (a :: seen)) as [Hnd Hin]. split.
      * constructor; [|done]. intros Hu. destruct (Hin a Hu) as [_ Hseen].
        apply Hseen. by left.
      * intros u [->|Hu]%elem_of_cons.
        -- split; [by left|]. intros Hseen%is_in_elem. congruence.
        -- destruct (Hin u Hu) as [? Hseen]. split; [by right|].
           intros ?. apply Hseen. by right.
Qed.

(** X4.  [getFlipkartFullSizeImages] returns at most five image URLs, all
    different, none of them empty and none with a query string, whatever
    the page holds; when the page cannot be evaluated it returns no image
    at all. *)
Theorem flipkart_images_are_few_and_distinct page :
  let images := getFlipkartFullSizeImages page in
  NoDup images
  ∧ (length images ≤ 5)%nat
  ∧ (∀ u, u ∈ images → u ≠ EmptyString ∧ has_char "?" u = false)
  ∧ (page = None → images = []).
Proof.
  cbv zeta. destruct page as [page|]; cbn [getFlipkartFullSizeImages].
  2: { split_and!; [constructor | simpl; lia | by intros u ?%elem_of_nil | done]. }
  unfold flipkart_page_function. cbv zeta.
  set (images := fold_left push_image (thumbnails page) _).
  set (productImages := omap _ _).
  destruct (unique_from_spec [] (images ++ productImages)) as [Hnd Hin].
  split_and!; [| |  |done].
  - eapply sublist_NoDup; [exact Hnd | apply sublist_take].
  - rewrite length_take. lia.
  - intros u Hu%elem_of_take. destruct Hu as (i & Hu & _).
    apply list_elem_of_lookup_2 in Hu. apply Hin in Hu as [Hu _].
    assert (Forall collected images) as Himages.
    { subst images. apply fold_push_image_collected.
      destruct (mainImage page);
        [apply push_image_collected|]; by apply fold_push_image_collected. }
    apply elem_of_app in Hu as [Hu|Hu].
    + rewrite Forall_forall in Himages. by apply Himages.
    + subst productImages. apply list_elem_of_omap in Hu as (img & _ & Himg).
      destruct (normalizeImageUrl (img_src img)) as [url|] eqn:Hurl; [|done].
      destruct (String.eqb_spec url EmptyString); cbn [negb andb] in Himg; [done|].
      destruct (is_in url images); cbn [negb] in Himg; [done|].
      injection Himg as <-. split; [done | by eapply normalizeImageUrl_clean].
Qed.

(** ** What cannot fail *)

Lemma get_source_fallback scan platform :
  get "source" (fallbackExtraction scan platform) = JStr (platform_name platform).
Proof.
  unfold fallbackExtraction.
  repeat case_match; rewrite ?get_set_ne by done; apply get_set_eq.
Qed.

Lemma extractDataWithAI_source run platform :
  runs (extractDataWithAI run platform) gather_event
    (returned (λ data, get "source" data = JStr (platform_name platform))).
Proof.
  unfold extractDataWithAI, gather_event.
  eapply (runs_bind_returned _ (λ _, True)); [by apply runs_emit; [left|] |]. intros _ _.
  eapply (runs_try_catch _
            (thrown_or (λ data, get "source" data = JStr (platform_name platform)))).
  - destruct (capture_ok run); [|by apply runs_throw].
    eapply (runs_try_catch _
              (thrown_or (λ data, get "source" data = JStr (platform_name platform)))).
    + eapply (runs_bind _ (λ _, True));
        [by apply runs_emit; [right; right; right|] | done |].
      intros _ _. unfold with_source.
      repeat case_match;
        first [ by apply runs_throw | apply runs_ret; cbn; apply get_set_eq ].
    + intros data Hdata. exact Hdata.
    + intros e _.
      eapply (runs_try_catch _ (thrown_or (λ data, get "source" data
                                                   = JStr (platform_name platform)))).
      * eapply (runs_bind _ (λ _, True));
          [by apply runs_emit; [right; right; right|] | done |].
        intros _ _. unfold with_source.
        repeat case_match;
          first [ by apply runs_throw | apply runs_ret; cbn; apply get_set_eq ].
      * intros data Hdata. exact Hdata.
      * intros e' _. by apply runs_throw.
  - intros data Hdata. exact Hdata.
  - intros e _. apply runs_ret. cbn. apply get_source_fallback.
Qed.

(** X5.  [extractDataWithAI] never throws: whatever the page and the AI
    service do, it returns a record, and the record names the platform as
    its source.  Hence the last-resort extraction that
    [extractDataWithIndexAndAI] keeps for a failure of its second AI
    attempt is never run: the outcome does not depend on what that
    extraction would find. *)
Theorem the_last_resort_is_never_used :
  (∀ run platform w,
     ∃ data, (extractDataWithAI run platform w).1 = inr data
             ∧ get "source" data = JStr (platform_name platform))
  ∧ (∀ ev first second last_resort last_resort' platform w,
       extractDataWithIndexAndAI ev first second last_resort platform w
       = extractDataWithIndexAndAI ev first second last_resort' platform w).
Proof.
  split.
  - intros run platform w.
    destruct (extractDataWithAI_source run platform w) as (r & evs & -> & _ & Hr).
    destruct r as [e|data]; [done|]. by exists data.
  - intros ev first second last_resort last_resort' platform w.
    unfold extractDataWithIndexAndAI, try_catch.
    destruct (_ w) as [[e|data] w1]; [|done].
    destruct (extractDataWithAI_source second platform w1) as (r & evs & -> & _ & Hr).
    by destruct r.
Qed.

Section Success.

Variable md5 : string → string.
Variable toISOString : Z → string.

(** X6.  Once the browser has started, opened the page and loaded the URL
    of a supported platform, the call returns a record, provided the
    browser closes properly: no failure of the index, of the AI service,
    of the delivery inquiry, of the filling step or of the cache write
    surfaces to the caller. *)
Theorem call_succeeds_once_the_page_is_loaded env url opts w platform :
  detectPlatform url = inr platform →
  launch_ok env = true → newPage_ok env = true → goto_ok env = true →
  close_ok env = true →
  ∃ record, (scrapeProduct md5 toISOString env url opts w).1 = inr record.
Proof.
  intros Hplatform Hlaunch Hpage Hgoto Hclose.
  destruct (served_from_cache md5 env url opts w) eqn:Hserved.
  - rewrite scrapeProduct_hit by done. by eexists.
  - destruct (scrapeProduct_returns md5 toISOString gather_event _ env url opts platform w
                Hserved Hlaunch Hpage Hplatform Hgoto Hclose
                (gather_returns env opts platform))
      as (productData & evs & _ & _ & ->).
    by eexists.
Qed.

End Success.

(** ** The browser, the cache and the metadata of a call *)

Section Calls.

Variable md5 : string → string.
Variable toISOString : Z → string.

Lemma gather_event_page e : gather_event e → page_event e.
Proof. intros H. right. by right. Qed.

(** What the [try] block leaves behind: events of the page, and either
    the cache as it was, with a failure, or the normalised record, written
    to the cache. *)
Lemma scrape_outcome env url opts w :
  ∃ evs,
    trace (scrape md5 toISOString env url opts w).2 = (trace w ++ evs)%list
    ∧ Forall page_event evs
    ∧ ((∃ e, (scrape md5 toISOString env url opts w).1 = inl e
             ∧ files (scrape md5 toISOString env url opts w).2 = files w)
       ∨ (∃ platform productData,
            detectPlatform url = inr platform
            ∧ (scrape md5 toISOString env url opts w).1
              = inr (JObj (normalized toISOString env platform url productData))
            ∧ files (scrape md5 toISOString env url opts w).2
              = written md5 env url
                  (JObj (normalized toISOString env platform url productData)) w)).
Proof.
  destruct (newPage_ok env) eqn:Hpage.
  2: { rewrite (scrape_page_fails md5 toISOString env url opts w Hpage).
       exists [EvNewPage]. split_and!; [done | | by left; eauto].
       constructor; [by left | constructor]. }
  destruct (detectPlatform url) as [e|platform] eqn:Hplatform.
  { rewrite (scrape_unsupported md5 toISOString env url opts w e Hpage Hplatform).
    exists [EvNewPage]. split_and!; [done | | by left; eauto].
    constructor; [by left | constructor]. }
  destruct (goto_ok env) eqn:Hgoto.
  2: { rewrite (scrape_navigation_fails md5 toISOString env url opts w _
                  Hpage Hplatform Hgoto).
       exists [EvNewPage; EvGoto url]. split_and!; [done | | by left; eauto].
       constructor; [by left|].
       constructor; [right; left; eauto | constructor]. }
  destruct (scrape_returns md5 toISOString gather_event _ env url opts platform w
              Hpage Hplatform Hgoto (gather_returns env opts platform))
    as (productData & evs & Hevs & _ & Hrun).
  cbv zeta in Hrun. rewrite Hrun.
  exists ([EvNewPage; EvGoto url] ++ evs)%list.
  split_and!; [done | | right; exists platform, productData; by split_and!].
  constructor; [by left|].
  constructor; [right; left; eauto|].
  eapply Forall_impl; [exact Hevs | apply gather_event_page].
Qed.

Lemma page_event_not_browser e : page_event e → e ≠ EvLaunch ∧ e ≠ EvClose.
Proof.
  intros [->|[[u ->]|H]]; [done | done |].
  destruct H as [->|[->|[->| ->]]]; by split.
Qed.

(** The wrapper around the [try] block, in terms of the block. *)
Lemma launch_and_scrape_world env url opts w :
  launch_ok env = true →
  let w0 := {| trace := (trace w ++ [EvLaunch])%list; files := files w |} in
  let w1 := (scrape md5 toISOString env url opts w0).2 in
  (launch_and_scrape md5 toISOString env url opts w).2
  = {| trace := (trace w1 ++ [EvClose])%list; files := files w1 |}
  ∧ (close_ok env = true →
     (launch_and_scrape md5 toISOString env url opts w).1
     = match (scrape md5 toISOString env url opts w0).1 with
       | inl (Error message) =>
           inl (ScraperError ("Error scraping product: " +:+ message) 500)
       | r => r
       end)
  ∧ (close_ok env = false →
     (launch_and_scrape md5 toISOString env url opts w).1 = inl (Error "close failed")).
Proof.
  intros Hlaunch w0 w1.
  rewrite (launch_and_scrape_unfold md5 toISOString env url opts w
             (scrape md5 toISOString env url opts w0).1 w1 Hlaunch)
    by apply surjective_pairing.
  split_and!; [done | | by intros ->].
  intros ->. cbn [fst]. by destruct (scrape _ _ _ _ _ w0).1 as [[]|].
Qed.

(** X7.  A call that is served from the cache touches neither the browser
    nor the cache.  A call that is not launches one browser; when the
    launch succeeds the browser is closed exactly once, as the last thing
    the call does, whatever happens in between; when it fails nothing
    else is attempted. *)
Theorem browser_is_closed env url opts w :
  let w' := (scrapeProduct md5 toISOString env url opts w).2 in
  (served_from_cache md5 env url opts w = true → w' = w)
  ∧ (served_from_cache md5 env url opts w = false → launch_ok env = false →
     w' = {| trace := (trace w ++ [EvLaunch])%list; files := files w |})
  ∧ (served_from_cache md5 env url opts w = false → launch_ok env = true →
     ∃ between,
       trace w' = (trace w ++ EvLaunch :: between ++ [EvClose])%list
       ∧ (EvLaunch ∉ between) ∧ (EvClose ∉ between)).
Proof.
  cbv zeta. split_and!.
  - intros Hhit. by rewrite scrapeProduct_hit.
  - intros Hmiss Hlaunch. rewrite scrapeProduct_miss by done.
    unfold launch_and_scrape, bind, step, emit, ret, throw. by rewrite Hlaunch.
  - intros Hmiss Hlaunch. rewrite scrapeProduct_miss by done.
    destruct (launch_and_scrape_world env url opts w Hlaunch) as (-> & _).
    destruct (scrape_outcome env url opts
                {| trace := (trace w ++ [EvLaunch])%list; files := files w |})
      as (evs & -> & Hevs & _).
    exists evs. cbn [trace]. rewrite <- !app_assoc. split; [done|].
    rewrite Forall_forall in Hevs.
    split; intros Hin; by destruct (page_event_not_browser _ (Hevs _ Hin)).
Qed.

(** X8.  A call changes no cache file but the one of its own URL; and a
    call that fails after its browser has closed properly, like a call
    that is served from the cache, leaves the whole cache as it was: a
    failure is never cached. *)
Theorem cache_is_written_for_the_url_only env url opts w :
  let r := (scrapeProduct md5 toISOString env url opts w).1 in
  let w' := (scrapeProduct md5 toISOString env url opts w).2 in
  (∀ key, key ≠ md5 url → files w' !! key = files w !! key)
  ∧ (close_ok env = true → (∃ e, r = inl e) → files w' = files w)
  ∧ (served_from_cache md5 env url opts w = true → files w' = files w).
Proof.
  cbv zeta.
  destruct (served_from_cache md5 env url opts w) eqn:Hserved.
  { rewrite scrapeProduct_hit by done. by split_and!. }
  rewrite scrapeProduct_miss by done.
  destruct (launch_ok env) eqn:Hlaunch.
  2: { unfold launch_and_scrape, bind, step, emit, ret, throw. rewrite Hlaunch.
       by split_and!. }
  destruct (launch_and_scrape_world env url opts w Hlaunch) as (-> & Hok & _).
  cbn [files].
  destruct (scrape_outcome env url opts
              {| trace := (trace w ++ [EvLaunch])%list; files := files w |})
    as (evs & _ & _ & [(e & He & Hfiles)|(platform & productData & _ & Hr & Hfiles)]).
  - rewrite Hfiles. by split_and!.
  - rewrite Hfiles. split_and!; [| |done].
    + intros key Hkey. unfold written. cbn [files].
      destruct (write_ok env); [|done]. by rewrite lookup_insert_ne.
    + intros Hclose [e He]. rewrite (Hok Hclose), Hr in He. done.
Qed.

(** X9.  With [bypassCache] the cache is not consulted: the call launches
    the browser even when the cache holds a fresh record.  When such a
    call returns a record and its cache file can be written, the entry of
    the URL is replaced by that record, stamped with the time of the
    write. *)
Theorem bypass_refreshes_the_entry env url opts w r :
  bypassCache opts = true →
  (scrapeProduct md5 toISOString env url opts w).1 = inr r →
  write_ok env = true →
  let w' := (scrapeProduct md5 toISOString env url opts w).2 in
  (∃ evs, trace w' = (trace w ++ EvLaunch :: evs)%list)
  ∧ files w' !! md5 url
    = Some {| timestamp := now_cached env; entry_url := url; data := json_roundtrip r |}.
Proof.
  intros Hbypass Hr Hwrite. cbv zeta.
  assert (served_from_cache md5 env url opts w = false) as Hmiss.
  { unfold served_from_cache. by rewrite Hbypass. }
  rewrite scrapeProduct_miss in * by done.
  split; [apply launch_and_scrape_launches|].
  pose proof (launch_and_scrape_ending md5 toISOString env url opts w) as Hend.
  rewrite Hr in Hend. inversion Hend as [| | | | |platform productData evs]; subst.
  cbn [files]. unfold written. rewrite Hwrite. apply lookup_insert_eq.
Qed.

(** X10.  The record of a call that is not served from the cache names the
    platform that [detectPlatform] finds in the URL as its source, the URL
    itself as its original URL and the time of the call as its time stamp:
    what the page or the AI service supplied under these keys is
    overwritten. *)
Theorem metadata_is_set_by_the_call env url opts w r :
  served_from_cache md5 env url opts w = false →
  (scrapeProduct md5 toISOString env url opts w).1 = inr r →
  ∃ platform record,
    detectPlatform url = inr platform
    ∧ r = JObj record
    ∧ get "source" record = JStr (platform_name platform)
    ∧ get "originalUrl" record = JStr url
    ∧ get "scrapedAt" record = JStr (toISOString (now_scraped env)).
Proof.
  intros Hmiss Hr. rewrite scrapeProduct_miss in Hr by done.
  pose proof (launch_and_scrape_ending md5 toISOString env url opts w) as Hend.
  rewrite Hr in Hend. inversion Hend as [| | | | |platform productData evs]; subst.
  exists platform, (normalized toISOString env platform url productData).
  split_and!; [done | done | | |]; unfold normalized.
  - rewrite !get_set_ne by done. apply get_set_eq.
  - apply get_set_eq.
  - rewrite get_set_ne by done. apply get_set_eq.
Qed.

End Calls.

(** ** The number of requests to the AI service *)

Section Spending.

Context {A B : Type}.

Lemma spends_weaken (c : M A) n m : spends c n → (n ≤ m)%nat → spends c m.
Proof. intros H Hle w. specialize (H w). lia. Qed.

Lemma spends_ret (a : A) n : spends (ret a) n.
Proof. intros w. simpl. lia. Qed.

Lemma spends_throw e n : spends (@throw A e) n.
Proof. intros w. simpl. lia. Qed.

Lemma spends_lift (r : Exn + A) n : spends (lift r) n.
Proof. intros w. simpl. lia. Qed.

Lemma spends_bind (c : M A) (k : A → M B) a b :
  spends c a → (∀ x, spends (k x) b) → spends (bind c k) (a + b).
Proof.
  intros Hc Hk w. unfold bind. specialize (Hc w).
  destruct (c w) as [[e|x] w1]; cbn [snd] in *; [lia|].
  specialize (Hk x w1). lia.
Qed.

Lemma spends_try_catch (body : M A) handler a b :
  spends body a → (∀ e, spends (handler e) b) → spends (try_catch body handler) (a + b).
Proof.
  intros Hc Hk w. unfold try_catch. specialize (Hc w).
  destruct (body w) as [[e|x] w1]; cbn [snd] in *; [|lia].
  specialize (Hk e w1). lia.
Qed.

Lemma spends_finally (body : M A) cleanup a b :
  spends body a → spends cleanup b → spends (finally body cleanup) (a + b).
Proof.
  intros Hc Hk w. unfold finally. specialize (Hc w).
  destruct (body w) as [r w1]; cbn [snd] in *.
  specialize (Hk w1). destruct (cleanup w1) as [[e|x] w2]; cbn [snd] in *; lia.
Qed.

End Spending.

Lemma calls_emit ev ev' w :
  calls ev (emit ev' w).2 = (calls ev w + if bool_decide (ev' = ev) then 1 else 0)%nat.
Proof.
  unfold calls, emit. cbn [snd trace]. rewrite filter_app, length_app.
  rewrite filter_cons, filter_nil. by repeat case_decide.
Qed.

(** A request to the AI service, followed by [k]. *)
Lemma spends_request {B} (k : unit → M B) n :
  spends (k ()) n → spends (bind (emit EvGenerateContent) k) (S n).
Proof.
  intros Hk w. unfold bind.
  pose proof (calls_emit EvGenerateContent EvGenerateContent w) as Hemit.
  destruct (emit EvGenerateContent w) as [[e|[]] w1] eqn:E; [done|].
  cbn [snd] in Hemit. specialize (Hk w1). rewrite Hemit in Hk.
  rewrite bool_decide_true in Hk by done. lia.
Qed.

(** Any other event, followed by [k]. *)
Lemma spends_event {B} ev (k : unit → M B) n :
  ev ≠ EvGenerateContent → spends (k ()) n → spends (bind (emit ev) k) n.
Proof.
  intros Hev Hk w. unfold bind.
  pose proof (calls_emit EvGenerateContent ev w) as Hemit.
  destruct (emit ev w) as [[e|[]] w1] eqn:E; [done|].
  cbn [snd] in Hemit. specialize (Hk w1). rewrite Hemit in Hk.
  rewrite bool_decide_false in Hk by done. lia.
Qed.

Lemma spends_step ev (ok : bool) message n :
  ev ≠ EvGenerateContent → spends (step ev ok message) n.
Proof.
  intros Hev. unfold step. apply spends_event; [done|].
  destruct ok; [apply spends_ret | apply spends_throw].
Qed.

Ltac spends_leaf :=
  repeat first
    [ apply spends_ret | apply spends_throw | apply spends_lift
    | progress intros
    | match goal with
      | |- spends (match ?x with _ => _ end) _ => destruct x
      end ].

Lemma extractDataWithAI_spends run platform : spends (extractDataWithAI run platform) 2.
Proof.
  unfold extractDataWithAI. apply spends_event; [done|].
  apply (spends_try_catch _ _ 2 0); [|spends_leaf].
  destruct (capture_ok run); [|spends_leaf].
  apply (spends_try_catch _ _ 1 1).
  - apply spends_request. spends_leaf.
  - intros _. apply (spends_try_catch _ _ 1 0); [|spends_leaf].
    apply spends_request. spends_leaf.
Qed.

Lemma extractDataWithIndexAndAI_spends ev first second last_resort platform :
  spends (extractDataWithIndexAndAI ev first second last_resort platform) 4.
Proof.
  unfold extractDataWithIndexAndAI. apply (spends_try_catch _ _ 2 2).
  - cbv zeta. destruct (index_complete _); [spends_leaf|].
    apply (spends_bind _ _ 2 0); [apply extractDataWithAI_spends|]. spends_leaf.
  - intros _. apply (spends_try_catch _ _ 2 0); [apply extractDataWithAI_spends|].
    spends_leaf.
Qed.

Lemma checkDeliveryWithAI_spends run platform pincode :
  spends (checkDeliveryWithAI run platform pincode) 1.
Proof.
  unfold checkDeliveryWithAI. apply spends_event; [done|].
  apply (spends_try_catch _ _ 1 0); [|spends_leaf].
  cbv zeta. destruct (_ && _); [spends_leaf|].
  apply (spends_bind _ _ 0 1); [spends_leaf|]. intros _.
  apply (spends_bind _ _ 0 1); [spends_leaf|]. intros [info|]; [spends_leaf|].
  apply (spends_bind _ _ 1 0); [|spends_leaf].
  apply (spends_try_catch _ _ 1 0); [|spends_leaf].
  apply (spends_bind _ _ 0 1); [destruct (screenshot_ok run); spends_leaf|].
  intros _. apply spends_request. spends_leaf.
Qed.

Lemma fill_requests_spends run productData missingFields :
  spends (fill_requests run productData missingFields) 2.
Proof.
  unfold fill_requests.
  apply (spends_bind _ _ 0 2); [destruct (fill_capture_ok run); spends_leaf|].
  intros _. apply (spends_bind _ _ 2 0).
  - apply (spends_try_catch _ _ 1 1).
    + apply spends_request. spends_leaf.
    + intros _. apply (spends_try_catch _ _ 1 0); [|spends_leaf].
      apply spends_request. spends_leaf.
  - intros [merged|]; [spends_leaf|]. destruct (_ && _); spends_leaf.
Qed.

Lemma fillMissingDataWithAI_spends run productData :
  spends (fillMissingDataWithAI run productData) 2.
Proof.
  unfold fillMissingDataWithAI. apply spends_event; [done|]. cbv zeta.
  destruct (_ =? _)%nat; [spends_leaf|].
  apply (spends_try_catch _ _ 2 0); [|spends_leaf].
  destruct (_ =? _)%nat; [spends_leaf|]. apply fill_requests_spends.
Qed.

(** The extraction steps: at most six requests, and at most seven with
    the delivery inquiry. *)
Lemma gather_spends env opts platform :
  spends (gather env opts platform) (if checkDelivery opts then 7 else 6).
Proof.
  unfold gather.
  apply (spends_weaken _ (4 + ((if checkDelivery opts then 1 else 0) + 2)));
    [|destruct (checkDelivery opts); lia].
  apply spends_bind; [apply extractDataWithIndexAndAI_spends|].
  intros productData. cbv zeta. apply spends_bind.
  - destruct (checkDelivery opts); [|spends_leaf].
    apply (spends_bind _ _ 1 0); [apply checkDeliveryWithAI_spends|]. spends_leaf.
  - intros data. destruct (hasMissingData data); [|spends_leaf].
    apply fillMissingDataWithAI_spends.
Qed.

Section Requests.

Variable md5 : string → string.
Variable toISOString : Z → string.

Lemma cacheProduct_spends now ok url data n : spends (cacheProduct md5 now ok url data) n.
Proof. intros w. unfold cacheProduct, calls. destruct ok; cbn [snd trace]; lia. Qed.

Lemma getCachedProduct_spends now url n : spends (getCachedProduct md5 now url) n.
Proof.
  intros w. unfold getCachedProduct.
  destruct (files w !! md5 url); [destruct (_ <? _)|]; cbn [snd]; lia.
Qed.

Lemma scrapeProduct_spends env url opts :
  spends (scrapeProduct md5 toISOString env url opts)
    (if checkDelivery opts then 7 else 6).
Proof.
  set (n := if checkDelivery opts then 7%nat else 6%nat).
  unfold scrapeProduct.
  apply (spends_bind _ _ 0 n).
  { destruct (bypassCache opts); [spends_leaf | apply getCachedProduct_spends]. }
  intros cachedData. destruct (_ && _); [spends_leaf|].
  unfold launch_and_scrape.
  apply (spends_bind _ _ 0 n); [by apply spends_step|]. intros _.
  apply (spends_weaken _ (n + 0 + 0)); [|lia].
  apply spends_finally; [|by apply spends_step].
  apply spends_try_catch; [|spends_leaf].
  unfold scrape.
  apply (spends_bind _ _ 0 n); [by apply spends_step|]. intros _.
  apply (spends_bind _ _ 0 n); [spends_leaf|]. intros platform.
  apply (spends_bind _ _ 0 n); [by apply spends_step|]. intros _.
  apply (spends_weaken _ (n + 0)); [|lia].
  apply spends_bind; [apply gather_spends|]. intros productData. cbv zeta.
  apply (spends_bind _ _ 0 0); [spends_leaf|]. intros _.
  apply (spends_bind _ _ 0 0); [apply cacheProduct_spends|]. spends_leaf.
Qed.

(** X11.  One call of the entry point sends at most seven requests to the
    AI service, whatever the page and the service do: four for the
    extraction, one for the delivery inquiry and two to fill missing
    fields; at most six when the delivery inquiry is switched off, and
    none when the call is served from the cache. *)
Theorem ai_requests_are_bounded env url opts w :
  let w' := (scrapeProduct md5 toISOString env url opts w).2 in
  (calls EvGenerateContent w' ≤ calls EvGenerateContent w + 7)%nat
  ∧ (checkDelivery opts = false →
     (calls EvGenerateContent w' ≤ calls EvGenerateContent w + 6)%nat)
  ∧ (served_from_cache md5 env url opts w = true →
     calls EvGenerateContent w' = calls EvGenerateContent w).
Proof.
  cbv zeta. pose proof (scrapeProduct_spends env url opts w) as H. split_and!.
  - destruct (checkDelivery opts); lia.
  - intros Hoff. by rewrite Hoff in H.
  - intros Hhit. by rewrite scrapeProduct_hit.
Qed.

End Requests.

(** ** The HTTP interface *)

Lemma truthy_js_or a b : truthy b = true → truthy (js_or a b) = true.
Proof. intros Hb. unfold js_or. by destruct (truthy a) eqn:Ha. Qed.

Lemma falsy_is_no_status v n : truthy v = false → n ≠ 0 → strict_eq v (JNum n) = false.
Proof.
  destruct v as [ | | |m| | |]; try done. simpl.
  intros ->%negb_false_iff%Z.eqb_eq Hn. by apply Z.eqb_neq.
Qed.

(** X12.  The error handler always answers with a status: an AxiosError
    without a response, or with a response whose status is missing or
    zero, is answered with 500, a ScraperError without a status code
    with 400, and no error leaves the status undefined, null or zero. *)
Theorem errorHandler_sets_a_status penv err req :
  let response := Http.errorHandler penv err req in
  truthy (Http.status response) = true
  ∧ (get "name" err = JStr "AxiosError" →
     truthy (opt_prop (get "response" err) "status") = false →
     Http.status response = JNum 500)
  ∧ (get "name" err = JStr "ScraperError" →
     truthy (get "statusCode" err) = false →
     Http.status response = JNum 400).
Proof.
  cbv zeta. unfold Http.errorHandler. split_and!.
  - repeat case_match; simplify_eq; cbn [Http.status]; try done;
      by apply truthy_js_or.
  - intros -> Hstatus. cbn [strict_eq String.eqb Ascii.eqb Bool.eqb].
    rewrite !falsy_is_no_status by done. unfold js_or. rewrite Hstatus.
    by destruct (startsWith _ _ && _).
  - intros -> Hstatus. cbn [strict_eq String.eqb Ascii.eqb Bool.eqb].
    unfold js_or. rewrite Hstatus. by destruct (startsWith _ _ && _).
Qed.

Section Route.

Variable md5 : string → string.
Variable toISOString : Z → string.
Variable hostname_of : string → option string.

Lemma validateUrl_responds req r :
  Http.validateUrl hostname_of req = Http.Responds r →
  ∃ message, r = Http.bad_request message.
Proof.
  unfold Http.validateUrl. repeat case_match; intros [= <-]; eauto.
Qed.

Lemma errorHandler_status_of_exn penv req e :
  Http.status (Http.errorHandler penv (Http.error_object e) req)
  = match e with
    | ScraperError _ statusCode => if statusCode =? 0 then JNum 400 else JNum statusCode
    | Error _ => JNum 500
    end.
Proof.
  unfold Http.errorHandler. destruct e as [message statusCode|message];
    cbn [Http.error_object get strict_eq String.eqb Ascii.eqb Bool.eqb];
    destruct (startsWith _ _ && _); cbn [Http.status]; try done;
    unfold js_or; simpl; by destruct (statusCode =? 0).
Qed.

(** The outcomes of the entry point: a value that counts as true, or an
    error whose status, if it has one, is 400 or 500. *)
Lemma scrapeProduct_outcome env url opts w :
  match (scrapeProduct md5 toISOString env url opts w).1 with
  | inr productData => truthy productData = true
  | inl (ScraperError _ statusCode) => statusCode = 400 ∨ statusCode = 500
  | inl (Error _) => True
  end.
Proof.
  destruct (served_from_cache md5 env url opts w) eqn:Hserved.
  - rewrite scrapeProduct_hit by done. cbn [fst].
    by apply andb_true_iff in Hserved as [_ ?].
  - rewrite scrapeProduct_miss by done.
    pose proof (launch_and_scrape_ending md5 toISOString env url opts w) as Hend.
    inversion Hend; auto.
Qed.

(** X13.  [GET /product] answers every request, with one of the statuses
    200, 400 and 500: a request is never answered with 404 (the scraper
    returns no empty result) nor with 422 (a record gets a title before it
    is validated).  The status is 200 exactly when the validator lets the
    request pass and the scraper returns a record, which is then the
    [data] of the answer. *)
Theorem product_route_status penv env req w :
  let response := (Http.product_route md5 toISOString hostname_of penv env req w).1 in
  (Http.status response = JNum 200 ∨ Http.status response = JNum 400
   ∨ Http.status response = JNum 500)
  ∧ (Http.status response = JNum 200
     ↔ ∃ url hostname websiteType productData,
         Http.validateUrl hostname_of req = Http.Next url hostname websiteType
         ∧ (scrapeProduct md5 toISOString env url default_options w).1 = inr productData
         ∧ Http.content response
           = Http.Json [("success", JBool true); ("data", productData)]).
Proof.
  cbv zeta. unfold Http.product_route.
  destruct (Http.validateUrl hostname_of req) as [r|url hostname websiteType] eqn:Hvalid.
  { destruct (validateUrl_responds _ _ Hvalid) as [message ->]. cbn [fst Http.status Http.bad_request].
    split; [auto|]. split; [done|]. by intros (? & ? & ? & ? & ? & _). }
  pose proof (scrapeProduct_outcome env url default_options w) as Hout.
  destruct (scrapeProduct md5 toISOString env url default_options w)
    as [[e|productData] w'] eqn:Hrun; cbn [fst] in *.
  - assert (¬ ∃ url' hostname' websiteType' productData,
              Http.Next url hostname websiteType
              = Http.Next url' hostname' websiteType'
              ∧ (scrapeProduct md5 toISOString env url' default_options w).1
                = inr productData
              ∧ Http.content (Http.product_response penv req (inl (Http.error_object e)))
                = Http.Json [("success", JBool true); ("data", productData)])
      as Hno.
    { intros (? & ? & ? & ? & [= <- <- <-] & Hr & _). by rewrite Hrun in Hr. }
    unfold Http.product_response in *. rewrite errorHandler_status_of_exn.
    destruct e as [message statusCode|message].
    + destruct Hout as [-> | ->]; simpl; (split; [auto | by split]).
    + split; [auto | by split].
  - unfold Http.product_response. rewrite Hout. cbn [negb Http.status Http.content].
    split; [auto|]. split; [|done]. intros _.
    exists url, hostname, websiteType, productData. by rewrite Hrun.
Qed.

(** The Snapdeal host names are not among the eight. *)
Lemma snapdeal_is_not_listed host :
  host ∈ Http.supportedDomains snapdeal →
  host ∉ (Http.supportedDomains flipkart ++ Http.supportedDomains amazon
          ++ Http.supportedDomains myntra)%list.
Proof.
  intros Hin Hother. cbn in Hin, Hother.
  repeat (apply elem_of_cons in Hin as [->|Hin];
          [by repeat (apply elem_of_cons in Hother as [?|Hother]; [done|]);
              apply elem_of_nil in Hother|]).
  by apply elem_of_nil in Hin.
Qed.

(** X14.  A request whose URL is not on one of the eight host names that
    the configuration lists for Flipkart, Amazon and Myntra is answered
    with 400 before the scraper is called: nothing is launched, fetched or
    cached.  This holds for the Snapdeal host names as well, although the
    configuration lists them and the scraper detects the platform. *)
Theorem product_route_rejects_other_hosts penv env req w url parsed :
  Http.query_url req = Some url → url ≠ EmptyString →
  hostname_of url = Some parsed →
  toLowerCase parsed ∉ (Http.supportedDomains flipkart ++ Http.supportedDomains amazon
                        ++ Http.supportedDomains myntra)%list
  ∨ toLowerCase parsed ∈ Http.supportedDomains snapdeal →
  Http.product_route md5 toISOString hostname_of penv env req w
  = (Http.bad_request
       "URL is not from a supported website. Supported websites: Flipkart, Amazon India, Myntra",
     w).
Proof.
  intros Hurl Hnonempty Hparsed Hhost.
  assert (toLowerCase parsed
          ∉ (Http.supportedDomains flipkart ++ Http.supportedDomains amazon
             ++ Http.supportedDomains myntra)%list) as Hother.
  { destruct Hhost as [?|?]; [done | by apply snapdeal_is_not_listed]. }
  unfold Http.product_route, Http.validateUrl. rewrite Hurl.
  destruct (String.eqb_spec url EmptyString) as [|_]; [done|].
  rewrite Hparsed. cbv zeta.
  destruct (existsb _ _) eqn:Hex; [|done]. exfalso. apply Hother.
  apply existsb_exists in Hex as (domain & Hin & Heq).
  apply String.eqb_eq in Heq as ->. by apply list_elem_of_In.
Qed.

End Route.

(** ** The HTML-parsing scraper *)

Section HtmlScraper.

Import AxiosScraper.

Implicit Types (env : AxiosScraper.Env) (t : list Call).

Ltac exec :=
  cbv [AxiosScraper.try_catch AxiosScraper.bind AxiosScraper.finally AxiosScraper.call
       AxiosScraper.step AxiosScraper.lift AxiosScraper.ret AxiosScraper.throw
       instanceof_ScraperError new_ScraperError fst snd scraper].

(** The two TypeErrors of a module in which [ScraperError] is undefined. *)
Local Abbreviation not_a_constructor := (TypeError "ScraperError is not a constructor").
Local Abbreviation not_callable :=
  (TypeError "Right-hand side of 'instanceof' is not callable").

(** The record of a site scraper has a title and a price, so that the
    validation accepts it. *)
Lemma site_record_is_valid x : AxiosScraper.validateScrapedData (site_record x) = inr ().
Proof.
  unfold AxiosScraper.validateScrapedData, site_record.
  cbn [get String.eqb Ascii.eqb Bool.eqb]. by rewrite truthy_js_or_str.
Qed.

(** The scraper that [getScraperByUrl] picks is one of the three. *)
Lemma getScraperByUrl_inr url s :
  getScraperByUrl url = inr s →
  ∃ site, s = scraper site ∧ site ∈ ["Flipkart"; "Amazon.in"; "Myntra"].
Proof.
  unfold getScraperByUrl.
  repeat case_match; intros [= <-]; eexists; (split; [reflexivity|]); set_solver.
Qed.

Lemma getScraperByUrl_inl url e : getScraperByUrl url = inl e → e = not_a_constructor.
Proof. unfold getScraperByUrl. by repeat case_match; intros [= <-]. Qed.

(** The [catch] of [scrapeProduct] fails on its first test, whatever was
    thrown in the [try]. *)
Lemma try_catch_not_callable {A} (body : T A) (handler : Failure → T A) t :
  (∀ e t', handler e t' = (inl not_callable, t')) →
  AxiosScraper.try_catch body handler t
  = match body t with
    | (inl _, t') => (inl not_callable, t')
    | (inr a, t') => (inr a, t')
    end.
Proof.
  intros H. unfold AxiosScraper.try_catch. by destruct (body t) as [[e|a] t'].
Qed.

Lemma titled_bind {A} (c : T A) (k : A → T JsVal) :
  (∀ a, titled (k a)) → titled (AxiosScraper.bind c k).
Proof.
  intros Hk t. unfold AxiosScraper.bind. destruct (c t) as [[e|a] t']; [done|].
  apply Hk.
Qed.

Lemma titled_scraper site p :
  titled (AxiosScraper.bind (AxiosScraper.lift (scraper site p))
            (λ productData,
               AxiosScraper.bind
                 (AxiosScraper.lift (AxiosScraper.validateScrapedData productData))
                 (λ _, AxiosScraper.ret (JObj productData)))).
Proof.
  intros t. destruct p as [message|x]; exec; [done|].
  rewrite site_record_is_valid. eexists. split; [done|].
  cbn [site_record get String.eqb Ascii.eqb Bool.eqb].
  by rewrite !truthy_js_or_str.
Qed.



(** X17.  For a URL that is not a Myntra URL, this version of
    [scrapeProduct] launches no browser and sends at most two requests.
    For an unsupported URL it fails before it makes any external call,
    with the TypeError of [new ScraperError].  Otherwise it sends one
    request for the URL itself, and a second one only for a
    [dl.flipkart.com] URL whose response reports a final URL that differs
    from it, to that final URL. *)
Theorem html_scraper_requests env url t :
  includes "myntra.com" url = false →
  let run := AxiosScraper.scrapeProduct env url t in
  match getScraperByUrl url with
  | inl _ => run = (inl (TypeError "ScraperError is not a constructor"), t)
  | inr _ =>
      run.2 = (t ++ [Get url])%list
      ∨ ∃ response finalUrl,
          run.2 = (t ++ [Get url; Get finalUrl])%list
          ∧ includes "dl.flipkart.com" url = true
          ∧ get_url env = Resolves response
          ∧ request response = Some (Some (Some finalUrl))
          ∧ finalUrl ≠ url
  end.
Proof.
  intros Hmyntra. cbv zeta. unfold AxiosScraper.scrapeProduct. rewrite Hmyntra.
  destruct (getScraperByUrl url) as [e|s] eqn:Hs; exec.
  { by rewrite (getScraperByUrl_inl _ _ Hs). }
  unfold http_get. exec.
  destruct (get_url env) as [response|message code] eqn:Hget.
  2: { by left. }
  destruct (400 <=? status response); [by left|].
  unfold responseUrl.
  destruct (request response) as [[logged|]|] eqn:Hrequest; [|by left..].
  destruct (includes "dl.flipkart.com" url) eqn:Hdl; cbn [andb].
  2: { left. repeat case_match; by simplify_eq. }
  rewrite bool_decide_true by done. rewrite bool_decide_true by done.
  cbn [andb].
  destruct (String.eqb_spec (or_url logged url) url) as [Heq|Hne]; cbn [negb].
  { left. repeat case_match; by simplify_eq. }
  right. exists response, (or_url logged url). rewrite <- app_assoc. split_and!.
  - repeat case_match; by simplify_eq.
  - done.
  - done.
  - unfold or_url in *. destruct logged as [u|]; [|done].
    by destruct (String.eqb_spec u EmptyString).
  - done.
Qed.


(** X19.  A Myntra URL is scraped with the browser, and with nothing else:
    no request is sent.  When the launch fails, its error leaves the call
    as it is.  When it succeeds, the browser is closed as the last step,
    whatever happens to the page in between; the record that the page
    yields is returned as it is, without validation, and a failure of the
    page ends in the TypeError of [new ScraperError], which carries
    neither the message of the failure nor a status. *)
Theorem myntra_is_scraped_with_the_browser env url t :
  includes "myntra.com" url = true →
  let run := AxiosScraper.scrapeProduct env url t in
  (∀ message, launch env = Some message →
     run = (inl (OtherError message), (t ++ [Launch])%list))
  ∧ (launch env = None →
     ∃ steps,
       run.2 = (t ++ Launch :: steps ++ [Close])%list
       ∧ steps `prefix_of` [NewPage; Goto url; Evaluate])
  ∧ (launch env = None → close env = None →
     run.1
     = match newPage env, goto env, evaluate env with
       | None, None, inr productData => inr productData
       | _, _, _ => inl (TypeError "ScraperError is not a constructor")
       end).
Proof.
  intros Hmyntra. cbv zeta. unfold AxiosScraper.scrapeProduct. rewrite Hmyntra.
  unfold scrapeMyntraWithPuppeteer. split_and!.
  - intros message ->. by exec.
  - intros ->. exec.
    destruct (newPage env); [|destruct (goto env); [|destruct (evaluate env)]];
      destruct (close env); rewrite <- !app_assoc;
      first [ by exists [NewPage]; split; [|apply prefix_cons, prefix_nil]
            | by exists [NewPage; Goto url];
                 split; [|apply prefix_cons, prefix_cons, prefix_nil]
            | by exists [NewPage; Goto url; Evaluate] ].
  - intros -> ->. exec.
    by destruct (newPage env); [|destruct (goto env); [|destruct (evaluate env)]].
Qed.

End HtmlScraper.

(** X20.  The two versions of the service support the same sites, apart
    from Snapdeal, which only the later one knows: [getScraperByUrl] finds
    a scraper exactly for the URLs in which [detectPlatform] finds Amazon,
    Flipkart or Myntra.  They differ in precedence: for a URL that
    mentions both Flipkart and Amazon the earlier version picks the
    Flipkart scraper, the later one the Amazon platform. *)
Theorem both_versions_support_the_same_sites url :
  ((∃ s, AxiosScraper.getScraperByUrl url = inr s)
   ↔ ∃ platform, detectPlatform url = inr platform ∧ platform ≠ snapdeal)
  ∧ (includes "flipkart.com" url = true →
     includes "amazon.in" url = true ∨ includes "amzn.in" url = true →
     AxiosScraper.getScraperByUrl url = inr AxiosScraper.flipkartScraper
     ∧ detectPlatform url = inr amazon).
Proof.
  unfold AxiosScraper.getScraperByUrl, detectPlatform. split.
  - destruct (includes "flipkart.com" url), (includes "amazon.in" url),
      (includes "amzn.in" url), (includes "myntra.com" url),
      (includes "snapdeal.com" url); cbn [orb];
      (split; [intros [s Hs]; try done; by eexists | intros (p & [= <-] & Hp); try done; by eexists]).
  - intros -> [-> | ->]; [done|]. by rewrite orb_true_r.
Qed.

(** ** The results page *)

Section ResultsPage.

Import Views.

Variable port : string.
Variable encodeURIComponent : string → string.
Variable api : nat → string → ApiOutcome.

Local Abbreviation scrape_one := (scrape_one port encodeURIComponent api).
Local Abbreviation scrape_all := (scrape_all port encodeURIComponent api).
Local Abbreviation request_url := (request_url port encodeURIComponent).
Local Abbreviation post_scrape := (post_scrape port encodeURIComponent api).

Lemma requests_scrape_one st productUrl :
  requests (scrape_one st productUrl) = (requests st ++ [request_url productUrl])%list.
Proof. unfold Views.scrape_one. by repeat case_match. Qed.

Lemma requests_fold urls st :
  requests (fold_left scrape_one urls st)
  = (requests st ++ (request_url <$> urls))%list.
Proof.
  revert st. induction urls as [|u urls IH]; intros st; cbn [fold_left fmap list_fmap].
  - by rewrite app_nil_r.
  - rewrite IH, requests_scrape_one. by rewrite <- app_assoc.
Qed.


(** The step of the loop adds one product for its line, or one error for
    its line, or nothing. *)
Lemma scrape_one_adds st u :
  let st' := scrape_one st u in
  (∃ p, products st' = (products st ++ [p])%list ∧ errors st' = errors st
        ∧ opt_prop p "source_url" = JStr u)
  ∨ (∃ e, products st' = products st ∧ errors st' = (errors st ++ [e])%list
          ∧ opt_prop e "url" = JStr u)
  ∨ (products st' = products st ∧ errors st' = errors st).
Proof.
  cbv zeta. unfold Views.scrape_one.
  destruct (api _ _) as [data|message response].
  - destruct (_ && _); [|by right; right].
    left. eexists. split_and!; [done | done |].
    unfold opt_prop. cbn [prop]. by rewrite get_set_eq.
  - right. left. by eexists.
Qed.

Lemma scrape_fold urls st :
  ∃ ps es,
    products (fold_left scrape_one urls st) = (products st ++ ps)%list
    ∧ errors (fold_left scrape_one urls st) = (errors st ++ es)%list
    ∧ (λ p, opt_prop p "source_url") <$> ps `sublist_of` JStr <$> urls
    ∧ (λ e, opt_prop e "url") <$> es `sublist_of` JStr <$> urls
    ∧ (length ps + length es ≤ length urls)%nat.
Proof.
  revert st. induction urls as [|u urls IH]; intros st; cbn [fold_left].
  - exists [], []. by rewrite !app_nil_r.
  - destruct (IH (scrape_one st u)) as (ps & es & -> & -> & Hps & Hes & Hlen).
    destruct (scrape_one_adds st u) as
      [(p & -> & -> & Hp)|[(e & -> & -> & He)|[-> ->]]].
    + exists (p :: ps), es. rewrite <- app_assoc. split_and!; [done | done | | |].
      * cbn [fmap list_fmap]. rewrite Hp. by apply sublist_skip.
      * cbn [fmap list_fmap]. by apply sublist_cons.
      * cbn [length]. lia.
    + exists ps, (e :: es). rewrite <- app_assoc. split_and!; [done | done | | |].
      * cbn [fmap list_fmap]. by apply sublist_cons.
      * cbn [fmap list_fmap]. rewrite He. by apply sublist_skip.
      * cbn [length]. lia.
    + exists ps, es. split_and!; [done | done | | |].
      * cbn [fmap list_fmap]. by apply sublist_cons.
      * cbn [fmap list_fmap]. by apply sublist_cons.
      * cbn [length]. lia.
Qed.

(** X22.  The products and the errors of the page come from the lines, in
    their order: every product carries the line it was scraped for as its
    [source_url], whatever the API returned under that key, every error
    the line that failed as its [url], and no line yields more than one
    entry, so that there are at most as many products and errors as
    lines.  (There may be fewer: an answer of the API that does not report
    success adds neither a product nor an error.) *)
Theorem products_and_errors_follow_the_lines urls :
  let st := scrape_all urls in
  (λ p, opt_prop p "source_url") <$> products st `sublist_of` JStr <$> urls
  ∧ (λ e, opt_prop e "url") <$> errors st `sublist_of` JStr <$> urls
  ∧ (length (products st) + length (errors st) ≤ length urls)%nat.
Proof.
  cbv zeta. unfold Views.scrape_all.
  destruct (scrape_fold urls {| products := []; errors := []; requests := [] |})
    as (ps & es & -> & -> & Hps & Hes & Hlen).
  by cbn [products errors app].
Qed.

End ResultsPage.

(** *** Blank lines *)

Example utf8_ex : utf8 0x20B9 = "₹" ∧ utf8 0xE9 = "é" ∧ utf8 0x41 = "A".
Proof. repeat split; reflexivity. Qed.

Example js_length_ex : js_length "₹499" = 4%nat ∧ String.length "₹499" = 6%nat.
Proof. split; reflexivity. Qed.

(** A no-break space, a line separator and a byte order mark are
    stripped like a blank. *)
Example trim_ex :
  Views.trim (utf8 0xA0 +:+ " a" +:+ utf8 0x2028 +:+ "b " +:+ utf8 0xFEFF)
  = "a" +:+ utf8 0x2028 +:+ "b".
Proof. reflexivity. Qed.

Lemma after_prefix_app p s r : after_prefix p s = Some r → s = p +:+ r.
Proof.
  revert s. induction p as [|a p IH]; intros s; cbn [after_prefix].
  - by intros [= ->].
  - destruct s as [|b s]; [done|]. destruct (Ascii.eqb_spec a b) as [->|]; [|done].
    intros H%IH. by rewrite H.
Qed.

Lemma space_at_Some s r :
  Views.space_at s = Some r → ∃ n, n ∈ Views.white_space ∧ s = utf8 n +:+ r.
Proof.
  unfold Views.space_at. intros H.
  assert (r ∈ omap (λ n, after_prefix (utf8 n) s) Views.white_space) as Hin.
  { destruct (omap _ _) as [|x l]; [done|]. injection H as ->. left. }
  apply list_elem_of_omap in Hin as (n & Hn & Hr). exists n. split; [done|].
  by apply after_prefix_app.
Qed.

Lemma space_at_utf8 n x : n ∈ Views.white_space → Views.space_at (utf8 n +:+ x) = Some x.
Proof.
  unfold Views.white_space. intros H.
  repeat (apply elem_of_cons in H as [->|H]; [reflexivity|]).
  by apply elem_of_nil in H.
Qed.

Lemma white_space_newline n :
  n ∈ Views.white_space →
  utf8 n = String Views.newline EmptyString ∨ has_char Views.newline (utf8 n) = false.
Proof.
  unfold Views.white_space. intros H.
  repeat (apply elem_of_cons in H as [->|H]; [by (left + right)|]).
  by apply elem_of_nil in H.
Qed.

Lemma white_space_length n : n ∈ Views.white_space → (0 < String.length (utf8 n))%nat.
Proof.
  unfold Views.white_space. intros H.
  repeat (apply elem_of_cons in H as [->|H]; [cbn; lia|]).
  by apply elem_of_nil in H.
Qed.

Lemma length_append (p r : string) :
  String.length (p +:+ r) = (String.length p + String.length r)%nat.
Proof. induction p as [|a p IH]; [done|]. simpl. by f_equal. Qed.

Lemma space_at_length s r :
  Views.space_at s = Some r → (String.length r < String.length s)%nat.
Proof.
  intros (n & Hn & ->)%space_at_Some. rewrite length_append.
  pose proof (white_space_length n Hn). lia.
Qed.

Lemma trimStart_loop_enough n m s :
  (String.length s ≤ n)%nat → (String.length s ≤ m)%nat →
  Views.trimStart_loop n s = Views.trimStart_loop m s.
Proof.
  revert m s. induction n as [|n IH]; intros m s Hn Hm.
  - destruct s; [|cbn in Hn; lia]. by destruct m.
  - destruct m as [|m].
    + destruct s; [done | cbn in Hm; lia].
    + cbn [Views.trimStart_loop]. destruct (Views.space_at s) as [r|] eqn:Hr; [|done].
      apply space_at_length in Hr. apply IH; lia.
Qed.

Lemma trimStart_unfold s :
  Views.trimStart s
  = match Views.space_at s with
    | Some r => Views.trimStart r
    | None => s
    end.
Proof.
  unfold Views.trimStart. destruct s as [|c s]; [done|].
  cbn [String.length Views.trimStart_loop].
  destruct (Views.space_at (String c s)) as [r|] eqn:Hr; [|done].
  apply space_at_length in Hr. cbn [String.length] in Hr.
  apply trimStart_loop_enough; lia.
Qed.

Lemma string_length_ind (P : string → Prop) :
  (∀ s, (∀ r, (String.length r < String.length s)%nat → P r) → P s) → ∀ s, P s.
Proof.
  intros H s. remember (String.length s) as n eqn:Hn. revert s Hn.
  induction n as [n IH] using lt_wf_ind. intros s ->.
  apply H. intros r Hr. by apply (IH _ Hr).
Qed.

Lemma trimStart_stops s : Views.space_at (Views.trimStart s) = None.
Proof.
  induction s as [s IH] using string_length_ind. rewrite trimStart_unfold.
  destruct (Views.space_at s) as [r|] eqn:Hr; [|done].
  apply IH. by apply space_at_length.
Qed.

Lemma trimStart_idem s : Views.trimStart (Views.trimStart s) = Views.trimStart s.
Proof. rewrite (trimStart_unfold (Views.trimStart s)). by rewrite trimStart_stops. Qed.

Lemma blank_unfold s :
  Views.blank s
  = match Views.space_at s with
    | Some r => Views.blank r
    | None => String.eqb s EmptyString
    end.
Proof. unfold Views.blank. rewrite trimStart_unfold. by destruct (Views.space_at s). Qed.

Lemma trimEnd_empty s : Views.trimEnd s = EmptyString ↔ Views.blank s = true.
Proof.
  destruct s as [|c s]; [done|]. cbn [Views.trimEnd].
  by destruct (Views.blank (String c s)).
Qed.

Lemma trim_blank s : Views.trim s = EmptyString ↔ Views.blank s = true.
Proof.
  unfold Views.trim. rewrite trimEnd_empty. unfold Views.blank. by rewrite trimStart_idem.
Qed.

Lemma split_nonempty c s : Views.split c s ≠ [].
Proof. induction s as [|a s IH]; [done|]. cbn [Views.split]. by repeat case_match. Qed.

Lemma split_append c p s piece pieces :
  has_char c p = false →
  Views.split c s = piece :: pieces →
  Views.split c (p +:+ s) = (p +:+ piece) :: pieces.
Proof.
  intros Hp Hs. induction p as [|a p IH]; [done|].
  cbn [has_char] in Hp. apply orb_false_iff in Hp as [Ha Hp].
  change (Views.split c (String a (p +:+ s)) = String a (p +:+ piece) :: pieces).
  cbn [Views.split]. by rewrite Ha, (IH Hp).
Qed.

(** The first piece is a prefix of the string. *)
Lemma split_prefix c s piece pieces :
  Views.split c s = piece :: pieces → ∃ rest, s = piece +:+ rest.
Proof.
  revert piece pieces. induction s as [|a s IH]; intros piece pieces; cbn [Views.split].
  - intros [= <- <-]. by exists EmptyString.
  - destruct (Ascii.eqb a c).
    + intros [= <- <-]. by eexists.
    + destruct (Views.split c s) as [|hd tl] eqn:Hs; [by destruct (split_nonempty _ _ Hs)|].
      intros [= <- <-]. destruct (IH _ _ eq_refl) as [rest Hrest].
      exists rest. rewrite Hrest at 1. reflexivity.
Qed.

Lemma append_assoc (a b c : string) : (a +:+ b) +:+ c = a +:+ (b +:+ c).
Proof.
  induction a as [|x a IH]; [done|].
  change (String x ((a +:+ b) +:+ c) = String x (a +:+ (b +:+ c))). by rewrite IH.
Qed.

Lemma split_blank s :
  Forall (λ piece, Views.blank piece = true) (Views.split Views.newline s)
  ↔ Views.blank s = true.
Proof.
  induction s as [s IH] using string_length_ind. rewrite (blank_unfold s).
  destruct (Views.space_at s) as [r|] eqn:Hr.
  - pose proof (space_at_length _ _ Hr) as Hlen.
    apply space_at_Some in Hr as (n & Hn & ->).
    destruct (white_space_newline n Hn) as [-> | Hline].
    + change (String Views.newline EmptyString +:+ r) with (String Views.newline r).
      cbn [Views.split]. rewrite Ascii.eqb_refl.
      rewrite Forall_cons, (IH r Hlen). split; [by intros [_ ?] | done].
    + destruct (Views.split Views.newline r) as [|piece pieces] eqn:Hsplit;
        [by destruct (split_nonempty _ _ Hsplit)|].
      rewrite (split_append _ _ _ _ _ Hline Hsplit).
      rewrite <- (IH r Hlen), Hsplit, !Forall_cons.
      by rewrite (blank_unfold (utf8 n +:+ piece)), space_at_utf8.
  - destruct s as [|c s]; [by split; [|constructor]|].
    cbn [String.eqb]. split; [|done]. intros Hall. exfalso.
    destruct (Views.split Views.newline (String c s)) as [|piece pieces] eqn:Hsplit;
      [by destruct (split_nonempty _ _ Hsplit)|].
    apply Forall_cons in Hall as [Hpiece _].
    destruct (split_prefix _ _ _ _ Hsplit) as [rest Hrest].
    rewrite blank_unfold in Hpiece.
    destruct (Views.space_at piece) as [r'|] eqn:Hr'.
    + apply space_at_Some in Hr' as (n & Hn & ->).
      rewrite append_assoc in Hrest. rewrite Hrest, space_at_utf8 in Hr; done.
    + apply String.eqb_eq in Hpiece as ->. cbn [Views.split] in Hsplit.
      destruct (Ascii.eqb_spec c Views.newline) as [->|_].
      * by vm_compute in Hr.
      * by destruct (Views.split Views.newline s).
Qed.

Lemma lines_blank url : Views.lines url = [] ↔ Views.blank url = true.
Proof.
  unfold Views.lines. rewrite <- split_blank.
  induction (Views.split Views.newline url) as [|piece pieces IH];
    cbn [fmap list_fmap].
  - split; [by constructor | done].
  - rewrite Forall_cons, <- IH, <- trim_blank.
    destruct (Views.trim piece) as [|c s] eqn:E.
    + rewrite filter_cons_False by (simpl; lia). tauto.
    + rewrite filter_cons_True by (simpl; lia). split; [done | by intros [? _]].
Qed.


(** * The further properties on concrete runs *)

Example lines_ex :
  Views.lines (" https://www.amazon.in/dp/1 " +:+ String Views.newline EmptyString
               +:+ "   " +:+ String Views.newline EmptyString
               +:+ "https://www.flipkart.com/p/2"
               +:+ String (Ascii.ascii_of_nat 13) (String Views.newline EmptyString))
  = ["https://www.amazon.in/dp/1"; "https://www.flipkart.com/p/2"].
Proof. reflexivity. Qed.

Example errorHandler_ex :
  Http.errorHandler production
    [("name", JStr "AxiosError"); ("message", JStr "Request failed");
     ("response", JObj [("status", JNum 403)])]
    (an_api_request a_url)
  = {| Http.status := JNum 429;
       Http.content :=
         Http.Json [ ("success", JBool false);
                     ("message",
                      JStr "Access denied by website. This may be due to rate limiting");
                     ("error", JUndefined) ] |}.
Proof. reflexivity. Qed.

(** The cache holds a fresh record for the URL; the bypassing call
    scrapes all the same and replaces it. *)
Lemma bypass_refreshes_the_entry_witness :
  let env := an_env (IndexDone a_scan_with_weight) 2000 in
  let run := scrapeProduct an_md5 an_iso env a_url bypassing a_cached_world in
  served_from_cache an_md5 env a_url default_options a_cached_world = true
  ∧ ∃ r, run.1 = inr r
         ∧ files run.2 !! an_md5 a_url
           = Some {| timestamp := 11002; entry_url := a_url; data := json_roundtrip r |}.
Proof.
  intros env run. split; [reflexivity|].
  eexists. split; [vm_compute; reflexivity|].
  apply (bypass_refreshes_the_entry an_md5 an_iso env a_url bypassing a_cached_world);
    [reflexivity | vm_compute; reflexivity | reflexivity].
Defined.

Lemma metadata_is_set_by_the_call_witness :
  let env := an_env (IndexDone a_scan) 1000 in
  ∃ r, (scrapeProduct an_md5 an_iso env a_url default_options a_world).1 = inr r
       ∧ ∃ platform record,
           detectPlatform a_url = inr platform
           ∧ r = JObj record
           ∧ get "source" record = JStr (platform_name platform)
           ∧ get "originalUrl" record = JStr a_url
           ∧ get "scrapedAt" record = JStr (an_iso (now_scraped env)).
Proof.
  intros env. eexists. split; [vm_compute; reflexivity|].
  apply (metadata_is_set_by_the_call an_md5 an_iso env a_url default_options a_world);
    [reflexivity | vm_compute; reflexivity].
Defined.

(** The bound is reached. *)
Lemma ai_requests_are_bounded_witness :
  let run := scrapeProduct an_md5 an_iso a_costly_env a_url default_options a_world in
  calls EvGenerateContent run.2 = 7%nat
  ∧ (calls EvGenerateContent run.2 ≤ calls EvGenerateContent a_world + 7)%nat.
Proof.
  intros run. split; [vm_compute; reflexivity|].
  apply (ai_requests_are_bounded an_md5 an_iso a_costly_env a_url default_options a_world).
Defined.

Lemma call_succeeds_once_the_page_is_loaded_witness :
  ∃ record,
    (scrapeProduct an_md5 an_iso a_costly_env a_url default_options a_world).1 = inr record.
Proof.
  apply (call_succeeds_once_the_page_is_loaded an_md5 an_iso a_costly_env a_url
           default_options a_world amazon); reflexivity.
Defined.

Lemma product_route_rejects_other_hosts_witness :
  detectPlatform a_snapdeal_url = inr snapdeal
  ∧ Http.product_route an_md5 an_iso a_hostname_of production
      (an_env IndexThrows 1000) (an_api_request a_snapdeal_url) a_world
    = (Http.bad_request
         "URL is not from a supported website. Supported websites: Flipkart, Amazon India, Myntra",
       a_world).
Proof.
  split; [reflexivity|].
  apply (product_route_rejects_other_hosts an_md5 an_iso a_hostname_of production
           (an_env IndexThrows 1000) (an_api_request a_snapdeal_url) a_world
           a_snapdeal_url "www.snapdeal.com");
    [reflexivity | discriminate | reflexivity |].
  right. apply list_elem_of_further, list_elem_of_here.
Defined.



Lemma html_scraper_requests_witness :
  let run := AxiosScraper.scrapeProduct (a_site a_page) a_url [] in
  match AxiosScraper.getScraperByUrl a_url with
  | inl _ =>
      run = (inl (AxiosScraper.TypeError "ScraperError is not a constructor"), [])
  | inr _ =>
      run.2 = [AxiosScraper.Get a_url]
      ∨ ∃ response finalUrl,
          run.2 = [AxiosScraper.Get a_url; AxiosScraper.Get finalUrl]
          ∧ includes "dl.flipkart.com" a_url = true
          ∧ AxiosScraper.get_url (a_site a_page) = AxiosScraper.Resolves response
          ∧ AxiosScraper.request response = Some (Some (Some finalUrl))
          ∧ finalUrl ≠ a_url
  end.
Proof.
  apply (html_scraper_requests (a_site a_page) a_url []). reflexivity.
Defined.


(** The navigation to the Myntra page times out: the browser is closed,
    and the call fails with a TypeError. *)
Lemma myntra_is_scraped_with_the_browser_witness :
  AxiosScraper.scrapeProduct (a_site a_page) a_myntra_url []
  = (inl (AxiosScraper.TypeError "ScraperError is not a constructor"),
     [AxiosScraper.Launch; AxiosScraper.NewPage; AxiosScraper.Goto a_myntra_url;
      AxiosScraper.Close]).
Proof.
  destruct (myntra_is_scraped_with_the_browser (a_site a_page) a_myntra_url [])
    as (_ & _ & Hresult); [reflexivity|].
  apply injective_projections; [apply Hresult; reflexivity | reflexivity].
Defined.

(** Of two candidates with the highest score, the first is chosen. *)
Lemma findBestCandidate_first_of_best_witness :
  findBestCandidate some_candidates = Some {| score := 7; text := "Steel Bottle 1L" |}
  ∧ ∃ before after,
      some_candidates
      = (before ++ {| score := 7; text := "Steel Bottle 1L" |} :: after)%list
      ∧ Forall (λ c, score c < 7) before
      ∧ Forall (λ c, score c ≤ 7) after.
Proof.
  split; [reflexivity|].
  apply (proj2 (findBestCandidate_first_of_best some_candidates)). reflexivity.
Defined.

(** A record without a weight is sent to the filling step; a record that
    lacks only its category is not. *)
Lemma fill_is_called_for_missing_fields_witness :
  hasMissingData a_record_without_weight = true
  ∧ hasMissingData a_record_without_category = false
  ∧ missingFields a_record_without_category = ["category"].
Proof.
  split; [|split; reflexivity].
  apply (proj2 (fill_is_called_for_missing_fields a_record_without_weight)).
  exists "weight". split; [apply list_elem_of_here | discriminate].
Defined.

(** Of the eleven images of the page, five remain. *)
Lemma flipkart_images_are_few_and_distinct_witness :
  let images := getFlipkartFullSizeImages (Some a_flipkart_page) in
  images = [ "https://rukminim2.flixcart.com/image/1500/1500/a.jpeg";
             "https://rukminim2.flixcart.com/image/1500/1500/b.jpeg";
             "https://rukminim2.flixcart.com/image/1500/1500/c.jpeg";
             "https://rukminim2.flixcart.com/image/1500/1500/d.jpeg";
             "https://rukminim2.flixcart.com/image/1500/1500/e.jpeg" ]
  ∧ NoDup images
  ∧ (length images ≤ 5)%nat.
Proof.
  intros images. split; [reflexivity|].
  destruct (flipkart_images_are_few_and_distinct (Some a_flipkart_page))
    as (Hnodup & Hlength & _).
  split; [exact Hnodup | exact Hlength].
Defined.

Lemma the_last_resort_is_never_used_witness :
  ∃ data,
    (extractDataWithAI (ai_second a_costly_env) amazon a_world).1 = inr data
    ∧ get "source" data = JStr "amazon".
Proof.
  destruct the_last_resort_is_never_used as [Hreturns _].
  apply (Hreturns (ai_second a_costly_env) amazon a_world).
Defined.

(** The navigation fails: the browser is closed all the same. *)
Lemma browser_is_closed_witness :
  let env := an_env_without_navigation 1000 in
  ∃ between,
    trace (scrapeProduct an_md5 an_iso env a_url default_options a_world).2
    = (trace a_world ++ EvLaunch :: between ++ [EvClose])%list
    ∧ (EvLaunch ∉ between) ∧ (EvClose ∉ between).
Proof.
  intros env.
  destruct (browser_is_closed an_md5 an_iso env a_url default_options a_world)
    as (_ & _ & Hclosed).
  apply Hclosed; reflexivity.
Defined.

(** The entry of the URL has expired and the navigation fails: the entry
    stays as it is. *)
Lemma cache_is_written_for_the_url_only_witness :
  let env := an_env_without_navigation (1000 + TTL) in
  let run := scrapeProduct an_md5 an_iso env a_url default_options a_cached_world in
  (∃ e, run.1 = inl e) ∧ files run.2 = files a_cached_world.
Proof.
  intros env run. split; [by eexists|].
  destruct (cache_is_written_for_the_url_only an_md5 an_iso env a_url default_options
              a_cached_world) as (_ & Hfailure & _).
  apply Hfailure; [reflexivity | by eexists].
Defined.

Lemma errorHandler_sets_a_status_witness :
  Http.status
    (Http.errorHandler production
       [("name", JStr "ScraperError"); ("message", JStr "Unsupported website")]
       (an_api_request a_url))
  = JNum 400.
Proof.
  destruct (errorHandler_sets_a_status production
              [("name", JStr "ScraperError"); ("message", JStr "Unsupported website")]
              (an_api_request a_url)) as (_ & _ & Hscraper).
  apply Hscraper; reflexivity.
Defined.

Lemma product_route_status_witness :
  let env := an_env (IndexDone a_scan) 1000 in
  let response :=
    (Http.product_route an_md5 an_iso a_hostname_of production env
       (an_api_request a_url) a_world).1 in
  Http.status response = JNum 200
  ∧ ∃ url hostname websiteType productData,
      Http.validateUrl a_hostname_of (an_api_request a_url)
      = Http.Next url hostname websiteType
      ∧ (scrapeProduct an_md5 an_iso env url default_options a_world).1 = inr productData
      ∧ Http.content response
        = Http.Json [("success", JBool true); ("data", productData)].
Proof.
  intros env response.
  assert (Http.status response = JNum 200) as Hstatus by (vm_compute; reflexivity).
  split; [exact Hstatus|].
  destruct (product_route_status an_md5 an_iso a_hostname_of production env
              (an_api_request a_url) a_world) as (_ & Hok).
  apply Hok. exact Hstatus.
Defined.

Lemma both_versions_support_the_same_sites_witness :
  AxiosScraper.getScraperByUrl a_redirect_url = inr AxiosScraper.flipkartScraper
  ∧ detectPlatform a_redirect_url = inr amazon.
Proof.
  destruct (both_versions_support_the_same_sites a_redirect_url) as (_ & Hboth).
  apply Hboth; [reflexivity | left; reflexivity].
Defined.


(** Three lines: one product, one error, and one answer without
    success, which leaves no entry. *)
Lemma products_and_errors_follow_the_lines_witness :
  let st := Views.scrape_all "3000" no_encoding an_api (Views.lines a_form_field) in
  length (Views.products st) = 1%nat
  ∧ length (Views.errors st) = 1%nat
  ∧ (λ p, opt_prop p "source_url") <$> Views.products st
    = [JStr "https://www.amazon.in/dp/1"]
  ∧ (λ p, opt_prop p "source_url") <$> Views.products st
    `sublist_of` JStr <$> Views.lines a_form_field.
Proof.
  intros st. split_and!; [reflexivity | reflexivity | reflexivity |].
  apply (products_and_errors_follow_the_lines "3000" no_encoding an_api
           (Views.lines a_form_field)).
Defined.

